(** * The daemon subsystem of [up]: health checks, security checks, auto-repair

    A shallow embedding of [up_core/daemon/health_monitor.py],
    [up_core/daemon/security_monitor.py] and [up_core/daemon/auto_repair.py].

    Conventions of the embedding.
    - Everything the checks read from the machine ([psutil], [os], files,
      sub-processes) is a field of the record [SystemState]; a probe that can
      raise has a result of type [exc].
    - A sub-check is a computation in the monad [SubCheck]: it appends to the
      local list [issues] and may raise.  The enclosing
      [try: ... except Exception: logger.error(...)] followed by
      [return issues] is [try_except]: whatever was appended before the
      exception is returned.
    - Python floats are modelled by the rational numbers they denote.  The
      only float arithmetic the checks compare on is [cpu_count * 1.5] and
      [threshold * 1.5], which is exact for every core count below [2^49];
      comparisons of floats are exact.
    - Text is ASCII: [string] holds the characters of a Python [str]. *)

From Stdlib Require Import ZArith QArith List String Ascii Bool Lia.
From Stdlib Require Import DecimalString.
From Stdlib Require Import Qround Lqa.
Import ListNotations.

Local Open Scope string_scope.
Local Open Scope list_scope.
Local Open Scope Z_scope.

(* ================================================================== *)
(** * Python values and built-ins used by the three modules *)
(* ================================================================== *)

Module Py.

(** An exception instance; [str e] is what [str(e)] prints. *)
Inductive exn : Type := Exception (kind : string) (str : string).

Definition exn_str (e : exn) : string :=
  match e with Exception _ s => s end.

(** The outcome of an expression that may raise. *)
Inductive exc (A : Type) : Type :=
| Ok (a : A)
| Raised (e : exn).
Arguments Ok {A} a.
Arguments Raised {A} e.

Definition ValueError (msg : string) : exn := Exception "ValueError" msg.
Definition TypeError (msg : string) : exn := Exception "TypeError" msg.

(** ** Characters *)

Definition ascii_eqb (a b : ascii) : bool := Ascii.eqb a b.

(** [c.isspace()] on ASCII: TAB, LF, VT, FF, CR, FS, GS, RS, US and space. *)
Definition isspace (c : ascii) : bool :=
  let n := nat_of_ascii c in
  ((9 <=? n) && (n <=? 13) || (28 <=? n) && (n <=? 32))%nat.

(** [c.isdigit()] on ASCII, also the class [\d]. *)
Definition isdigit (c : ascii) : bool :=
  let n := nat_of_ascii c in ((48 <=? n) && (n <=? 57))%nat.

Definition lower_char (c : ascii) : ascii :=
  let n := nat_of_ascii c in
  if ((65 <=? n) && (n <=? 90))%nat then ascii_of_nat (n + 32) else c.

(** ** Strings *)

(** [s.startswith(p)] *)
Definition startswith (s p : string) : bool := String.prefix p s.

(** [x in s] for strings: [x] occurs in [s] as a contiguous block. *)
Fixpoint contains (x s : string) : bool :=
  String.prefix x s ||
  match s with
  | EmptyString => false
  | String _ s' => contains x s'
  end.

(** [s.lower()] *)
Fixpoint lower (s : string) : string :=
  match s with
  | EmptyString => EmptyString
  | String c s' => String (lower_char c) (lower s')
  end.

(** [s.replace(old, new)] for a non-empty [old]: the occurrences of [old]
    are found from left to right and do not overlap.  [skip] counts the
    characters of the occurrence just replaced that are still to be
    dropped. *)
Fixpoint replace_from (old new : string) (skip : nat) (s : string) : string :=
  match s with
  | EmptyString => EmptyString
  | String c s' =>
      match skip with
      | S k => replace_from old new k s'
      | O =>
          if String.prefix old s
          then new ++ replace_from old new (String.length old - 1)%nat s'
          else String c (replace_from old new O s')
      end
  end.

(** With an empty [old], Python puts [new] before every character and at
    the end. *)
Fixpoint intersperse (new s : string) : string :=
  match s with
  | EmptyString => new
  | String c s' => new ++ String c (intersperse new s')
  end.

Definition replace (s old new : string) : string :=
  match old with
  | EmptyString => intersperse new s
  | String _ _ => replace_from old new O s
  end.

(** [s.lstrip()], [s.rstrip()], [s.strip()] *)
Fixpoint lstrip (s : string) : string :=
  match s with
  | String c s' => if isspace c then lstrip s' else s
  | EmptyString => EmptyString
  end.

Fixpoint rstrip_by (drop : ascii -> bool) (s : string) : string :=
  match s with
  | EmptyString => EmptyString
  | String c s' =>
      match rstrip_by drop s' with
      | EmptyString => if drop c then EmptyString else String c EmptyString
      | r => String c r
      end
  end.

Definition rstrip (s : string) : string := rstrip_by isspace s.
Definition strip (s : string) : string := rstrip (lstrip s).

(** [s.rstrip(chars)] *)
Definition rstrip_chars (s chars : string) : string :=
  rstrip_by (fun c => existsb (ascii_eqb c) (list_ascii_of_string chars)) s.

(** [s.split(sep)] for a one-character separator: never an empty list. *)
Fixpoint split_on (sep : ascii) (s : string) : list string :=
  match s with
  | EmptyString => [EmptyString]
  | String c s' =>
      if ascii_eqb c sep then EmptyString :: split_on sep s'
      else match split_on sep s' with
           | w :: ws => String c w :: ws
           | [] => [String c EmptyString]
           end
  end.

(** [s.split()]: the maximal runs of non-blank characters. *)
Fixpoint split_words (cur : string) (s : string) : list string :=
  match s with
  | EmptyString =>
      match cur with EmptyString => [] | _ => [cur] end
  | String c s' =>
      if isspace c
      then match cur with
           | EmptyString => split_words EmptyString s'
           | _ => cur :: split_words EmptyString s'
           end
      else split_words (cur ++ String c EmptyString) s'
  end.

Definition split (s : string) : list string := split_words EmptyString s.

(** [xs[:n]] and [xs[n:]] for a non-negative [n] *)
Definition slice_to {A} (n : nat) (xs : list A) : list A := firstn n xs.
Definition slice_from {A} (n : nat) (xs : list A) : list A := skipn n xs.

(** ** Numbers *)

Definition digit_value (c : ascii) : Z := Z.of_nat (nat_of_ascii c) - 48.

(** The number a run of decimal digits denotes. *)
Fixpoint digits_value (acc : Z) (s : string) : Z :=
  match s with
  | EmptyString => acc
  | String c s' => digits_value (10 * acc + digit_value c) s'
  end.

(** The digits of an integer literal: decimal digits, single underscores
    allowed between two digits. *)
Fixpoint literal_digits (prev_digit : bool) (s : string) : option string :=
  match s with
  | EmptyString => if prev_digit then Some EmptyString else None
  | String c s' =>
      if isdigit c then
        match literal_digits true s' with
        | Some ds => Some (String c ds)
        | None => None
        end
      else if ascii_eqb c "_" && prev_digit then literal_digits false s'
      else None
  end.

(** [int(s)]: blanks around the literal, an optional sign; [ValueError]
    otherwise.  (The interpreter's cap on the length of a literal is left
    out.) *)
Definition int (s : string) : exc Z :=
  let t := strip s in
  let '(sign, body) :=
    match t with
    | String "-" r => (-1, r)
    | String "+" r => (1, r)
    | _ => (1, t)
    end in
  match literal_digits false body with
  | Some ds => Ok (sign * digits_value 0 ds)
  | None => Raised (ValueError ("invalid literal for int() with base 10: " ++ s))
  end.

(** [str(n)] for a natural number, as an f-string prints a [len(...)]. *)
Definition str_of_nat (n : nat) : string :=
  NilZero.string_of_uint (Nat.to_uint n).

(** [os.path.basename(p)]: what follows the last slash. *)
Fixpoint basename_from (cur : string) (p : string) : string :=
  match p with
  | EmptyString => cur
  | String c p' =>
      if ascii_eqb c "/" then basename_from EmptyString p'
      else basename_from (cur ++ String c EmptyString) p'
  end.

Definition basename (p : string) : string := basename_from EmptyString p.

(** ** Rational comparisons, as Booleans *)

Definition Qgeb (x y : Q) : bool := Qle_bool y x.
Definition Qgtb (x y : Q) : bool := negb (Qle_bool x y).
Definition Qltb (x y : Q) : bool := negb (Qle_bool y x).

End Py.

Import Py.

(* ================================================================== *)
(** * The data model shared by the engines *)
(* ================================================================== *)

(** The severity strings ['low'], ['medium'], ['high']. *)
Inductive Severity : Type := low | medium | high.

Definition Severity_eqb (a b : Severity) : bool :=
  match a, b with
  | low, low | medium, medium | high, high => true
  | _, _ => false
  end.

(** What an f-string interpolates or a [data] dictionary stores.  Numbers
    are kept as values, not as their printed form: [VFixed q 2] is
    [f"{q:.2f}"], [VRound q 2] is [round(q, 2)], [VCtime t] is
    [time.ctime(t)]. *)
#[local] Set Warnings "-register-all".
Inductive Value : Type :=
| VStr (s : string)
| VInt (z : Z)
| VNum (q : Q)
| VFixed (q : Q) (precision : nat)
| VRound (q : Q) (ndigits : nat)
| VCtime (t : Q)
| VList (l : list Value)
| VDict (d : list (string * Value)).

(** An issue dictionary.  [description] is the f-string, piece by piece. *)
Record Issue : Type := {
  id : string;
  severity : Severity;
  description : list Value;
  component : string;
  data : list (string * Value)
}.

(** [subprocess.run]: the command, and what comes back. *)
Inductive command : Type :=
| Shell (cmd : string)            (* run(cmd, shell=True, ...) *)
| Argv (args : list string).      (* run([...], ...) *)

Record CompletedProcess : Type := {
  returncode : Z;
  stdout : string
}.

(** [psutil] tuples, with the fields the checks read. *)
Record sdiskpart : Type := {
  device : string;
  mountpoint : string;
  fstype : string
}.

Record sdiskusage : Type := {
  du_total : Z;
  du_free : Z;
  du_percent : Q
}.

Record svmem : Type := {
  vm_total : Z;
  vm_available : Z;
  vm_percent : Q
}.

Record sswap : Type := {
  sw_total : Z;
  sw_used : Z;
  sw_percent : Q
}.

(** [proc.info] of [process_iter(['pid', 'name', 'status'])]; a field the
    process does not disclose is [None]. *)
Record pinfo : Type := {
  pid : Z;
  name : option string;
  status : option string
}.

(** The machine as one check cycle sees it. *)
Record SystemState : Type := {
  psutil_disk_partitions : exc (list sdiskpart);
  psutil_disk_usage : string -> exc sdiskusage;
  psutil_virtual_memory : exc svmem;
  psutil_cpu_count : exc (option Z);
  os_getloadavg : exc (Q * Q * Q);
  psutil_cpu_percent : exc Q;
  psutil_process_iter : exc (list pinfo);
  psutil_swap_memory : exc sswap;
  subprocess_run : command -> exc CompletedProcess;
  os_path_exists : string -> bool;
  os_path_getmtime : string -> exc Q;
  file_read : string -> exc string
}.

(** What [check_performance] reads: the I/O-wait share of CPU time, the
    bytes sent and received since boot, and the milliseconds spent reading
    and writing. *)
Record PerformanceState : Type := {
  psutil_cpu_times_percent_iowait : exc Q;
  psutil_net_io_counters : exc (Z * Z);
  psutil_disk_io_counters : exc (Z * Z)
}.

(** The module-level caches [_health_issues] and [_security_issues]. *)
Record Globals : Type := {
  _health_issues : list Issue;
  _security_issues : list Issue
}.

(* ================================================================== *)
(** * Sub-checks: a local list of issues, and exceptions *)
(* ================================================================== *)

(** A piece of the body of a sub-check: the issues it appends to the local
    list [issues], in order, and its value or the exception it raises.  The
    list is only ever appended to, so what a body does to it is the run of
    issues it adds. *)
Definition SubCheck (A : Type) : Type := list Issue * exc A.

Definition ret {A} (a : A) : SubCheck A := ([], Ok a).

Definition bind {A B} (m : SubCheck A) (k : A -> SubCheck B) : SubCheck B :=
  match m with
  | (added, Ok a) => let '(added', r) := k a in (added ++ added', r)
  | (added, Raised e) => (added, Raised e)
  end.

Notation "x <- m ;; k" := (bind m (fun x => k))
  (at level 61, m at next level, right associativity).
Notation "' pat <- m ;; k" := (bind m (fun x => match x with pat => k end))
  (at level 61, pat pattern, m at next level, right associativity).

(** A call that may raise. *)
Definition call {A} (r : exc A) : SubCheck A := ([], r).

(** [issues.append(i)] *)
Definition append (i : Issue) : SubCheck unit := ([i], Ok tt).

Definition pass : SubCheck unit := ret tt.

(** [for x in xs: body] *)
Fixpoint for_each {A} (xs : list A) (body : A -> SubCheck unit) : SubCheck unit :=
  match xs with
  | [] => pass
  | x :: xs' => _ <- body x ;; for_each xs' body
  end.

(** [issues = []; try: body; except Exception as e: logger.error(...);
    return issues]: what was appended before an exception stays in the
    list that is returned. *)
Definition try_except (body : SubCheck unit) : list Issue := fst body.

(** [any(x in mountpoint for x in ['/boot', '/dev', '/proc', '/sys'])] *)
Definition special_filesystem (mountpoint : string) : bool :=
  existsb (fun x => contains x mountpoint) ["/boot"; "/dev"; "/proc"; "/sys"].

Definition LF : ascii := ascii_of_nat 10.

Definition gib (bytes : Z) : Q := inject_Z bytes / inject_Z (1024 ^ 3).

(* ================================================================== *)
(** * health_monitor.py *)
(* ================================================================== *)

Module health_monitor.

(** Thresholds for health checks *)
Definition DISK_USAGE_THRESHOLD : Q := 90.
Definition MEMORY_USAGE_THRESHOLD : Q := 90.
Definition CPU_USAGE_THRESHOLD : Q := 90.
Definition LOAD_THRESHOLD_FACTOR : Q := 15 # 10.
Definition INODE_USAGE_THRESHOLD : Z := 90.
Definition SWAP_USAGE_THRESHOLD : Q := 80.

Definition _check_disk_usage (st : SystemState) : list Issue :=
  try_except (
    partitions <- call (psutil_disk_partitions st) ;;
    for_each partitions (fun partition =>
      if negb (String.eqb (fstype partition) "")
         && negb (special_filesystem (mountpoint partition))
      then
        usage <- call (psutil_disk_usage st (mountpoint partition)) ;;
        if Qgeb (du_percent usage) DISK_USAGE_THRESHOLD then
          let severity := if Qgeb (du_percent usage) 95 then high else medium in
          append {|
            id := "disk_usage_" ++ replace (mountpoint partition) "/" "_";
            severity := severity;
            description := [VStr "Disk usage at "; VNum (du_percent usage);
                            VStr "% on "; VStr (mountpoint partition)];
            component := "disk";
            data := [("mountpoint", VStr (mountpoint partition));
                     ("usage_percent", VNum (du_percent usage));
                     ("total_gb", VRound (gib (du_total usage)) 2);
                     ("free_gb", VRound (gib (du_free usage)) 2)]
          |}
        else pass
      else pass)).

Definition _check_memory_usage (st : SystemState) : list Issue :=
  try_except (
    memory <- call (psutil_virtual_memory st) ;;
    if Qgeb (vm_percent memory) MEMORY_USAGE_THRESHOLD then
      let severity := if Qgeb (vm_percent memory) 95 then high else medium in
      append {|
        id := "high_memory_usage";
        severity := severity;
        description := [VStr "Memory usage at "; VNum (vm_percent memory); VStr "%"];
        component := "memory";
        data := [("usage_percent", VNum (vm_percent memory));
                 ("total_gb", VRound (gib (vm_total memory)) 2);
                 ("available_gb", VRound (gib (vm_available memory)) 2)]
      |}
    else pass).

(** [cpu_count * LOAD_THRESHOLD_FACTOR]; [psutil.cpu_count()] is [None] when
    the count cannot be determined, and the product then raises. *)
Definition times_factor (cpu_count : option Z) (factor : Q) : exc Q :=
  match cpu_count with
  | Some n => Ok (inject_Z n * factor)%Q
  | None =>
      Raised (TypeError "unsupported operand type(s) for *: 'NoneType' and 'float'")
  end.

Definition cpu_count_value (cpu_count : option Z) : Value :=
  match cpu_count with
  | Some n => VInt n
  | None => VStr "None"
  end.

Definition _check_cpu_load (st : SystemState) : list Issue :=
  try_except (
    (* Get number of CPU cores *)
    cpu_count <- call (psutil_cpu_count st) ;;
    (* Get load averages (1, 5, 15 minutes) *)
    '(load1, load5, load15) <- call (os_getloadavg st) ;;
    (* Check if load average exceeds threshold *)
    threshold <- call (times_factor cpu_count LOAD_THRESHOLD_FACTOR) ;;
    _ <- (if Qgtb load1 threshold then
            let severity :=
              if Qgtb load1 (threshold * (15 # 10))%Q then high else medium in
            append {|
              id := "high_cpu_load";
              severity := severity;
              description := [VStr "High CPU load: "; VFixed load1 2;
                              VStr " (threshold: "; VFixed threshold 2; VStr ")"];
              component := "cpu";
              data := [("load1", VNum load1); ("load5", VNum load5);
                       ("load15", VNum load15);
                       ("cpu_count", cpu_count_value cpu_count);
                       ("threshold", VNum threshold)]
            |}
          else pass) ;;
    (* Also check current CPU usage percentage *)
    cpu_percent <- call (psutil_cpu_percent st) ;;
    if Qgeb cpu_percent CPU_USAGE_THRESHOLD then
      let severity := if Qgeb cpu_percent 95 then high else medium in
      append {|
        id := "high_cpu_usage";
        severity := severity;
        description := [VStr "CPU usage at "; VNum cpu_percent; VStr "%"];
        component := "cpu";
        data := [("usage_percent", VNum cpu_percent)]
      |}
    else pass).

Definition STATUS_ZOMBIE : string := "zombie".

Definition is_zombie (proc : pinfo) : bool :=
  match status proc with
  | Some s => String.eqb s STATUS_ZOMBIE
  | None => false
  end.

Definition opt_str (o : option string) : Value :=
  match o with
  | Some s => VStr s
  | None => VStr "None"
  end.

(** The inner [try ... except (NoSuchProcess, AccessDenied): pass] guards
    two dictionary look-ups on [proc.info], which hold the three keys asked
    for; the zombies are the processes whose status is [STATUS_ZOMBIE]. *)
Definition _check_zombie_processes (st : SystemState) : list Issue :=
  try_except (
    procs <- call (psutil_process_iter st) ;;
    let zombies :=
      map (fun proc => VDict [("pid", VInt (pid proc)); ("name", opt_str (name proc))])
          (filter is_zombie procs) in
    match zombies with
    | [] => pass
    | _ :: _ =>
        let severity := if (10 <? List.length zombies)%nat then medium else low in
        append {|
          id := "zombie_processes";
          severity := severity;
          description := [VStr "Found "; VInt (Z.of_nat (List.length zombies));
                          VStr " zombie processes"];
          component := "process";
          data := [("count", VInt (Z.of_nat (List.length zombies)));
                   ("zombies", VList (slice_to 10 zombies))]
        |}
    end).

Definition _check_inode_usage (st : SystemState) : list Issue :=
  try_except (
    (* Use df command to get inode usage *)
    result <- call (subprocess_run st (Argv ["df"; "-i"])) ;;
    if returncode result =? 0 then
      let lines := split_on LF (strip (stdout result)) in
      for_each (slice_from 1 lines) (fun line =>
        let parts := split line in
        if (5 <=? List.length parts)%nat then
          let filesystem := nth 0 parts "" in
          let inodes_used_percent := rstrip_chars (nth 4 parts "") "%" in
          let mountpoint :=
            if (6 <=? List.length parts)%nat then nth 5 parts "" else nth 4 parts "" in
          (* Skip special filesystems *)
          if special_filesystem mountpoint then pass
          else
            match int inodes_used_percent with
            | Ok inode_percent =>
                if inode_percent >=? INODE_USAGE_THRESHOLD then
                  let severity := if inode_percent >=? 95 then high else medium in
                  append {|
                    id := "inode_usage_" ++ replace mountpoint "/" "_";
                    severity := severity;
                    description := [VStr "Inode usage at "; VInt inode_percent;
                                    VStr "% on "; VStr mountpoint];
                    component := "disk";
                    data := [("mountpoint", VStr mountpoint);
                             ("usage_percent", VInt inode_percent);
                             ("filesystem", VStr filesystem)]
                  |}
                else pass
            | Raised _ => pass           (* except ValueError: pass *)
            end
        else pass)
    else pass).

Definition _check_swap_usage (st : SystemState) : list Issue :=
  try_except (
    swap <- call (psutil_swap_memory st) ;;
    if (0 <? sw_total swap) && Qgeb (sw_percent swap) SWAP_USAGE_THRESHOLD then
      let severity := if Qgeb (sw_percent swap) 95 then high else medium in
      append {|
        id := "high_swap_usage";
        severity := severity;
        description := [VStr "Swap usage at "; VNum (sw_percent swap); VStr "%"];
        component := "memory";
        data := [("usage_percent", VNum (sw_percent swap));
                 ("total_gb", VRound (gib (sw_total swap)) 2);
                 ("used_gb", VRound (gib (sw_used swap)) 2)]
      |}
    else pass).

Definition _check_system_updates (st : SystemState) : list Issue :=
  try_except (
    (* Example for Debian-based systems using apt *)
    result <- call (subprocess_run st (Argv ["apt"; "list"; "--upgradable"])) ;;
    if (returncode result =? 0) && negb (contains "Listing..." (stdout result)) then
      let updates := split_on LF (strip (stdout result)) in
      match updates with
      | [] => pass
      | _ :: _ =>
          let severity := low in
          append {|
            id := "system_updates_available";
            severity := severity;
            description := [VInt (Z.of_nat (List.length updates));
                            VStr " system updates available"];
            component := "system";
            data := [("count", VInt (Z.of_nat (List.length updates)));
                     ("updates", VList (map VStr (slice_to 10 updates)))]
          |}
      end
    else pass).

(** Run all health checks and return issues; the module-level list is
    replaced by the new one. *)
Definition check_health (st : SystemState) (g : Globals) : list Issue * Globals :=
  let issues := [] in
  let issues := issues ++ _check_disk_usage st in
  let issues := issues ++ _check_memory_usage st in
  let issues := issues ++ _check_cpu_load st in
  let issues := issues ++ _check_zombie_processes st in
  let issues := issues ++ _check_inode_usage st in
  let issues := issues ++ _check_swap_usage st in
  let issues := issues ++ _check_system_updates st in
  (issues, {| _health_issues := issues; _security_issues := _security_issues g |}).

Definition get_health_issues (g : Globals) : list Issue := _health_issues g.

Definition _check_io_wait (ps : PerformanceState) : list Issue :=
  try_except (
    io_wait <- call (psutil_cpu_times_percent_iowait ps) ;;
    if Qgtb io_wait 20 then  (* Example threshold *)
      let severity := if Qgtb io_wait 30 then high else medium in
      append {|
        id := "high_io_wait";
        severity := severity;
        description := [VStr "High I/O wait time: "; VNum io_wait; VStr "%"];
        component := "io";
        data := [("io_wait_percent", VNum io_wait)]
      |}
    else pass).

Definition _check_network_saturation (ps : PerformanceState) : list Issue :=
  try_except (
    '(bytes_sent, bytes_recv) <- call (psutil_net_io_counters ps) ;;
    (* Example threshold (1 GB/s) *)
    let threshold := 1024 ^ 3 in
    if (bytes_sent >? threshold) || (bytes_recv >? threshold) then
      let severity := high in
      append {|
        id := "network_saturation";
        severity := severity;
        description := [VStr "Network saturation detected"];
        component := "network";
        data := [("bytes_sent", VInt bytes_sent);
                 ("bytes_recv", VInt bytes_recv);
                 ("threshold", VInt threshold)]
      |}
    else pass).

Definition _check_disk_io_performance (ps : PerformanceState) : list Issue :=
  try_except (
    '(read_time, write_time) <- call (psutil_disk_io_counters ps) ;;
    (* Example threshold (1000 ms) *)
    let threshold := 1000 in
    if (read_time >? threshold) || (write_time >? threshold) then
      let severity := high in
      append {|
        id := "slow_disk_io";
        severity := severity;
        description := [VStr "Slow disk I/O performance detected"];
        component := "disk";
        data := [("read_time_ms", VInt read_time);
                 ("write_time_ms", VInt write_time);
                 ("threshold", VInt threshold)]
      |}
    else pass).

(** Run performance-specific checks; the module-level list is not touched. *)
Definition check_performance (ps : PerformanceState) : list Issue :=
  let issues := [] in
  let issues := issues ++ _check_io_wait ps in
  let issues := issues ++ _check_network_saturation ps in
  let issues := issues ++ _check_disk_io_performance ps in
  issues.

End health_monitor.

(* ================================================================== *)
(** * security_monitor.py *)
(* ================================================================== *)

Module security_monitor.

Definition _check_failed_logins (st : SystemState) : list Issue :=
  try_except (
    (* Check auth.log for failed login attempts *)
    let cmd := "grep 'Failed password' /var/log/auth.log | wc -l" in
    result <- call (subprocess_run st (Shell cmd)) ;;
    if returncode result =? 0 then
      count <- call (int (strip (stdout result))) ;;
      if count >? 10 then
        let severity := if count >? 50 then high else medium in
        append {|
          id := "failed_login_attempts";
          severity := severity;
          description := [VStr "Detected "; VInt count; VStr " failed login attempts"];
          component := "authentication";
          data := [("count", VInt count)]
        |}
      else pass
    else pass).

Definition _check_sudo_usage (st : SystemState) : list Issue :=
  try_except (
    (* Check sudo log for unauthorized attempts *)
    let cmd := "grep 'authentication failure' /var/log/auth.log | grep sudo | wc -l" in
    result <- call (subprocess_run st (Shell cmd)) ;;
    if returncode result =? 0 then
      count <- call (int (strip (stdout result))) ;;
      if count >? 5 then
        let severity := if count >? 20 then high else medium in
        append {|
          id := "unauthorized_sudo_usage";
          severity := severity;
          description := [VStr "Detected "; VInt count;
                          VStr " unauthorized sudo attempts"];
          component := "authentication";
          data := [("count", VInt count)]
        |}
      else pass
    else pass).

(** The longest run of digits at the head of [s], and what follows it. *)
Fixpoint span_digits (s : string) : string * string :=
  match s with
  | EmptyString => (EmptyString, EmptyString)
  | String c s' =>
      if isdigit c
      then let '(ds, rest) := span_digits s' in (String c ds, rest)
      else (EmptyString, s)
  end.

(** [re.findall(r':(\d+)\s', s)]: the digit groups of the matches, found
    from left to right without overlap.  A match at a colon takes all the
    digits that follow it (a blank is no digit, so giving digits back never
    helps) and the one blank after them; [skip] counts the characters of
    the last match still to be passed. *)
Fixpoint findall_ports (skip : nat) (s : string) : list string :=
  match s with
  | EmptyString => []
  | String c s' =>
      match skip with
      | S k => findall_ports k s'
      | O =>
          if ascii_eqb c ":" then
            match span_digits s' with
            | (String d ds, String w _) =>
                if isspace w
                then String d ds :: findall_ports (String.length (String d ds) + 1)%nat s'
                else findall_ports O s'
            | _ => findall_ports O s'
            end
          else findall_ports O s'
      end
  end.

(** Define allowed ports (customize based on your environment) *)
Definition allowed_ports : list Z :=
  [22;    (* SSH *)
   80;    (* HTTP *)
   443;   (* HTTPS *)
   3306;  (* MySQL *)
   5432;  (* PostgreSQL *)
   8000;  (* Django development server *)
   8080]. (* Alternative HTTP *)

Definition port_allowed (port_num : Z) : bool :=
  existsb (Z.eqb port_num) allowed_ports.

Definition _check_open_ports (st : SystemState) : list Issue :=
  try_except (
    (* Get list of listening ports *)
    let cmd := "ss -tuln | grep LISTEN" in
    result <- call (subprocess_run st (Shell cmd)) ;;
    if returncode result =? 0 then
      (* Parse output to find listening ports *)
      let ports := findall_ports O (stdout result) in
      for_each ports (fun port =>
        port_num <- call (int port) ;;
        if negb (port_allowed port_num) then
          append {|
            id := "unexpected_open_port_" ++ port;
            severity := medium;
            description := [VStr "Unexpected open port: "; VStr port];
            component := "network";
            data := [("port", VInt port_num)]
          |}
        else pass)
    else pass).

(** List of potentially suspicious process names *)
Definition suspicious_names : list string :=
  ["nc"; "netcat"; "ncat";     (* Netcat *)
   "nmap";                     (* Network scanning *)
   "hydra"; "medusa";          (* Password cracking *)
   "wireshark"; "tcpdump";     (* Network sniffing *)
   "metasploit";               (* Penetration testing *)
   "backdoor"; "rootkit"].     (* Malware *)

Definition _check_suspicious_processes (st : SystemState) : list Issue :=
  try_except (
    (* Get list of running processes *)
    let cmd := "ps -eo comm" in
    result <- call (subprocess_run st (Shell cmd)) ;;
    if returncode result =? 0 then
      let processes := split_on LF (strip (stdout result)) in
      for_each suspicious_names (fun suspicious =>
        for_each processes (fun process =>
          if contains (lower suspicious) (lower process) then
            append {|
              id := "suspicious_process_" ++ suspicious;
              severity := high;
              description := [VStr "Suspicious process detected: "; VStr process];
              component := "process";
              data := [("process_name", VStr process)]
            |}
          else pass))
    else pass).

Definition critical_files : list string :=
  ["/bin/bash"; "/bin/sh"; "/bin/ls"; "/bin/login"; "/bin/su";
   "/usr/bin/sudo"; "/etc/passwd"; "/etc/shadow"; "/etc/ssh/sshd_config"].

(** [time.time() - mtime < 86400]: modified in the last 24 hours. *)
Definition recently_modified (now mtime : Q) : bool :=
  Qltb (now - mtime)%Q 86400.

(** [now] is what [time.time()] returns; the clock is read once for each
    file that exists, and the model takes one reading for the cycle. *)
Definition _check_modified_system_files (st : SystemState) (now : Q) : list Issue :=
  try_except (
    for_each critical_files (fun file_path =>
      if os_path_exists st file_path then
        (* Check if file was modified in the last 24 hours *)
        mtime <- call (os_path_getmtime st file_path) ;;
        if recently_modified now mtime then
          append {|
            id := "modified_system_file_" ++ basename file_path;
            severity := high;
            description := [VStr "Recently modified system file: "; VStr file_path];
            component := "filesystem";
            data := [("file_path", VStr file_path);
                     ("modified_time", VCtime mtime)]
          |}
        else pass
      else pass)).

Definition ssh_config_path : string := "/etc/ssh/sshd_config".

Definition _check_ssh_config (st : SystemState) : list Issue :=
  try_except (
    if os_path_exists st ssh_config_path then
      config <- call (file_read st ssh_config_path) ;;
      (* Check for root login *)
      _ <- (if contains "PermitRootLogin yes" config then
              append {|
                id := "ssh_root_login_enabled";
                severity := high;
                description := [VStr "SSH root login is enabled"];
                component := "ssh";
                data := [("config_file", VStr ssh_config_path)]
              |}
            else pass) ;;
      (* Check for password authentication *)
      if contains "PasswordAuthentication yes" config then
        append {|
          id := "ssh_password_auth_enabled";
          severity := medium;
          description := [VStr "SSH password authentication is enabled"];
          component := "ssh";
          data := [("config_file", VStr ssh_config_path)]
        |}
      else pass
    else pass).

Definition _check_firewall_status (st : SystemState) : list Issue :=
  try_except (
    (* Check if ufw is active *)
    let cmd := "ufw status | grep -q 'Status: active'" in
    result <- call (subprocess_run st (Shell cmd)) ;;
    if negb (returncode result =? 0) then
      (* Try checking iptables *)
      let cmd := "iptables -L | grep -q 'Chain INPUT'" in
      result <- call (subprocess_run st (Shell cmd)) ;;
      if negb (returncode result =? 0) then
        append {|
          id := "firewall_disabled";
          severity := high;
          description := [VStr "Firewall appears to be disabled"];
          component := "network";
          data := []
        |}
      else pass
    else pass).

(** Run all security checks and return issues; the module-level list is
    replaced by the new one. *)
Definition check_security (st : SystemState) (now : Q) (g : Globals)
  : list Issue * Globals :=
  let issues := [] in
  let issues := issues ++ _check_failed_logins st in
  let issues := issues ++ _check_sudo_usage st in
  let issues := issues ++ _check_open_ports st in
  let issues := issues ++ _check_suspicious_processes st in
  let issues := issues ++ _check_modified_system_files st now in
  let issues := issues ++ _check_ssh_config st in
  let issues := issues ++ _check_firewall_status st in
  (issues, {| _health_issues := _health_issues g; _security_issues := issues |}).

Definition get_security_issues (g : Globals) : list Issue := _security_issues g.

End security_monitor.

(* ================================================================== *)
(** * auto_repair.py *)
(* ================================================================== *)

Module auto_repair.

(** A repair-result dictionary. *)
Record RepairResult : Type := {
  success : bool;
  r_id : string;
  message : string
}.

Definition DQ : string := String (ascii_of_nat 34) EmptyString.

(** [s.splitlines()] on ASCII text: a line ends at LF, VT, FF, CR, CR LF,
    FS, GS or RS; no empty last line. *)
Definition line_end (c : ascii) : bool :=
  let n := nat_of_ascii c in
  ((10 <=? n) && (n <=? 13) || (28 <=? n) && (n <=? 30))%nat.

Fixpoint splitlines_from (cur : string) (s : string) : list string :=
  match s with
  | EmptyString =>
      match cur with EmptyString => [] | _ => [cur] end
  | String c s' =>
      if ascii_eqb c (ascii_of_nat 13) then
        match s' with
        | String c' s'' =>
            if ascii_eqb c' LF then cur :: splitlines_from EmptyString s''
            else cur :: splitlines_from EmptyString s'
        | EmptyString => [cur]
        end
      else if line_end c then cur :: splitlines_from EmptyString s'
      else splitlines_from (cur ++ String c EmptyString) s'
  end.

Definition splitlines (s : string) : list string := splitlines_from EmptyString s.

Definition str_of_Z (z : Z) : string :=
  NilZero.string_of_int (Z.to_int z).

(** [str(cmd)] for the command of a [CalledProcessError]. *)
Definition command_str (c : command) : string :=
  match c with
  | Shell cmd => cmd
  | Argv args => "[" ++ String.concat ", " (map (fun a => ("'" ++ a ++ "'")%string) args) ++ "]"
  end.

(** The exception of [check=True] for a non-zero exit status.  (For a
    status below zero Python names the signal instead; the text is then
    another one.) *)
Definition CalledProcessError (c : command) (rc : Z) : exn :=
  Exception "CalledProcessError"
    ("Command '" ++ command_str c ++ "' returned non-zero exit status "
       ++ str_of_Z rc ++ ".").

(** [except socket.error]: [socket.error] is [OSError]. *)
Definition is_socket_error (e : exn) : bool :=
  match e with Exception kind _ => String.eqb kind "OSError" end.

Section Host.

(** The machine the handlers act on.  [run] is [subprocess.run]: it may
    change the machine, and may raise; [exists_] is [os.path.exists];
    [observe] and [clock] are what a check cycle started now would see. *)
Variable W : Type.
Variable run : command -> W -> exc CompletedProcess * W.
Variable exists_ : string -> W -> bool.
Variable observe : W -> SystemState.
Variable clock : W -> Q.

(** Library functions: [float(s)] and [socket.inet_aton(s)]. *)
Variable float : string -> exc Q.
Variable inet_aton : string -> exc unit.

(** The body of a handler: runs on the machine, may raise. *)
Definition Repair (A : Type) : Type := W -> exc A * W.

Definition rret {A} (a : A) : Repair A := fun w => (Ok a, w).

Definition rbind {A B} (m : Repair A) (k : A -> Repair B) : Repair B :=
  fun w =>
    match m w with
    | (Ok a, w') => k a w'
    | (Raised e, w') => (Raised e, w')
    end.

Notation "x <~ m ;; k" := (rbind m (fun x => k))
  (at level 61, m at next level, right associativity).

Definition raise {A} (e : exn) : Repair A := fun w => (Raised e, w).

Definition lift_exc {A} (r : exc A) : Repair A := fun w => (r, w).

Definition path_exists (p : string) : Repair bool := fun w => (Ok (exists_ p w), w).

(** [subprocess.run(c, ..., check=False)] *)
Definition run_nocheck (c : command) : Repair CompletedProcess := run c.

(** [subprocess.run(c, ..., check=True)] *)
Definition run_check (c : command) : Repair CompletedProcess :=
  result <~ run c ;;
  if returncode result =? 0 then rret result
  else raise (CalledProcessError c (returncode result)).

(** [try: body  except Exception as e: return on_error(e)] *)
Definition try_repair (body : Repair RepairResult) (on_error : exn -> RepairResult)
  : W -> RepairResult * W :=
  fun w =>
    match body w with
    | (Ok r, w') => (r, w')
    | (Raised e, w') => (on_error e, w')
    end.

(** [for x in xs: body] *)
Fixpoint rfor {A} (xs : list A) (body : A -> Repair unit) : Repair unit :=
  match xs with
  | [] => rret tt
  | x :: xs' => _ <~ body x ;; rfor xs' body
  end.

(** [try: subprocess.run(['kill', pid], check=False)
     except Exception as e: logger.error(...)] *)
Definition kill (pid : string) : Repair unit :=
  fun w =>
    match run (Argv ["kill"; pid]) w with
    | (_, w') => (Ok tt, w')
    end.

(** Extract mountpoint from issue_id *)
Definition disk_mountpoint (issue_id : string) : string :=
  let mountpoint := replace (replace issue_id "disk_usage_" "") "_" "/" in
  if negb (startswith mountpoint "/") then "/" ++ mountpoint else mountpoint.

Definition _repair_disk_usage (issue_id : string) : W -> RepairResult * W :=
  try_repair (
    let mountpoint := disk_mountpoint issue_id in
    (* Clean package cache if it's the root filesystem *)
    _ <~ (if String.eqb mountpoint "/" then
            _ <~ (apt <~ path_exists "/usr/bin/apt" ;;
                  if apt then
                    _ <~ run_check (Argv ["apt-get"; "clean"]) ;;
                    _ <~ run_check (Argv ["apt-get"; "autoremove"; "-y"]) ;;
                    rret tt
                  else
                    yum <~ path_exists "/usr/bin/yum" ;;
                    if yum then
                      _ <~ run_check (Argv ["yum"; "clean"; "all"]) ;; rret tt
                    else rret tt) ;;
            (* Remove old log files *)
            _ <~ run_nocheck
                   (Shell ("find /var/log -type f -name " ++ DQ ++ "*.gz" ++ DQ ++ " -delete")) ;;
            _ <~ run_nocheck
                   (Shell ("find /var/log -type f -name " ++ DQ ++ "*.1" ++ DQ ++ " -delete")) ;;
            rret tt
          else rret tt) ;;
    (* Remove temporary files *)
    _ <~ rfor ["/tmp"; "/var/tmp"] (fun temp_dir =>
           present <~ path_exists temp_dir ;;
           if present then
             _ <~ run_nocheck (Shell ("find " ++ temp_dir ++ " -type f -atime +7 -delete")) ;;
             rret tt
           else rret tt) ;;
    rret {| success := true;
            r_id := issue_id;
            message := "Cleaned up disk space on " ++ mountpoint |})
  (fun e => {| success := false;
               r_id := issue_id;
               message := "Failed to clean up disk space: " ++ exn_str e |}).

(** The pids of the lines (header skipped) whose column [col] is a number
    above [limit]; [float] raises on a column that is no number. *)
Fixpoint collect_pids (col : nat) (limit : Q) (lines : list string)
  : exc (list string) :=
  match lines with
  | [] => Ok []
  | line :: rest =>
      let parts := split line in
      if (col + 1 <=? List.length parts)%nat then
        let pid := nth 1 parts "" in
        match float (nth col parts "") with
        | Raised e => Raised e
        | Ok percent =>
            match collect_pids col limit rest with
            | Raised e => Raised e
            | Ok pids => Ok (if Qgtb percent limit then pid :: pids else pids)
            end
        end
      else collect_pids col limit rest
  end.

Definition _repair_cpu_usage : W -> RepairResult * W :=
  try_repair (
    (* Find processes using high CPU *)
    let cmd := "ps aux --sort=-%cpu | head -11" in
    result <~ run_check (Shell cmd) ;;
    (* Look for runaway processes (using more than 90% CPU) *)
    high_cpu_pids <~
      lift_exc (collect_pids 2 90 (slice_from 1 (splitlines (stdout result)))) ;;
    (* Terminate runaway processes if found *)
    match high_cpu_pids with
    | _ :: _ =>
        _ <~ rfor high_cpu_pids kill ;;
        rret {| success := true;
                r_id := "cpu_usage_high";
                message := "Terminated " ++ str_of_nat (List.length high_cpu_pids)
                             ++ " high CPU processes" |}
    | [] =>
        rret {| success := false;
                r_id := "cpu_usage_high";
                message := "No runaway processes found to terminate" |}
    end)
  (fun e => {| success := false;
               r_id := "cpu_usage_high";
               message := "Failed to repair CPU usage: " ++ exn_str e |}).

Definition _repair_memory_usage : W -> RepairResult * W :=
  try_repair (
    (* Find processes using high memory *)
    let cmd := "ps aux --sort=-%mem | head -11" in
    result <~ run_check (Shell cmd) ;;
    (* Clear system caches *)
    _ <~ run_nocheck (Shell "sync && echo 3 > /proc/sys/vm/drop_caches") ;;
    (* Look for memory leaks (processes using more than 80% memory) *)
    high_mem_pids <~
      lift_exc (collect_pids 3 80 (slice_from 1 (splitlines (stdout result)))) ;;
    match high_mem_pids with
    | _ :: _ =>
        _ <~ rfor high_mem_pids kill ;;
        rret {| success := true;
                r_id := "memory_usage_high";
                message := "Terminated " ++ str_of_nat (List.length high_mem_pids)
                             ++ " high memory processes and cleared caches" |}
    | [] =>
        rret {| success := true;
                r_id := "memory_usage_high";
                message := "Cleared system caches" |}
    end)
  (fun e => {| success := false;
               r_id := "memory_usage_high";
               message := "Failed to repair memory usage: " ++ exn_str e |}).

(** [try: socket.inet_aton(ip)  except socket.error: ...]: whether the
    address is valid; an exception of another class goes on to the
    handler's own [except]. *)
Definition valid_ip (ip : string) : Repair bool :=
  match inet_aton ip with
  | Ok _ => rret true
  | Raised e => if is_socket_error e then rret false else raise e
  end.

Definition _repair_ssh_brute_force (issue_id : string) : W -> RepairResult * W :=
  try_repair (
    (* Extract IP from issue_id *)
    let ip := replace (replace issue_id "ssh_brute_force_" "") "_" "." in
    (* Check if IP is valid *)
    valid <~ valid_ip ip ;;
    if negb valid then
      rret {| success := false;
              r_id := issue_id;
              message := "Invalid IP address: " ++ ip |}
    else
      (* Block the IP using iptables *)
      let cmd := ("iptables -A INPUT -s " ++ ip ++ " -j DROP")%string in
      _ <~ run_check (Shell cmd) ;;
      (* Make iptables rules persistent (depends on the distribution) *)
      save <~ path_exists "/usr/bin/iptables-save" ;;
      _ <~ (if save then
              rules <~ path_exists "/etc/iptables/rules.v4" ;;
              if rules then
                _ <~ run_nocheck (Shell "iptables-save > /etc/iptables/rules.v4") ;;
                rret tt
              else
                _ <~ run_nocheck (Shell "iptables-save > /etc/iptables.rules") ;;
                rret tt
            else rret tt) ;;
      rret {| success := true;
              r_id := issue_id;
              message := "Blocked IP " ++ ip ++ " using iptables" |})
  (fun e => {| success := false;
               r_id := issue_id;
               message := "Failed to block IP: " ++ exn_str e |}).

Definition _repair_open_port (issue_id : string) : W -> RepairResult * W :=
  try_repair (
    (* Extract port from issue_id *)
    let port := replace issue_id "unexpected_open_port_" "" in
    (* If we couldn't find or kill the process, return failure *)
    let failure :=
      {| success := false;
         r_id := issue_id;
         message := "Could not close port " ++ port
                      ++ ": no process found or failed to terminate" |} in
    (* Find process using the port *)
    let cmd := ("lsof -i :" ++ port ++ " | grep LISTEN")%string in
    result <~ run_nocheck (Shell cmd) ;;
    if (returncode result =? 0) && negb (String.eqb (stdout result) "") then
      (* Extract PID *)
      let lines := split_on LF (strip (stdout result)) in
      match lines with
      | [] => rret failure
      | line :: _ =>
          let parts := split line in
          if (1 <? List.length parts)%nat then
            let process_name := nth 0 parts "" in
            let pid := nth 1 parts "" in
            (* Terminate the process *)
            _ <~ run_nocheck (Argv ["kill"; pid]) ;;
            rret {| success := true;
                    r_id := issue_id;
                    message := "Closed port " ++ port ++ " by terminating process "
                                 ++ process_name ++ " (PID " ++ pid ++ ")" |}
          else rret failure
      end
    else rret failure)
  (fun e => {| success := false;
               r_id := issue_id;
               message := "Failed to close port: " ++ exn_str e |}).

Definition _repair_security_updates : W -> RepairResult * W :=
  try_repair (
    let applied :=
      rret {| success := true;
              r_id := "security_updates_available";
              message := "Applied available security updates" |} in
    (* Update package lists *)
    apt <~ path_exists "/usr/bin/apt" ;;
    if apt then
      _ <~ run_check (Argv ["apt-get"; "update"]) ;;
      (* Upgrade security updates *)
      _ <~ run_check (Argv ["apt-get"; "upgrade"; "--only-upgrade"; "-y"; "-o";
                            "APT::Get::Show-Upgraded=true"]) ;;
      applied
    else
      yum <~ path_exists "/usr/bin/yum" ;;
      if yum then
        _ <~ run_check (Argv ["yum"; "update"; "-y"; "--security"]) ;; applied
      else
        dnf <~ path_exists "/usr/bin/dnf" ;;
        if dnf then
          _ <~ run_check (Argv ["dnf"; "upgrade"; "-y"; "--security"]) ;; applied
        else
          pacman <~ path_exists "/usr/bin/pacman" ;;
          if pacman then
            _ <~ run_check (Argv ["pacman"; "-Syuq"; "--needed"]) ;; applied
          else
            rret {| success := false;
                    r_id := "security_updates_available";
                    message := "No supported package manager found" |})
  (fun e => {| success := false;
               r_id := "security_updates_available";
               message := "Failed to apply security updates: " ++ exn_str e |}).

Definition _repair_suspicious_process (issue_id : string) : W -> RepairResult * W :=
  try_repair (
    (* Extract process name from issue_id *)
    let process_name := replace issue_id "suspicious_process_" "" in
    (* Find and terminate the process *)
    let cmd := ("pgrep " ++ process_name)%string in
    result <~ run_nocheck (Shell cmd) ;;
    if (returncode result =? 0) && negb (String.eqb (stdout result) "") then
      let pids := split_on LF (strip (stdout result)) in
      _ <~ rfor pids kill ;;
      rret {| success := true;
              r_id := issue_id;
              message := "Terminated suspicious process " ++ process_name |}
    else
      rret {| success := false;
              r_id := issue_id;
              message := "No suspicious process " ++ process_name ++ " found" |})
  (fun e => {| success := false;
               r_id := issue_id;
               message := "Failed to repair suspicious process: " ++ exn_str e |}).

(** A handler called from the dispatcher: it returns, it does not raise. *)
Definition handler (h : W -> RepairResult * W) : Repair RepairResult :=
  fun w => let '(r, w') := h w in (Ok r, w').

(** Repair a specific issue by ID *)
Definition repair_issue (issue_id : string) : W -> RepairResult * W :=
  try_repair (
    (* Disk usage issues *)
    if startswith issue_id "disk_usage_" then
      handler (_repair_disk_usage issue_id)
    (* CPU usage issues *)
    else if String.eqb issue_id "cpu_usage_high" then
      handler _repair_cpu_usage
    (* Memory usage issues *)
    else if String.eqb issue_id "memory_usage_high" then
      handler _repair_memory_usage
    (* SSH brute force issues *)
    else if startswith issue_id "ssh_brute_force_" then
      handler (_repair_ssh_brute_force issue_id)
    (* Unexpected open port issues *)
    else if startswith issue_id "unexpected_open_port_" then
      handler (_repair_open_port issue_id)
    (* Security updates issues *)
    else if String.eqb issue_id "security_updates_available" then
      handler _repair_security_updates
    (* Suspicious process issues *)
    else if startswith issue_id "suspicious_process_" then
      handler (_repair_suspicious_process issue_id)
    else
      rret {| success := false;
              r_id := issue_id;
              message := "No repair method available for this issue" |})
  (fun e => {| success := false;
               r_id := issue_id;
               message := "Error during repair: " ++ exn_str e |}).

(** [for issue in all_issues: results.append(repair_issue(issue['id']))] *)
Fixpoint repair_each (all_issues : list Issue) (results : list RepairResult) (w : W)
  : list RepairResult * W :=
  match all_issues with
  | [] => (results, w)
  | issue :: rest =>
      let '(result, w') := repair_issue (id issue) w in
      repair_each rest (results ++ [result]) w'
  end.

(** Attempt to repair all detected issues.  Neither check nor
    [repair_issue] raises, so the [except] of [repair_all] has nothing to
    catch. *)
Definition repair_all (w : W) (g : Globals) : list RepairResult * W * Globals :=
  let results := [] in
  (* Get all issues *)
  let '(health_issues, g) := health_monitor.check_health (observe w) g in
  let '(security_issues, g) := security_monitor.check_security (observe w) (clock w) g in
  let all_issues := health_issues ++ security_issues in
  (* Attempt to repair each issue *)
  let '(results, w) := repair_each all_issues results w in
  (results, w, g).

(** [for issue in ...: if issue['severity'] == 'high': repair_issue(...)] *)
Fixpoint repair_critical (issues : list Issue) (w : W) : W :=
  match issues with
  | [] => w
  | issue :: rest =>
      if Severity_eqb (severity issue) high
      then repair_critical rest (snd (repair_issue (id issue) w))
      else repair_critical rest w
  end.

(** One turn of [_repair_loop], up to the wait. *)
Definition _repair_cycle (w : W) (g : Globals) : W * Globals :=
  let '(health_issues, g) := health_monitor.check_health (observe w) g in
  let '(security_issues, g) := security_monitor.check_security (observe w) (clock w) g in
  (repair_critical (health_issues ++ security_issues) w, g).

End Host.

End auto_repair.

(* ================================================================== *)
(** * Sample machines *)
(* ================================================================== *)

Module Samples.

Definition missing (what : string) : exn := Exception "FileNotFoundError" what.

(** An idle machine: nothing mounted, nothing listening, every command
    answers with exit status 1 and no output. *)
Definition idle : SystemState := {|
  psutil_disk_partitions := Ok [];
  psutil_disk_usage := fun m => Raised (missing m);
  psutil_virtual_memory :=
    Ok {| vm_total := 8 * 1024 ^ 3; vm_available := 6 * 1024 ^ 3; vm_percent := 25 |};
  psutil_cpu_count := Ok (Some 2);
  os_getloadavg := Ok (0, 0, 0)%Q;
  psutil_cpu_percent := Ok 1%Q;
  psutil_process_iter := Ok [];
  psutil_swap_memory := Ok {| sw_total := 0; sw_used := 0; sw_percent := 0 |};
  subprocess_run := fun _ => Ok {| returncode := 1; stdout := "" |};
  os_path_exists := fun _ => false;
  os_path_getmtime := fun p => Raised (missing p);
  file_read := fun p => Raised (missing p)
|}.

Definition no_cache : Globals := {| _health_issues := []; _security_issues := [] |}.

(** One ext4 file system mounted at [m], [percent] full. *)
Definition with_disk (m : string) (percent : Q) (st : SystemState) : SystemState := {|
  psutil_disk_partitions := Ok [{| device := "/dev/sdb1"; mountpoint := m; fstype := "ext4" |}];
  psutil_disk_usage := fun _ =>
    Ok {| du_total := 100 * 1024 ^ 3; du_free := 4 * 1024 ^ 3; du_percent := percent |};
  psutil_virtual_memory := psutil_virtual_memory st;
  psutil_cpu_count := psutil_cpu_count st;
  os_getloadavg := os_getloadavg st;
  psutil_cpu_percent := psutil_cpu_percent st;
  psutil_process_iter := psutil_process_iter st;
  psutil_swap_memory := psutil_swap_memory st;
  subprocess_run := subprocess_run st;
  os_path_exists := os_path_exists st;
  os_path_getmtime := os_path_getmtime st;
  file_read := file_read st
|}.

(** Memory [percent] full. *)
Definition with_memory (percent : Q) (st : SystemState) : SystemState := {|
  psutil_disk_partitions := psutil_disk_partitions st;
  psutil_disk_usage := psutil_disk_usage st;
  psutil_virtual_memory :=
    Ok {| vm_total := 8 * 1024 ^ 3; vm_available := 1024 ^ 3; vm_percent := percent |};
  psutil_cpu_count := psutil_cpu_count st;
  os_getloadavg := os_getloadavg st;
  psutil_cpu_percent := psutil_cpu_percent st;
  psutil_process_iter := psutil_process_iter st;
  psutil_swap_memory := psutil_swap_memory st;
  subprocess_run := subprocess_run st;
  os_path_exists := os_path_exists st;
  os_path_getmtime := os_path_getmtime st;
  file_read := file_read st
|}.

(** [n] cores and a one-minute load average of [load1]. *)
Definition with_load (n : Z) (load1 : Q) (st : SystemState) : SystemState := {|
  psutil_disk_partitions := psutil_disk_partitions st;
  psutil_disk_usage := psutil_disk_usage st;
  psutil_virtual_memory := psutil_virtual_memory st;
  psutil_cpu_count := Ok (Some n);
  os_getloadavg := Ok (load1, load1, load1);
  psutil_cpu_percent := psutil_cpu_percent st;
  psutil_process_iter := psutil_process_iter st;
  psutil_swap_memory := psutil_swap_memory st;
  subprocess_run := subprocess_run st;
  os_path_exists := os_path_exists st;
  os_path_getmtime := os_path_getmtime st;
  file_read := file_read st
|}.

(** The process table [procs]. *)
Definition with_processes (procs : list pinfo) (st : SystemState) : SystemState := {|
  psutil_disk_partitions := psutil_disk_partitions st;
  psutil_disk_usage := psutil_disk_usage st;
  psutil_virtual_memory := psutil_virtual_memory st;
  psutil_cpu_count := psutil_cpu_count st;
  os_getloadavg := os_getloadavg st;
  psutil_cpu_percent := psutil_cpu_percent st;
  psutil_process_iter := Ok procs;
  psutil_swap_memory := psutil_swap_memory st;
  subprocess_run := subprocess_run st;
  os_path_exists := os_path_exists st;
  os_path_getmtime := os_path_getmtime st;
  file_read := file_read st
|}.

Definition command_eqb (a b : command) : bool :=
  match a, b with
  | Shell x, Shell y => String.eqb x y
  | Argv xs, Argv ys =>
      (List.length xs =? List.length ys)%nat
      && forallb (fun p => String.eqb (fst p) (snd p)) (combine xs ys)
  | _, _ => false
  end.

(** The command [c] succeeds and prints [out]. *)
Definition with_output (c : command) (out : string) (st : SystemState) : SystemState := {|
  psutil_disk_partitions := psutil_disk_partitions st;
  psutil_disk_usage := psutil_disk_usage st;
  psutil_virtual_memory := psutil_virtual_memory st;
  psutil_cpu_count := psutil_cpu_count st;
  os_getloadavg := os_getloadavg st;
  psutil_cpu_percent := psutil_cpu_percent st;
  psutil_process_iter := psutil_process_iter st;
  psutil_swap_memory := psutil_swap_memory st;
  subprocess_run := fun c' =>
    if command_eqb c c' then Ok {| returncode := 0; stdout := out |}
    else subprocess_run st c';
  os_path_exists := os_path_exists st;
  os_path_getmtime := os_path_getmtime st;
  file_read := file_read st
|}.

(** The file [path] exists, holds [text] and was last modified at [mtime]. *)
Definition with_file (path text : string) (mtime : Q) (st : SystemState) : SystemState := {|
  psutil_disk_partitions := psutil_disk_partitions st;
  psutil_disk_usage := psutil_disk_usage st;
  psutil_virtual_memory := psutil_virtual_memory st;
  psutil_cpu_count := psutil_cpu_count st;
  os_getloadavg := os_getloadavg st;
  psutil_cpu_percent := psutil_cpu_percent st;
  psutil_process_iter := psutil_process_iter st;
  psutil_swap_memory := psutil_swap_memory st;
  subprocess_run := subprocess_run st;
  os_path_exists := fun p => String.eqb p path || os_path_exists st p;
  os_path_getmtime := fun p => if String.eqb p path then Ok mtime else os_path_getmtime st p;
  file_read := fun p => if String.eqb p path then Ok text else file_read st p
|}.

(** A machine for the handlers: the state is the list of commands run so
    far, every command succeeds silently, and of the paths the handlers
    ask about only [/tmp] and [/var/tmp] exist. *)
Definition Trace : Type := list command.

Definition trace_run (c : command) (w : Trace) : exc CompletedProcess * Trace :=
  (Ok {| returncode := 0; stdout := "" |}, w ++ [c]).

Definition trace_exists (p : string) (w : Trace) : bool :=
  existsb (String.eqb p) ["/tmp"; "/var/tmp"].

Definition no_float (s : string) : exc Q := Raised (ValueError s).

Definition no_inet_aton (s : string) : exc unit :=
  Raised (Exception "OSError" "illegal IP address string passed to inet_aton").

Definition zombie (n : Z) : pinfo :=
  {| pid := n; name := Some "defunct"; status := Some "zombie" |}.

Definition sleeper (n : Z) : pinfo :=
  {| pid := n; name := Some "sshd"; status := Some "sleeping" |}.

(** Two sockets as [ss -tuln | grep LISTEN] prints them: port 22 and port
    8081. *)
Definition ss_sample : string :=
  ("tcp   LISTEN 0      128          0.0.0.0:22        0.0.0.0:*    "
     ++ String LF
    "tcp   LISTEN 0      128             [::]:8081         [::]:*    "
     ++ String LF "")%string.


End Samples.

(* ================================================================== *)
(** * Vocabulary of the statements *)
(* ================================================================== *)

(** [emits P m]: every issue the piece [m] appends satisfies [P]. *)
Definition emits (P : Issue -> Prop) {A} (m : SubCheck A) : Prop :=
  forall i, In i (fst m) -> P i.

(** The issues of a list that carry the id [s]. *)
Definition with_id (s : string) (l : list Issue) : list Issue :=
  filter (fun i => String.eqb (id i) s) l.

(** The number of zombies in a process table. *)
Definition zombie_count (procs : list pinfo) : nat :=
  List.length (filter health_monitor.is_zombie procs).

(** An id that no branch of the dispatcher takes. *)
Definition unmatched (issue_id : string) : Prop :=
  startswith issue_id "disk_usage_" = false
  /\ issue_id <> "cpu_usage_high"
  /\ issue_id <> "memory_usage_high"
  /\ startswith issue_id "ssh_brute_force_" = false
  /\ startswith issue_id "unexpected_open_port_" = false
  /\ issue_id <> "security_updates_available"
  /\ startswith issue_id "suspicious_process_" = false.

(** The result of the last branch of the dispatcher. *)
Definition no_repair_method (issue_id : string) : auto_repair.RepairResult :=
  {| auto_repair.success := false;
     auto_repair.r_id := issue_id;
     auto_repair.message := "No repair method available for this issue" |}.

(** Replacing one character by another, character by character. *)
Fixpoint subst_char (a b : ascii) (s : string) : string :=
  match s with
  | EmptyString => EmptyString
  | String c s' => String (if ascii_eqb c a then b else c) (subst_char a b s')
  end.

(** Decimal digits only. *)
Fixpoint all_digits (s : string) : bool :=
  match s with
  | EmptyString => true
  | String c s' => isdigit c && all_digits s'
  end.

(** A non-empty run of decimal digits. *)
Definition port_text (s : string) : bool :=
  match s with
  | EmptyString => false
  | String _ _ => all_digits s
  end.

(** The issue reported for an unexpected port. *)
Definition open_port_issue (port : string) : Issue :=
  {| id := "unexpected_open_port_" ++ port;
     severity := medium;
     description := [VStr "Unexpected open port: "; VStr port];
     component := "network";
     data := [("port", VInt (digits_value 0 port))] |}.

(** The issues for the ports of a list that are not allowed, in order. *)
Definition unexpected (ports : list string) : list Issue :=
  flat_map (fun port =>
              if security_monitor.port_allowed (digits_value 0 port) then []
              else [open_port_issue port])
           ports.

(** [returns P m]: whatever the body [m] returns satisfies [P]. *)
Definition returns {W A} (P : A -> Prop) (m : auto_repair.Repair W A) : Prop :=
  forall w a w', m w = (Ok a, w') -> P a.

(* ================================================================== *)
(** * Further vocabulary and sample machines *)
(* ================================================================== *)

(** The id under which a mount point is reported. *)
Definition disk_issue_id (mountpoint : string) : string :=
  "disk_usage_" ++ replace mountpoint "/" "_".

(** The machine after [kill] has been run for each pid in turn. *)
Definition after_kills {W : Type} (run : command -> W -> exc CompletedProcess * W)
           (pids : list string) (w : W) : W :=
  fold_left (fun w pid => snd (run (Argv ["kill"; pid]) w)) pids w.

(** The address [_repair_ssh_brute_force] reads from an id. *)
Definition ssh_ip (issue_id : string) : string :=
  replace (replace issue_id "ssh_brute_force_" "") "_" ".".

Module XSamples.

(** The probes of the CPU check. *)
Definition with_cpu (count : exc (option Z)) (load : exc (Q * Q * Q)) (percent : exc Q)
           (st : SystemState) : SystemState := {|
  psutil_disk_partitions := psutil_disk_partitions st;
  psutil_disk_usage := psutil_disk_usage st;
  psutil_virtual_memory := psutil_virtual_memory st;
  psutil_cpu_count := count;
  os_getloadavg := load;
  psutil_cpu_percent := percent;
  psutil_process_iter := psutil_process_iter st;
  psutil_swap_memory := psutil_swap_memory st;
  subprocess_run := subprocess_run st;
  os_path_exists := os_path_exists st;
  os_path_getmtime := os_path_getmtime st;
  file_read := file_read st
|}.

(** File systems of type ext4, each with its mount point and what
    measuring it gives. *)
Definition with_disks (disks : list (string * exc Q)) (st : SystemState) : SystemState := {|
  psutil_disk_partitions :=
    Ok (map (fun d => {| device := "/dev/sdb"; mountpoint := fst d; fstype := "ext4" |}) disks);
  psutil_disk_usage := fun m =>
    match find (fun d => String.eqb (fst d) m) disks with
    | Some (_, Ok percent) =>
        Ok {| du_total := 100 * 1024 ^ 3; du_free := 1024 ^ 3; du_percent := percent |}
    | Some (_, Raised e) => Raised e
    | None => Raised (Samples.missing m)
    end;
  psutil_virtual_memory := psutil_virtual_memory st;
  psutil_cpu_count := psutil_cpu_count st;
  os_getloadavg := os_getloadavg st;
  psutil_cpu_percent := psutil_cpu_percent st;
  psutil_process_iter := psutil_process_iter st;
  psutil_swap_memory := psutil_swap_memory st;
  subprocess_run := subprocess_run st;
  os_path_exists := os_path_exists st;
  os_path_getmtime := os_path_getmtime st;
  file_read := file_read st
|}.

(** Swap of [total] bytes, [percent] used. *)
Definition with_swap (total : Z) (percent : Q) (st : SystemState) : SystemState := {|
  psutil_disk_partitions := psutil_disk_partitions st;
  psutil_disk_usage := psutil_disk_usage st;
  psutil_virtual_memory := psutil_virtual_memory st;
  psutil_cpu_count := psutil_cpu_count st;
  os_getloadavg := os_getloadavg st;
  psutil_cpu_percent := psutil_cpu_percent st;
  psutil_process_iter := psutil_process_iter st;
  psutil_swap_memory := Ok {| sw_total := total; sw_used := 0; sw_percent := percent |};
  subprocess_run := subprocess_run st;
  os_path_exists := os_path_exists st;
  os_path_getmtime := os_path_getmtime st;
  file_read := file_read st
|}.

(** What [df -i] prints: a header, the root file system, a pseudo file
    system, a file system without inode count, and [/srv]. *)
Definition df_sample : string :=
  ("Filesystem      Inodes   IUsed   IFree IUse% Mounted on" ++ String LF
   "/dev/sda1      6553600 6400000  153600   98% /" ++ String LF
   "tmpfs           500000      20  499980    1% /dev/shm" ++ String LF
   "/dev/sdb1            0       0       0     - /mnt/fat" ++ String LF
   "/dev/sdc1      1000000  930000   70000   93% /srv" ++ String LF "")%string.

(** What [ps -eo comm] prints on a machine that runs nothing unusual. *)
Definition ps_sample : string :=
  ("COMMAND" ++ String LF "systemd" ++ String LF "sync" ++ String LF "bash"
     ++ String LF "")%string.

(** A configuration whose only mention of root login is commented out. *)
Definition sshd_commented_sample : string :=
  ("Port 22" ++ String LF
    "#PermitRootLogin yes" ++ String LF
    "PasswordAuthentication no" ++ String LF "")%string.

(** A machine for the handlers that answers from a table: a command of
    the table gives the result listed for it, any other command exit
    status 1 and no output; the state is the list of commands run. *)
Definition scripted_run (table : list (command * CompletedProcess)) (c : command)
           (w : Samples.Trace) : exc CompletedProcess * Samples.Trace :=
  (match find (fun entry => Samples.command_eqb (fst entry) c) table with
   | Some (_, r) => Ok r
   | None => Ok {| returncode := 1; stdout := "" |}
   end, w ++ [c]).

Definition no_paths (p : string) (w : Samples.Trace) : bool := false.

(** [float] for the numbers of the samples. *)
Definition sample_float (s : string) : exc Q :=
  if String.eqb s "0.0" then Ok 0%Q
  else if String.eqb s "12.5" then Ok (125 # 10)%Q
  else if String.eqb s "97.3" then Ok (973 # 10)%Q
  else Raised (ValueError ("could not convert string to float: '" ++ s ++ "'")).

(** What [ps aux ... | head -11] prints: three processes, one of them at
    97.3% CPU. *)
Definition ps_aux_sample : string :=
  ("USER PID %CPU %MEM VSZ RSS TTY STAT START TIME COMMAND" ++ String LF
   "root 1 0.0 12.5 1000 500 ? Ss 10:00 0:01 /sbin/init" ++ String LF
   "www 812 12.5 0.0 1000 500 ? S 10:00 0:01 nginx" ++ String LF
   "bob 4242 97.3 0.0 1000 500 ? R 10:00 9:59 stress" ++ String LF "")%string.

(** The number in column [col] of a line, as [sample_float] reads it. *)
Definition column (col : nat) (line : string) : Q :=
  match sample_float (nth col (split line) "") with
  | Ok q => q
  | Raised _ => 0%Q
  end.

(** What [lsof -i :8081 | grep LISTEN] prints for one listener. *)
Definition lsof_sample : string :=
  ("nc      4242 root    3u  IPv4  12345      0t0  TCP *:8081 (LISTEN)"
     ++ String LF "")%string.

End XSamples.

(* ================================================================== *)
(** * service.py *)
(* ================================================================== *)

Module service.

Definition DAEMON_PID_FILE : string := "/var/run/up-daemon.pid".
Definition DAEMON_LOG_FILE : string := "/var/log/up-daemon.log".

(** [signal.SIGTERM] and [signal.SIGKILL]; signal 0 only probes. *)
Definition SIGTERM : Z := 15.
Definition SIGKILL : Z := 9.

(** [isinstance(e, classes)]: the class of [e] is one of [classes], which
    lists a class together with its subclasses. *)
Definition isinstance (e : exn) (classes : list string) : bool :=
  match e with Exception kind _ => existsb (String.eqb kind) classes end.

(** [OSError] and the built-in classes below it. *)
Definition OSError_classes : list string :=
  ["OSError"; "BlockingIOError"; "ChildProcessError"; "ConnectionError";
   "BrokenPipeError"; "ConnectionAbortedError"; "ConnectionRefusedError";
   "ConnectionResetError"; "FileExistsError"; "FileNotFoundError";
   "InterruptedError"; "IsADirectoryError"; "NotADirectoryError";
   "PermissionError"; "ProcessLookupError"; "TimeoutError"].

(** [ValueError] and the built-in classes below it. *)
Definition ValueError_classes : list string :=
  ["ValueError"; "UnicodeError"; "UnicodeDecodeError"; "UnicodeEncodeError";
   "UnicodeTranslateError"].

(** [psutil.NoSuchProcess] (with [ZombieProcess] below it) and
    [psutil.AccessDenied]. *)
Definition psutil_gone_classes : list string :=
  ["NoSuchProcess"; "ZombieProcess"; "AccessDenied"].

(** The status dictionary; a key that is not set is [None]. *)
Record Status : Type := {
  running : bool;
  pid_file : string;
  log_file : string;
  pid : option Z;
  uptime : option Q;
  memory_usage : option Z;
  cpu_percent : option Q;
  health_issues : option nat;
  security_issues : option nat
}.

Section Host.

(** The machine the service functions act on: [exists_] is
    [os.path.exists], [read] opens a file and reads it, [unlink] is
    [os.unlink], [os_kill pid sig] is [os.kill], [cmdline pid] is
    [psutil.Process(pid).cmdline()], [sleep] is [time.sleep], [tail] runs
    a shell command and gives its result and what it wrote to stderr. *)
Variable W : Type.
Variable exists_ : string -> W -> bool.
Variable read : string -> W -> exc string.
Variable unlink : string -> W -> exc unit * W.
Variable os_kill : Z -> Z -> W -> exc unit * W.
Variable cmdline : Z -> W -> exc (list string).
Variable sleep : Z -> W -> W.
Variable tail : command -> W -> exc (CompletedProcess * string).

(** [psutil.Process(pid)] and its [create_time()], [memory_info().rss],
    [cpu_percent(interval=0.1)]; [time.time()]. *)
Variable process : Z -> W -> exc unit.
Variable create_time : Z -> W -> exc Q.
Variable memory_rss : Z -> W -> exc Z.
Variable process_cpu_percent : Z -> W -> exc Q.
Variable time_time : W -> Q.

Definition M (A : Type) : Type := W -> exc A * W.

Notation "x <~ m ;; k" := (auto_repair.rbind W m (fun x => k))
  (at level 61, m at next level, right associativity).

Definition ret {A} (a : A) : M A := auto_repair.rret W a.

(** A call that reads the machine and may raise. *)
Definition look {A} (f : W -> exc A) : M A := fun w => (f w, w).

Definition path_exists (p : string) : M bool := fun w => (Ok (exists_ p w), w).

(** [try: body  except classes: handler] *)
Definition try_catch {A} (body : M A) (catches : exn -> bool) (handler : M A) : M A :=
  fun w =>
    match body w with
    | (Raised e, w') => if catches e then handler w' else (Raised e, w')
    | (Ok a, w') => (Ok a, w')
    end.

(** [with open(str(DAEMON_PID_FILE), 'r') as f: pid = int(f.read().strip())] *)
Definition read_pid : M Z :=
  text <~ look (read DAEMON_PID_FILE) ;;
  auto_repair.lift_exc W (int (strip text)).

(** Check if the daemon is running *)
Definition is_daemon_running : M bool :=
  present <~ path_exists DAEMON_PID_FILE ;;
  if negb present then ret false
  else
    try_catch (
      pid <~ read_pid ;;
      (* Check if process exists *)
      _ <~ os_kill pid 0 ;;
      (* Check if it's our daemon process *)
      try_catch (
        cmdline <~ look (cmdline pid) ;;
        ret (existsb (contains "python") cmdline && existsb (contains "up") cmdline))
      (fun e => isinstance e psutil_gone_classes)
      (ret false))
    (fun e => isinstance e OSError_classes || isinstance e ValueError_classes)
    ((* Process doesn't exist or PID file is invalid *)
     present <~ path_exists DAEMON_PID_FILE ;;
     _ <~ (if present then unlink DAEMON_PID_FILE else ret tt) ;;
     ret false).

(** [for _ in range(n): if not is_daemon_running(): return True;
    time.sleep(1)]: whether the function has returned. *)
Fixpoint wait_for_exit (n : nat) : M bool :=
  match n with
  | O => ret false
  | S k =>
      running <~ is_daemon_running ;;
      if negb running then ret true
      else fun w => wait_for_exit k (sleep 1 w)
  end.

(** Stop the daemon process *)
Definition stop_daemon : M bool :=
  running <~ is_daemon_running ;;
  if negb running then ret true
  else
    try_catch (
      pid <~ read_pid ;;
      (* Send SIGTERM to the process *)
      _ <~ os_kill pid SIGTERM ;;
      (* Wait for process to terminate *)
      returned <~ wait_for_exit 10 ;;
      if returned then ret true
      else
        (* If still running, force kill *)
        running <~ is_daemon_running ;;
        _ <~ (if running then
                _ <~ os_kill pid SIGKILL ;;
                (* Remove PID file if it still exists *)
                present <~ path_exists DAEMON_PID_FILE ;;
                if present then unlink DAEMON_PID_FILE else ret tt
              else ret tt) ;;
        ret true)
    (fun _ => true)
    (ret false).

(** Get the last N lines from the daemon log *)
Definition get_logs (lines : Z) (w : W) : list string :=
  if negb (exists_ DAEMON_LOG_FILE w) then ["No log file found"]
  else
    let cmd := ("tail -n " ++ auto_repair.str_of_Z lines ++ " " ++ DAEMON_LOG_FILE)%string in
    match tail (Shell cmd) w with
    | Ok (result, stderr) =>
        if returncode result =? 0 then split_on LF (strip (stdout result))
        else [("Error getting logs: " ++ stderr)%string]
    | Raised e => [("Error getting logs: " ++ exn_str e)%string]
    end.

Definition set_pid (v : Z) (s : Status) : Status :=
  {| running := running s; pid_file := pid_file s; log_file := log_file s;
     pid := Some v; uptime := uptime s; memory_usage := memory_usage s;
     cpu_percent := cpu_percent s; health_issues := health_issues s;
     security_issues := security_issues s |}.

Definition set_uptime (v : Q) (s : Status) : Status :=
  {| running := running s; pid_file := pid_file s; log_file := log_file s;
     pid := pid s; uptime := Some v; memory_usage := memory_usage s;
     cpu_percent := cpu_percent s; health_issues := health_issues s;
     security_issues := security_issues s |}.

Definition set_memory_usage (v : Z) (s : Status) : Status :=
  {| running := running s; pid_file := pid_file s; log_file := log_file s;
     pid := pid s; uptime := uptime s; memory_usage := Some v;
     cpu_percent := cpu_percent s; health_issues := health_issues s;
     security_issues := security_issues s |}.

Definition set_cpu_percent (v : Q) (s : Status) : Status :=
  {| running := running s; pid_file := pid_file s; log_file := log_file s;
     pid := pid s; uptime := uptime s; memory_usage := memory_usage s;
     cpu_percent := Some v; health_issues := health_issues s;
     security_issues := security_issues s |}.

Definition set_health_issues (v : nat) (s : Status) : Status :=
  {| running := running s; pid_file := pid_file s; log_file := log_file s;
     pid := pid s; uptime := uptime s; memory_usage := memory_usage s;
     cpu_percent := cpu_percent s; health_issues := Some v;
     security_issues := security_issues s |}.

Definition set_security_issues (v : nat) (s : Status) : Status :=
  {| running := running s; pid_file := pid_file s; log_file := log_file s;
     pid := pid s; uptime := uptime s; memory_usage := memory_usage s;
     cpu_percent := cpu_percent s; health_issues := health_issues s;
     security_issues := Some v |}.

(** The [try] of [daemon_status]: the keys are set one after the other,
    and an exception keeps those set before it. *)
Definition fill_status (g : Globals) (status : Status) (w : W) : Status :=
  match read DAEMON_PID_FILE w with
  | Raised _ => status
  | Ok text =>
      match int (strip text) with
      | Raised _ => status
      | Ok pid =>
          match process pid w with
          | Raised _ => status
          | Ok _ =>
              let status := set_pid pid status in
              match create_time pid w with
              | Raised _ => status
              | Ok created =>
                  let status := set_uptime (time_time w - created)%Q status in
                  match memory_rss pid w with
                  | Raised _ => status
                  | Ok rss =>
                      let status := set_memory_usage rss status in
                      match process_cpu_percent pid w with
                      | Raised _ => status
                      | Ok percent =>
                          let status := set_cpu_percent percent status in
                          (* Get health and security issues *)
                          let status :=
                            set_health_issues
                              (List.length (health_monitor.get_health_issues g)) status in
                          set_security_issues
                            (List.length (security_monitor.get_security_issues g)) status
                      end
                  end
              end
          end
      end
  end.

(** Get the status of the daemon *)
Definition daemon_status (g : Globals) : M Status :=
  running <~ is_daemon_running ;;
  let status :=
    {| running := running;
       pid_file := DAEMON_PID_FILE;
       log_file := DAEMON_LOG_FILE;
       pid := None; uptime := None; memory_usage := None; cpu_percent := None;
       health_issues := None; security_issues := None |} in
  if running then fun w => (Ok (fill_status g status w), w)
  else ret status.

End Host.

End service.

Module ServiceSamples.

(** A machine for the service functions: what the PID file holds, if it
    exists, and the command lines of the processes, which ignore every
    signal. *)
Record Box : Type := {
  pid_file_text : option string;
  processes : list (Z * list string)
}.

Definition box_exists (p : string) (w : Box) : bool :=
  String.eqb p service.DAEMON_PID_FILE
  && match pid_file_text w with Some _ => true | None => false end.

Definition box_read (p : string) (w : Box) : exc string :=
  match pid_file_text w with
  | Some text => if String.eqb p service.DAEMON_PID_FILE then Ok text
                 else Raised (Samples.missing p)
  | None => Raised (Samples.missing p)
  end.

Definition box_unlink (p : string) (w : Box) : exc unit * Box :=
  if box_exists p w
  then (Ok tt, {| pid_file_text := None; processes := processes w |})
  else (Raised (Samples.missing p), w).

Definition box_cmdline (pid : Z) (w : Box) : exc (list string) :=
  match find (fun entry => Z.eqb (fst entry) pid) (processes w) with
  | Some (_, args) => Ok args
  | None => Raised (Exception "NoSuchProcess" "process no longer exists")
  end.

Definition box_kill (pid sig : Z) (w : Box) : exc unit * Box :=
  match box_cmdline pid w with
  | Ok _ => (Ok tt, w)
  | Raised _ => (Raised (Exception "ProcessLookupError" "[Errno 3] No such process"), w)
  end.

Definition box_sleep (seconds : Z) (w : Box) : Box := w.

Definition box_tail (c : command) (w : Box) : exc (CompletedProcess * string) :=
  Ok ({| returncode := 0; stdout := "" |}, "").

(** The PID file names process 4242, a supervisor written in Python. *)
Definition supervised : Box :=
  {| pid_file_text := Some ("4242" ++ String LF "")%string;
     processes := [(4242, ["python3"; "/usr/bin/supervisord"; "-n"])] |}.

(** The PID file names a process that is gone. *)
Definition stale : Box :=
  {| pid_file_text := Some ("4242" ++ String LF "")%string; processes := [] |}.

(** The PID file holds no number. *)
Definition garbled : Box :=
  {| pid_file_text := Some "not a pid"; processes := [] |}.

End ServiceSamples.

(* ================================================================== *)
(** * management/commands/daemon.py: the uptime line of [status] *)
(* ================================================================== *)

Module daemon_command.

(** [divmod(x, y)] for a float [x] and a positive integer [y]: the floor
    of the quotient, as a float, and what is left.  For [0 <= x < 2^53]
    Python computes both without rounding, so the rationals give the
    float results; for a negative [x] the remainder [fmod(x, y) + y] is
    rounded and can come out as [y] itself. *)
Definition divmod (x : Q) (y : Z) : Q * Q :=
  let quotient := Qfloor (x / inject_Z y) in
  (inject_Z quotient, (x - inject_Z quotient * inject_Z y)%Q).

(** [int(x)] for a float: the fraction is cut off. *)
Definition int_of_float (x : Q) : Z := Z.quot (Qnum x) (Z.pos (Qden x)).

(** The four numbers of the uptime line. *)
Definition uptime_fields (uptime_seconds : Q) : Z * Z * Z * Z :=
  let '(days, remainder) := divmod uptime_seconds 86400 in
  let '(hours, remainder) := divmod remainder 3600 in
  let '(minutes, seconds) := divmod remainder 60 in
  (int_of_float days, int_of_float hours, int_of_float minutes, int_of_float seconds).

(** [f"{int(days)}d {int(hours)}h {int(minutes)}m {int(seconds)}s"] *)
Definition uptime_str (uptime_seconds : Q) : string :=
  let '(days, hours, minutes, seconds) := uptime_fields uptime_seconds in
  auto_repair.str_of_Z days ++ "d " ++ auto_repair.str_of_Z hours ++ "h "
    ++ auto_repair.str_of_Z minutes ++ "m " ++ auto_repair.str_of_Z seconds ++ "s".

End daemon_command.

(* ================================================================== *)
(** * Reasoning about sub-checks *)
(* ================================================================== *)

Section SubCheckFacts.

Context {A B : Type}.

Lemma fst_bind_ok (added : list Issue) (a : A) (k : A -> SubCheck B) :
  fst (bind (added, Ok a) k) = added ++ fst (k a).
Proof. unfold bind. destruct (k a); reflexivity. Qed.

Lemma fst_bind_raised (added : list Issue) (e : exn) (k : A -> SubCheck B) :
  fst (bind (added, Raised e) k) = added.
Proof. reflexivity. Qed.

Lemma in_bind_left (m : SubCheck A) (k : A -> SubCheck B) (i : Issue) :
  In i (fst m) -> In i (fst (bind m k)).
Proof.
  destruct m as [added [a | e]]; intros H.
  - rewrite fst_bind_ok. apply in_or_app. now left.
  - exact H.
Qed.

Lemma in_bind_inv (m : SubCheck A) (k : A -> SubCheck B) (i : Issue) :
  In i (fst (bind m k)) ->
  In i (fst m) \/ exists a, snd m = Ok a /\ In i (fst (k a)).
Proof.
  destruct m as [added [a | e]]; intros H.
  - rewrite fst_bind_ok in H. apply in_app_or in H as [H | H].
    + now left.
    + right. exists a. now split.
  - now left.
Qed.

End SubCheckFacts.

Lemma emits_ret (P : Issue -> Prop) {A} (a : A) : emits P (ret a).
Proof. intros i []. Qed.

Lemma emits_pass (P : Issue -> Prop) : emits P pass.
Proof. intros i []. Qed.

Lemma emits_call (P : Issue -> Prop) {A} (r : exc A) : emits P (call r).
Proof. intros i []. Qed.

Lemma emits_append (P : Issue -> Prop) (i : Issue) : P i -> emits P (append i).
Proof. intros Hi j [<- | []]. exact Hi. Qed.

Lemma emits_bind (P : Issue -> Prop) {A B} (m : SubCheck A) (k : A -> SubCheck B) :
  emits P m -> (forall a, emits P (k a)) -> emits P (bind m k).
Proof.
  intros Hm Hk i Hi. apply in_bind_inv in Hi as [Hi | (a & _ & Hi)].
  - now apply Hm.
  - now apply (Hk a).
Qed.

Lemma emits_for_each (P : Issue -> Prop) {A} (xs : list A) (body : A -> SubCheck unit) :
  (forall x, In x xs -> emits P (body x)) -> emits P (for_each xs body).
Proof.
  induction xs as [| x xs IH]; intros Hbody.
  - apply emits_pass.
  - simpl. apply emits_bind.
    + apply Hbody. now left.
    + intros _. apply IH. intros y Hy. apply Hbody. now right.
Qed.

Lemma emits_try_except (P : Issue -> Prop) (body : SubCheck unit) :
  emits P body -> Forall P (try_except body).
Proof. intros H. apply Forall_forall. exact H. Qed.

(** A loop reaches an element when no earlier turn raises. *)
Lemma for_each_reaches {A} (body : A -> SubCheck unit) (pre : list A) (x : A)
      (post : list A) (i : Issue) :
  (forall y, In y pre -> snd (body y) = Ok tt) ->
  In i (fst (body x)) ->
  In i (fst (for_each (pre ++ x :: post) body)).
Proof.
  induction pre as [| y pre IH]; intros Hpre Hi; cbn [app for_each].
  - now apply in_bind_left.
  - assert (Hy : snd (body y) = Ok tt) by (apply Hpre; now left).
    destruct (body y) as [added r]. simpl in Hy. subst r.
    rewrite fst_bind_ok. apply in_or_app. right.
    apply IH; [| exact Hi]. intros z Hz. apply Hpre. now right.
Qed.

(** Rational comparisons. *)
Lemma Qgeb_true (x y : Q) : Qgeb x y = true <-> (y <= x)%Q.
Proof. unfold Qgeb. apply Qle_bool_iff. Qed.

Lemma Qgeb_false (x y : Q) : Qgeb x y = false <-> (x < y)%Q.
Proof.
  unfold Qgeb. split; intros H.
  - apply Qnot_le_lt. intros Hle. apply Qle_bool_iff in Hle. congruence.
  - destruct (Qle_bool y x) eqn:E; [| reflexivity].
    apply Qle_bool_iff in E. exfalso. exact (Qlt_not_le _ _ H E).
Qed.

Lemma Qgtb_true (x y : Q) : Qgtb x y = true <-> (y < x)%Q.
Proof.
  unfold Qgtb. rewrite negb_true_iff. apply (Qgeb_false y x).
Qed.

Lemma Qgtb_false (x y : Q) : Qgtb x y = false <-> (x <= y)%Q.
Proof.
  unfold Qgtb. rewrite negb_false_iff. apply (Qgeb_true y x).
Qed.

(** Where the issues of a health cycle come from. *)
Lemma check_health_issues (st : SystemState) (g : Globals) :
  fst (health_monitor.check_health st g) =
    health_monitor._check_disk_usage st
    ++ health_monitor._check_memory_usage st
    ++ health_monitor._check_cpu_load st
    ++ health_monitor._check_zombie_processes st
    ++ health_monitor._check_inode_usage st
    ++ health_monitor._check_swap_usage st
    ++ health_monitor._check_system_updates st.
Proof.
  unfold health_monitor.check_health. simpl. now rewrite <- !app_assoc.
Qed.

Lemma check_security_issues (st : SystemState) (now : Q) (g : Globals) :
  fst (security_monitor.check_security st now g) =
    security_monitor._check_failed_logins st
    ++ security_monitor._check_sudo_usage st
    ++ security_monitor._check_open_ports st
    ++ security_monitor._check_suspicious_processes st
    ++ security_monitor._check_modified_system_files st now
    ++ security_monitor._check_ssh_config st
    ++ security_monitor._check_firewall_status st.
Proof.
  unfold security_monitor.check_security. simpl. now rewrite <- !app_assoc.
Qed.

(* ================================================================== *)
(** * Disk usage (C1) *)
(* ================================================================== *)

(** The issue [_check_disk_usage] appends for a partition that is [percent]
    full. *)
Lemma disk_usage_reported (st : SystemState) (pre post : list sdiskpart)
      (p : sdiskpart) (u : sdiskusage) :
  psutil_disk_partitions st = Ok (pre ++ p :: post) ->
  (forall q, In q pre -> fstype q <> "" ->
             special_filesystem (mountpoint q) = false ->
             exists uq, psutil_disk_usage st (mountpoint q) = Ok uq) ->
  fstype p <> "" ->
  special_filesystem (mountpoint p) = false ->
  psutil_disk_usage st (mountpoint p) = Ok u ->
  (90 <= du_percent u)%Q ->
  exists i, In i (health_monitor._check_disk_usage st)
    /\ id i = ("disk_usage_" ++ replace (mountpoint p) "/" "_")%string
    /\ severity i = (if Qgeb (du_percent u) 95 then high else medium).
Proof.
  intros Hparts Hpre Hfs Hspecial Husage Hfull.
  eexists. split; [| split].
  - unfold health_monitor._check_disk_usage, try_except.
    rewrite Hparts. unfold call at 1. rewrite fst_bind_ok. cbn [app].
    apply for_each_reaches.
    + intros q Hq.
      destruct (String.eqb (fstype q) "") eqn:Efs; [reflexivity |].
      destruct (special_filesystem (mountpoint q)) eqn:Esp; [reflexivity |].
      apply String.eqb_neq in Efs.
      destruct (Hpre q Hq Efs Esp) as [uq Huq]. cbn [negb andb].
      rewrite Huq. unfold call, bind.
      destruct (Qgeb (du_percent uq) health_monitor.DISK_USAGE_THRESHOLD);
        reflexivity.
    + apply String.eqb_neq in Hfs. rewrite Hfs, Hspecial. cbn [negb andb].
      rewrite Husage. unfold call at 1. rewrite fst_bind_ok. cbn [app].
      apply Qgeb_true in Hfull.
      unfold health_monitor.DISK_USAGE_THRESHOLD. rewrite Hfull.
      left. reflexivity.
  - reflexivity.
  - reflexivity.
Qed.

(** C1, as amended: a file system mounted at [/data] and 96% full (at
    least 95% full) is reported by [check_health] as an issue of severity
    high whose id is ["disk_usage__data"]: the prefix ["disk_usage_"]
    followed by the mount point with each slash turned into an underscore;
    from 90% and below 95% the severity is medium.  The partitions listed
    before it are measured without an exception. *)
Theorem disk_usage_data_issue (st : SystemState) (g : Globals)
        (pre post : list sdiskpart) (p : sdiskpart) (u : sdiskusage) :
  psutil_disk_partitions st = Ok (pre ++ p :: post) ->
  (forall q, In q pre -> fstype q <> "" ->
             special_filesystem (mountpoint q) = false ->
             exists uq, psutil_disk_usage st (mountpoint q) = Ok uq) ->
  mountpoint p = "/data" ->
  fstype p <> "" ->
  psutil_disk_usage st "/data" = Ok u ->
  (90 <= du_percent u)%Q ->
  exists i, In i (fst (health_monitor.check_health st g))
    /\ id i = "disk_usage__data"
    /\ ((95 <= du_percent u)%Q -> severity i = high)
    /\ ((du_percent u < 95)%Q -> severity i = medium).
Proof.
  intros Hparts Hpre Hm Hfs Husage Hfull.
  destruct (disk_usage_reported st pre post p u) as (i & Hin & Hid & Hsev);
    try assumption.
  - rewrite Hm. reflexivity.
  - now rewrite Hm.
  - exists i. rewrite check_health_issues. split; [| split; [| split]].
    + apply in_or_app. now left.
    + rewrite Hid, Hm. reflexivity.
    + intros H95. apply Qgeb_true in H95. now rewrite Hsev, H95.
    + intros H95. apply Qgeb_false in H95. now rewrite Hsev, H95.
Qed.

(** The theorem at a machine whose only file system is [/data], 96% full. *)
Lemma disk_usage_data_issue_witness :
  exists i,
    In i (fst (health_monitor.check_health
                 (Samples.with_disk "/data" 96 Samples.idle) Samples.no_cache))
    /\ id i = "disk_usage__data"
    /\ severity i = high.
Proof.
  destruct (disk_usage_data_issue
              (Samples.with_disk "/data" 96 Samples.idle) Samples.no_cache
              [] [] {| device := "/dev/sdb1"; mountpoint := "/data"; fstype := "ext4" |}
              {| du_total := 100 * 1024 ^ 3; du_free := 4 * 1024 ^ 3; du_percent := 96 |})
    as (i & Hin & Hid & Hhigh & _).
  - reflexivity.
  - intros q [].
  - reflexivity.
  - discriminate.
  - reflexivity.
  - vm_compute. discriminate.
  - exists i. split; [exact Hin | split; [exact Hid |]].
    apply Hhigh. vm_compute. discriminate.
Defined.

(** C1 as stated fails: on that machine no issue has the id
    ["disk_usage_data"]. *)
Lemma disk_usage_data_id_counterexample :
  ~ exists i,
      In i (fst (health_monitor.check_health
                   (Samples.with_disk "/data" 96 Samples.idle) Samples.no_cache))
      /\ id i = "disk_usage_data"
      /\ severity i = high.
Proof.
  intros (i & Hin & Hid & _).
  apply (in_map id) in Hin. rewrite Hid in Hin.
  vm_compute in Hin. destruct Hin as [H | []]. discriminate H.
Qed.

(* ================================================================== *)
(** * The ids each sub-check can produce *)
(* ================================================================== *)

Lemma prefix_app (p x : string) : String.prefix p (p ++ x) = true.
Proof.
  induction p as [| c p IH]; simpl.
  - now destruct x.
  - destruct (ascii_dec c c) as [_ | Hc]; [exact IH | now elim Hc].
Qed.

Lemma startswith_app (p x : string) : startswith (p ++ x) p = true.
Proof. apply prefix_app. Qed.

Ltac emits_step :=
  first
    [ apply emits_pass
    | apply emits_ret
    | apply emits_call
    | apply emits_append
    | apply emits_bind; [| intros ?]
    | apply emits_for_each; intros ? _
    | match goal with
      | |- emits _ (if ?c then _ else _) => destruct c
      | |- emits _ (match ?c with _ => _ end) => destruct c
      end ].

Ltac emits_ids :=
  apply emits_try_except; cbv zeta;
  repeat emits_step;
  try reflexivity; try apply startswith_app; auto.

Section HealthIds.

Variable st : SystemState.

Lemma disk_usage_ids :
  Forall (fun i => startswith (id i) "disk_usage_" = true)
         (health_monitor._check_disk_usage st).
Proof. unfold health_monitor._check_disk_usage. emits_ids. Qed.

Lemma memory_usage_ids :
  Forall (fun i => id i = "high_memory_usage")
         (health_monitor._check_memory_usage st).
Proof. unfold health_monitor._check_memory_usage. emits_ids. Qed.

Lemma cpu_load_ids :
  Forall (fun i => id i = "high_cpu_load" \/ id i = "high_cpu_usage")
         (health_monitor._check_cpu_load st).
Proof. unfold health_monitor._check_cpu_load. emits_ids. Qed.

Lemma zombie_ids :
  Forall (fun i => id i = "zombie_processes")
         (health_monitor._check_zombie_processes st).
Proof. unfold health_monitor._check_zombie_processes. emits_ids. Qed.

Lemma inode_usage_ids :
  Forall (fun i => startswith (id i) "inode_usage_" = true)
         (health_monitor._check_inode_usage st).
Proof. unfold health_monitor._check_inode_usage. emits_ids. Qed.

Lemma swap_usage_ids :
  Forall (fun i => id i = "high_swap_usage")
         (health_monitor._check_swap_usage st).
Proof. unfold health_monitor._check_swap_usage. emits_ids. Qed.

Lemma system_updates_ids :
  Forall (fun i => id i = "system_updates_available")
         (health_monitor._check_system_updates st).
Proof. unfold health_monitor._check_system_updates. emits_ids. Qed.

End HealthIds.

Section SecurityIds.

Variable st : SystemState.

Lemma failed_logins_ids :
  Forall (fun i => id i = "failed_login_attempts")
         (security_monitor._check_failed_logins st).
Proof. unfold security_monitor._check_failed_logins. emits_ids. Qed.

Lemma sudo_usage_ids :
  Forall (fun i => id i = "unauthorized_sudo_usage")
         (security_monitor._check_sudo_usage st).
Proof. unfold security_monitor._check_sudo_usage. emits_ids. Qed.

Lemma open_ports_ids :
  Forall (fun i => startswith (id i) "unexpected_open_port_" = true)
         (security_monitor._check_open_ports st).
Proof. unfold security_monitor._check_open_ports. emits_ids. Qed.

Lemma suspicious_processes_ids :
  Forall (fun i => startswith (id i) "suspicious_process_" = true)
         (security_monitor._check_suspicious_processes st).
Proof. unfold security_monitor._check_suspicious_processes. emits_ids. Qed.

Lemma modified_system_files_ids (now : Q) :
  Forall (fun i => startswith (id i) "modified_system_file_" = true)
         (security_monitor._check_modified_system_files st now).
Proof. unfold security_monitor._check_modified_system_files. emits_ids. Qed.

Lemma ssh_config_ids :
  Forall (fun i => id i = "ssh_root_login_enabled" \/ id i = "ssh_password_auth_enabled")
         (security_monitor._check_ssh_config st).
Proof. unfold security_monitor._check_ssh_config. emits_ids. Qed.

Lemma firewall_status_ids :
  Forall (fun i => id i = "firewall_disabled")
         (security_monitor._check_firewall_status st).
Proof. unfold security_monitor._check_firewall_status. emits_ids. Qed.

End SecurityIds.

Lemma with_id_app (s : string) (l1 l2 : list Issue) :
  with_id s (l1 ++ l2) = with_id s l1 ++ with_id s l2.
Proof. apply filter_app. Qed.

Lemma with_id_none (s : string) (l : list Issue) :
  Forall (fun i => id i <> s) l -> with_id s l = [].
Proof.
  induction 1 as [| i l Hi _ IH]; [reflexivity |].
  simpl. apply String.eqb_neq in Hi. now rewrite Hi.
Qed.

Lemma with_id_all (s : string) (l : list Issue) :
  Forall (fun i => id i = s) l -> with_id s l = l.
Proof.
  induction 1 as [| i l Hi _ IH]; [reflexivity |].
  simpl. apply String.eqb_eq in Hi. now rewrite Hi, IH.
Qed.

(** A sub-check whose ids all have another shape reports nothing under [s]. *)
Lemma with_id_other_eq (s t : string) (l : list Issue) :
  Forall (fun i => id i = t) l -> s <> t -> with_id s l = [].
Proof.
  intros H Hst. apply with_id_none. eapply Forall_impl; [| exact H].
  simpl. intros i -> Heq. now apply Hst.
Qed.

Lemma with_id_other_prefix (s p : string) (l : list Issue) :
  Forall (fun i => startswith (id i) p = true) l ->
  startswith s p = false -> with_id s l = [].
Proof.
  intros H Hs. apply with_id_none. eapply Forall_impl; [| exact H].
  simpl. intros i Hi Heq. rewrite Heq in Hi. congruence.
Qed.

Lemma with_id_other_eq2 (s t1 t2 : string) (l : list Issue) :
  Forall (fun i => id i = t1 \/ id i = t2) l -> s <> t1 -> s <> t2 ->
  with_id s l = [].
Proof.
  intros H H1 H2. apply with_id_none. eapply Forall_impl; [| exact H].
  simpl. intros i [-> | ->] Heq; [now apply H1 | now apply H2].
Qed.

(* ================================================================== *)
(** * CPU load average (C5) *)
(* ================================================================== *)

(** What [_check_cpu_load] appends for the load average, whatever the
    usage probe does afterwards. *)
Lemma cpu_load_issues (st : SystemState) (n : Z) (load1 load5 load15 : Q) :
  psutil_cpu_count st = Ok (Some n) ->
  os_getloadavg st = Ok (load1, load5, load15) ->
  exists usage_issues,
    health_monitor._check_cpu_load st =
      (if Qgtb load1 (inject_Z n * (15 # 10))%Q then
         [{| id := "high_cpu_load";
             severity := if Qgtb load1 (inject_Z n * (15 # 10) * (15 # 10))%Q
                         then high else medium;
             description := [VStr "High CPU load: "; VFixed load1 2;
                             VStr " (threshold: ";
                             VFixed (inject_Z n * (15 # 10))%Q 2; VStr ")"];
             component := "cpu";
             data := [("load1", VNum load1); ("load5", VNum load5);
                      ("load15", VNum load15); ("cpu_count", VInt n);
                      ("threshold", VNum (inject_Z n * (15 # 10))%Q)] |}]
       else [])
      ++ usage_issues
    /\ Forall (fun i => id i = "high_cpu_usage") usage_issues.
Proof.
  intros Hn Hload.
  unfold health_monitor._check_cpu_load, try_except.
  rewrite Hn, Hload. unfold call at 1. rewrite fst_bind_ok. cbn [app].
  unfold call at 1. rewrite fst_bind_ok. cbn [app].
  unfold health_monitor.times_factor, call at 1. rewrite fst_bind_ok. cbn [app].
  unfold health_monitor.LOAD_THRESHOLD_FACTOR.
  set (tail := fun _ : unit => _).
  exists (fst (tail tt)). split.
  - destruct (Qgtb load1 (inject_Z n * (15 # 10))%Q).
    + unfold append. rewrite fst_bind_ok. reflexivity.
    + unfold pass, ret. rewrite fst_bind_ok. reflexivity.
  - apply Forall_forall. subst tail. cbv beta.
    apply emits_bind; [apply emits_call |]. intros cpu_percent.
    destruct (Qgeb cpu_percent health_monitor.CPU_USAGE_THRESHOLD).
    + now apply emits_append.
    + apply emits_pass.
Qed.

Lemma Q_1_5 (n : Z) : (inject_Z n * (15 # 10) == (3 # 2) * inject_Z n)%Q.
Proof. unfold Qeq, Qmult, inject_Z; cbn [Qnum Qden]. lia. Qed.

Lemma Q_2_25 (n : Z) :
  (inject_Z n * (15 # 10) * (15 # 10) == (9 # 4) * inject_Z n)%Q.
Proof. unfold Qeq, Qmult, inject_Z; cbn [Qnum Qden]. lia. Qed.

(** C5, as amended: with [n] cores and a one-minute load average [L],
    [check_health] reports one ["high_cpu_load"] issue of severity medium
    when [1.5 n < L <= 2.25 n] and of severity high when [2.25 n < L]; it
    reports none when [L <= 1.5 n], so a load average equal to [1.5 n] goes
    unreported and one equal to [2.25 n] is medium. *)
Theorem high_cpu_load_tiers (st : SystemState) (g : Globals) (n : Z)
        (load1 load5 load15 : Q) :
  psutil_cpu_count st = Ok (Some n) ->
  os_getloadavg st = Ok (load1, load5, load15) ->
  (0 <= n)%Z ->
  let reported :=
    map severity (with_id "high_cpu_load" (fst (health_monitor.check_health st g))) in
  ((load1 <= (3 # 2) * inject_Z n)%Q -> reported = [])
  /\ (((3 # 2) * inject_Z n < load1)%Q -> (load1 <= (9 # 4) * inject_Z n)%Q ->
      reported = [medium])
  /\ (((9 # 4) * inject_Z n < load1)%Q -> reported = [high]).
Proof.
  intros Hn Hload Hpos reported.
  assert (Hrep : reported =
                 map severity (with_id "high_cpu_load" (health_monitor._check_cpu_load st))).
  { subst reported. rewrite check_health_issues, !with_id_app.
    rewrite (with_id_other_prefix _ _ _ (disk_usage_ids st)) by reflexivity.
    rewrite (with_id_other_eq _ _ _ (memory_usage_ids st)) by discriminate.
    rewrite (with_id_other_eq _ _ _ (zombie_ids st)) by discriminate.
    rewrite (with_id_other_prefix _ _ _ (inode_usage_ids st)) by reflexivity.
    rewrite (with_id_other_eq _ _ _ (swap_usage_ids st)) by discriminate.
    rewrite (with_id_other_eq _ _ _ (system_updates_ids st)) by discriminate.
    now rewrite !app_nil_r. }
  destruct (cpu_load_issues st n load1 load5 load15 Hn Hload)
    as (usage_issues & Hcpu & Husage).
  rewrite Hcpu, with_id_app in Hrep.
  rewrite (with_id_other_eq _ _ _ Husage) in Hrep by discriminate.
  rewrite app_nil_r in Hrep. rewrite Hrep. clear Hrep reported Hcpu Husage.
  split; [| split].
  - intros Hle. rewrite <- Q_1_5 in Hle. apply Qgtb_false in Hle.
    now rewrite Hle.
  - intros Hlt Hle. rewrite <- Q_1_5 in Hlt. rewrite <- Q_2_25 in Hle.
    apply Qgtb_true in Hlt. apply Qgtb_false in Hle. now rewrite Hlt, Hle.
  - intros Hlt.
    assert (Hlow : ((3 # 2) * inject_Z n < load1)%Q).
    { eapply Qle_lt_trans; [| exact Hlt].
      apply Qmult_le_compat_r; [discriminate |].
      change 0%Q with (inject_Z 0). now rewrite <- Zle_Qle. }
    rewrite <- Q_1_5 in Hlow. rewrite <- Q_2_25 in Hlt.
    apply Qgtb_true in Hlow. apply Qgtb_true in Hlt. now rewrite Hlow, Hlt.
Qed.

(** The theorem at two cores: a load average of 3.1 is medium, of 4.6 high,
    and of 3.0 unreported. *)
Lemma high_cpu_load_tiers_witness :
  map severity
      (with_id "high_cpu_load"
         (fst (health_monitor.check_health
                 (Samples.with_load 2 (46 # 10) Samples.idle) Samples.no_cache)))
  = [high].
Proof.
  apply (high_cpu_load_tiers
           (Samples.with_load 2 (46 # 10) Samples.idle) Samples.no_cache
           2 (46 # 10) (46 # 10) (46 # 10)).
  - reflexivity.
  - reflexivity.
  - lia.
  - reflexivity.
Defined.

(** C5 as stated fails: with two cores and a load average of exactly 3.0,
    that is [1.5 n], no ["high_cpu_load"] issue is reported. *)
Lemma high_cpu_load_boundary_counterexample :
  let n := 2%Z in
  let L := 3%Q in
  (L == (15 # 10) * inject_Z n)%Q
  /\ ~ exists i,
        In i (fst (health_monitor.check_health
                     (Samples.with_load n L Samples.idle) Samples.no_cache))
        /\ id i = "high_cpu_load".
Proof.
  split.
  - reflexivity.
  - intros (i & Hin & Hid).
    apply (in_map id) in Hin. rewrite Hid in Hin.
    vm_compute in Hin. exact Hin.
Qed.

(* ================================================================== *)
(** * Zombie processes (C9) *)
(* ================================================================== *)

Lemma zombie_severities (st : SystemState) (procs : list pinfo) :
  psutil_process_iter st = Ok procs ->
  Forall (fun i => id i = "zombie_processes") (health_monitor._check_zombie_processes st)
  /\ map severity (health_monitor._check_zombie_processes st) =
       match zombie_count procs with
       | O => []
       | S _ => [if (10 <? zombie_count procs)%nat then medium else low]
       end.
Proof.
  intros Hprocs. split; [apply zombie_ids |].
  unfold health_monitor._check_zombie_processes, try_except, zombie_count.
  rewrite Hprocs. unfold call at 1. rewrite fst_bind_ok. cbn [app].
  destruct (filter health_monitor.is_zombie procs) as [| z zs]; [reflexivity |].
  cbn [map List.length]. rewrite length_map. reflexivity.
Qed.

(** C9: when the process table is read and holds at least one zombie,
    [check_health] returns exactly one issue with id ["zombie_processes"];
    its severity is medium when there are more than 10 zombies and low
    otherwise (so low at exactly 10); with no zombie there is no such
    issue. *)
Theorem zombie_processes_issue (st : SystemState) (g : Globals) (procs : list pinfo) :
  psutil_process_iter st = Ok procs ->
  let reported :=
    map severity (with_id "zombie_processes" (fst (health_monitor.check_health st g))) in
  (zombie_count procs = 0%nat -> reported = [])
  /\ ((1 <= zombie_count procs <= 10)%nat -> reported = [low])
  /\ ((10 < zombie_count procs)%nat -> reported = [medium]).
Proof.
  intros Hprocs reported.
  destruct (zombie_severities st procs Hprocs) as [Hids Hsev].
  assert (Hrep : reported =
                 match zombie_count procs with
                 | O => []
                 | S _ => [if (10 <? zombie_count procs)%nat then medium else low]
                 end).
  { subst reported. rewrite check_health_issues, !with_id_app.
    rewrite (with_id_other_prefix _ _ _ (disk_usage_ids st)) by reflexivity.
    rewrite (with_id_other_eq _ _ _ (memory_usage_ids st)) by discriminate.
    rewrite (with_id_other_eq2 _ _ _ _ (cpu_load_ids st)) by discriminate.
    rewrite (with_id_other_prefix _ _ _ (inode_usage_ids st)) by reflexivity.
    rewrite (with_id_other_eq _ _ _ (swap_usage_ids st)) by discriminate.
    rewrite (with_id_other_eq _ _ _ (system_updates_ids st)) by discriminate.
    rewrite (with_id_all _ _ Hids), !app_nil_r. exact Hsev. }
  rewrite Hrep. clear Hrep reported.
  split; [| split].
  - now intros ->.
  - intros [H1 H10]. destruct (zombie_count procs) as [| k] eqn:E; [lia |].
    destruct (Nat.ltb_spec 10 (S k)); [lia | reflexivity].
  - intros H10. destruct (zombie_count procs) as [| k] eqn:E; [lia |].
    destruct (Nat.ltb_spec 10 (S k)); [reflexivity | lia].
Qed.

(** The theorem at a table of exactly ten zombies and one sleeping
    process: one issue, of severity low. *)
Lemma zombie_processes_issue_witness :
  map severity
      (with_id "zombie_processes"
         (fst (health_monitor.check_health
                 (Samples.with_processes (Samples.sleeper 1 :: map Samples.zombie [2; 3; 4; 5; 6; 7; 8; 9; 10; 11])
                                         Samples.idle)
                 Samples.no_cache)))
  = [low].
Proof.
  apply (zombie_processes_issue
           (Samples.with_processes (Samples.sleeper 1 :: map Samples.zombie [2; 3; 4; 5; 6; 7; 8; 9; 10; 11])
                                   Samples.idle)
           Samples.no_cache
           (Samples.sleeper 1 :: map Samples.zombie [2; 3; 4; 5; 6; 7; 8; 9; 10; 11])).
  - reflexivity.
  - vm_compute. split; repeat constructor.
Defined.

(* ================================================================== *)
(** * The dispatcher (C2, C3, C4) *)
(* ================================================================== *)

Section Dispatcher.

Variable W : Type.
Variable run : command -> W -> exc CompletedProcess * W.
Variable exists_ : string -> W -> bool.
Variable observe : W -> SystemState.
Variable clock : W -> Q.
Variable float : string -> exc Q.
Variable inet_aton : string -> exc unit.

Abbreviation repair_issue := (auto_repair.repair_issue W run exists_ float inet_aton).
Abbreviation repair_each := (auto_repair.repair_each W run exists_ float inet_aton).
Abbreviation repair_all :=
  (auto_repair.repair_all W run exists_ observe clock float inet_aton).
Abbreviation Repair := (auto_repair.Repair W).

Lemma repair_issue_no_branch (issue_id : string) (w : W) :
  unmatched issue_id ->
  repair_issue issue_id w = (no_repair_method issue_id, w).
Proof.
  intros (Hdisk & Hcpu & Hmem & Hssh & Hport & Hupd & Hsus).
  apply String.eqb_neq in Hcpu, Hmem, Hupd.
  unfold auto_repair.repair_issue, auto_repair.try_repair.
  now rewrite Hdisk, Hcpu, Hmem, Hssh, Hport, Hupd, Hsus.
Qed.

(** A turn of the repair loop does nothing to the machine for issues
    whose ids the dispatcher does not know. *)
Lemma repair_critical_unmatched (issues : list Issue) (w : W) :
  Forall (fun i => unmatched (id i)) issues ->
  auto_repair.repair_critical W run exists_ float inet_aton issues w = w.
Proof.
  induction 1 as [| issue issues Hissue _ IH]; [reflexivity |].
  cbn [auto_repair.repair_critical].
  rewrite (repair_issue_no_branch _ w Hissue). cbn [snd].
  now destruct (Severity_eqb (severity issue) high).
Qed.

Lemma returns_rret {A} (P : A -> Prop) (a : A) : P a -> returns P (auto_repair.rret W a).
Proof. intros Ha w b w' [= <- _]. exact Ha. Qed.

Lemma returns_raise {A} (P : A -> Prop) (e : exn) : returns P (auto_repair.raise W e).
Proof. intros w b w' [=]. Qed.

Lemma returns_rbind {A B} (P : B -> Prop) (m : Repair A) (k : A -> Repair B) :
  (forall a, returns P (k a)) -> returns P (auto_repair.rbind W m k).
Proof.
  intros Hk w b w'. unfold auto_repair.rbind.
  destruct (m w) as [[a | e] w1]; [apply Hk | discriminate].
Qed.

Lemma try_repair_r_id (body : Repair auto_repair.RepairResult)
      (on_error : exn -> auto_repair.RepairResult) (s : string) (w : W) :
  returns (fun r => auto_repair.r_id r = s) body ->
  (forall e, auto_repair.r_id (on_error e) = s) ->
  auto_repair.r_id (fst (auto_repair.try_repair W body on_error w)) = s.
Proof.
  intros Hbody Herr. unfold auto_repair.try_repair.
  destruct (body w) as [[r | e] w'] eqn:E; simpl.
  - exact (Hbody _ _ _ E).
  - apply Herr.
Qed.

Ltac returns_step :=
  first
    [ apply returns_rret; reflexivity
    | apply returns_raise
    | apply returns_rbind; intros ?
    | match goal with
      | |- returns _ (if ?c then _ else _) => destruct c
      | |- returns _ (match ?c with _ => _ end) => destruct c
      end ].

Ltac handler_r_id :=
  intros; apply try_repair_r_id; [cbv zeta; repeat returns_step | reflexivity].

Lemma _repair_disk_usage_r_id (s : string) (w : W) :
  auto_repair.r_id (fst (auto_repair._repair_disk_usage W run exists_ s w)) = s.
Proof. unfold auto_repair._repair_disk_usage. handler_r_id. Qed.

Lemma _repair_cpu_usage_r_id (w : W) :
  auto_repair.r_id (fst (auto_repair._repair_cpu_usage W run float w)) = "cpu_usage_high".
Proof. unfold auto_repair._repair_cpu_usage. handler_r_id. Qed.

Lemma _repair_memory_usage_r_id (w : W) :
  auto_repair.r_id (fst (auto_repair._repair_memory_usage W run float w))
  = "memory_usage_high".
Proof. unfold auto_repair._repair_memory_usage. handler_r_id. Qed.

Lemma _repair_ssh_brute_force_r_id (s : string) (w : W) :
  auto_repair.r_id (fst (auto_repair._repair_ssh_brute_force W run exists_ inet_aton s w)) = s.
Proof. unfold auto_repair._repair_ssh_brute_force. handler_r_id. Qed.

Lemma _repair_open_port_r_id (s : string) (w : W) :
  auto_repair.r_id (fst (auto_repair._repair_open_port W run s w)) = s.
Proof. unfold auto_repair._repair_open_port. handler_r_id. Qed.

Lemma _repair_security_updates_r_id (w : W) :
  auto_repair.r_id (fst (auto_repair._repair_security_updates W run exists_ w))
  = "security_updates_available".
Proof. unfold auto_repair._repair_security_updates. handler_r_id. Qed.

Lemma _repair_suspicious_process_r_id (s : string) (w : W) :
  auto_repair.r_id (fst (auto_repair._repair_suspicious_process W run s w)) = s.
Proof. unfold auto_repair._repair_suspicious_process. handler_r_id. Qed.

Lemma fst_handler (h : W -> auto_repair.RepairResult * W) (w : W) :
  auto_repair.handler W h w = (Ok (fst (h w)), snd (h w)).
Proof. unfold auto_repair.handler. now destruct (h w). Qed.

(** The result echoes the id it was asked to repair. *)
Lemma repair_issue_r_id (s : string) (w : W) :
  auto_repair.r_id (fst (repair_issue s w)) = s.
Proof.
  unfold auto_repair.repair_issue, auto_repair.try_repair.
  destruct (startswith s "disk_usage_").
  { rewrite fst_handler. apply _repair_disk_usage_r_id. }
  destruct (String.eqb_spec s "cpu_usage_high") as [-> |].
  { rewrite fst_handler. apply _repair_cpu_usage_r_id. }
  destruct (String.eqb_spec s "memory_usage_high") as [-> |].
  { rewrite fst_handler. apply _repair_memory_usage_r_id. }
  destruct (startswith s "ssh_brute_force_").
  { rewrite fst_handler. apply _repair_ssh_brute_force_r_id. }
  destruct (startswith s "unexpected_open_port_").
  { rewrite fst_handler. apply _repair_open_port_r_id. }
  destruct (String.eqb_spec s "security_updates_available") as [-> |].
  { rewrite fst_handler. apply _repair_security_updates_r_id. }
  destruct (startswith s "suspicious_process_").
  { rewrite fst_handler. apply _repair_suspicious_process_r_id. }
  reflexivity.
Qed.

(** The loop of [repair_all]: one attempt per issue, in order, each on the
    machine the attempts before it left. *)
Lemma repair_each_spec (all_issues : list Issue) (results : list auto_repair.RepairResult)
      (w : W) :
  exists added,
    fst (repair_each all_issues results w) = results ++ added
    /\ Forall2 (fun issue r => exists w0, r = fst (repair_issue (id issue) w0))
               all_issues added.
Proof.
  revert results w.
  induction all_issues as [| issue rest IH]; intros results w.
  - exists []. split; [simpl; now rewrite app_nil_r | constructor].
  - cbn [auto_repair.repair_each].
    destruct (repair_issue (id issue) w) as [result w'] eqn:E.
    destruct (IH (results ++ [result]) w') as (added & Hres & Hall).
    exists (result :: added). split.
    + rewrite Hres, <- app_assoc. reflexivity.
    + constructor; [| exact Hall]. exists w. now rewrite E.
Qed.

(** C3: for an id that matches none of the dispatcher's patterns,
    [repair_issue] returns (it does not raise) a result with
    [success = False] and the non-empty message
    ["No repair method available for this issue"]; the machine is left as
    it was. *)
Theorem repair_issue_unmatched (issue_id : string) (w : W) :
  unmatched issue_id ->
  exists r,
    repair_issue issue_id w = (r, w)
    /\ auto_repair.success r = false
    /\ auto_repair.r_id r = issue_id
    /\ auto_repair.message r = "No repair method available for this issue"
    /\ auto_repair.message r <> "".
Proof.
  intros H. exists (no_repair_method issue_id).
  rewrite (repair_issue_no_branch issue_id w H).
  repeat split. discriminate.
Qed.

(** C2: an issue that [check_health] reports under the id
    ["high_memory_usage"] or ["high_cpu_usage"] comes from the memory check
    or from the CPU check, and its id matches no branch of [repair_issue]:
    the result has [success = False] and the message
    ["No repair method available for this issue"], and the machine is left
    as it was. *)
Theorem memory_and_cpu_issues_unrepaired (st : SystemState) (g : Globals)
        (i : Issue) (w : W) :
  In i (fst (health_monitor.check_health st g)) ->
  id i = "high_memory_usage" \/ id i = "high_cpu_usage" ->
  (In i (health_monitor._check_memory_usage st)
   \/ In i (health_monitor._check_cpu_load st))
  /\ repair_issue (id i) w =
       ({| auto_repair.success := false;
           auto_repair.r_id := id i;
           auto_repair.message := "No repair method available for this issue" |}, w).
Proof.
  intros Hin Hid. split.
  - rewrite check_health_issues in Hin.
    pose proof (disk_usage_ids st) as Hdisk.
    pose proof (zombie_ids st) as Hzombie.
    pose proof (inode_usage_ids st) as Hinode.
    pose proof (swap_usage_ids st) as Hswap.
    pose proof (system_updates_ids st) as Hupd.
    rewrite Forall_forall in Hdisk, Hzombie, Hinode, Hswap, Hupd.
    repeat (apply in_app_or in Hin as [Hin | Hin]); auto.
    + apply Hdisk in Hin. destruct Hid as [E | E]; rewrite E in Hin; discriminate.
    + apply Hzombie in Hin. destruct Hid as [E | E]; rewrite E in Hin; discriminate.
    + apply Hinode in Hin. destruct Hid as [E | E]; rewrite E in Hin; discriminate.
    + apply Hswap in Hin. destruct Hid as [E | E]; rewrite E in Hin; discriminate.
    + apply Hupd in Hin. destruct Hid as [E | E]; rewrite E in Hin; discriminate.
  - apply repair_issue_no_branch.
    destruct Hid as [-> | ->]; repeat split; discriminate.
Qed.

(** C4: [repair_all] returns one result per issue of the health check
    followed by the security check it has just run, in that order: as many
    results as issues, each echoing the id of its issue and each the
    outcome of an attempt on that id, whatever the earlier attempts
    returned. *)
Theorem repair_all_one_result_per_issue (w : W) (g : Globals) :
  let health_issues := fst (health_monitor.check_health (observe w) g) in
  let security_issues :=
    fst (security_monitor.check_security (observe w) (clock w) g) in
  let results := fst (fst (repair_all w g)) in
  List.length results = (List.length health_issues + List.length security_issues)%nat
  /\ map auto_repair.r_id results = map id (health_issues ++ security_issues)
  /\ Forall2 (fun issue r => exists w0, r = fst (repair_issue (id issue) w0))
             (health_issues ++ security_issues) results.
Proof.
  intros health_issues security_issues results.
  assert (Hres : exists w', repair_each (health_issues ++ security_issues) [] w
                            = (results, w')).
  { subst results. unfold auto_repair.repair_all.
    rewrite (surjective_pairing (health_monitor.check_health (observe w) g)).
    rewrite (surjective_pairing
               (security_monitor.check_security (observe w) (clock w)
                  (snd (health_monitor.check_health (observe w) g)))).
    rewrite !check_security_issues.
    fold health_issues. rewrite <- (check_security_issues (observe w) (clock w) g).
    fold security_issues.
    destruct (repair_each (health_issues ++ security_issues) [] w) as [rs w'].
    exists w'. reflexivity. }
  destruct Hres as [w' Hres].
  destruct (repair_each_spec (health_issues ++ security_issues) [] w)
    as (added & Hadded & Hall).
  rewrite Hres in Hadded. simpl in Hadded. subst added.
  assert (Hids : map auto_repair.r_id results = map id (health_issues ++ security_issues)).
  { clear Hres. induction Hall as [| issue r issues rs (w0 & ->) _ IH]; [reflexivity |].
    simpl. now rewrite repair_issue_r_id, IH. }
  split; [| split; [exact Hids | exact Hall]].
  rewrite <- length_app, <- (length_map id), <- Hids. apply eq_sym, length_map.
Qed.

End Dispatcher.

(** The theorem at a machine that uses 96% of its memory. *)
Lemma memory_and_cpu_issues_unrepaired_witness :
  exists i,
    In i (fst (health_monitor.check_health
                 (Samples.with_memory 96 Samples.idle) Samples.no_cache))
    /\ id i = "high_memory_usage"
    /\ auto_repair.repair_issue Samples.Trace Samples.trace_run Samples.trace_exists
         Samples.no_float Samples.no_inet_aton (id i) []
       = ({| auto_repair.success := false;
             auto_repair.r_id := "high_memory_usage";
             auto_repair.message := "No repair method available for this issue" |}, []).
Proof.
  eexists. split; [left; reflexivity | split; [reflexivity |]].
  eapply (memory_and_cpu_issues_unrepaired
           Samples.Trace Samples.trace_run Samples.trace_exists
           Samples.no_float Samples.no_inet_aton
           (Samples.with_memory 96 Samples.idle) Samples.no_cache).
  - left. reflexivity.
  - left. reflexivity.
Defined.

(** The theorem at the id of the firewall issue. *)
Lemma repair_issue_unmatched_witness :
  exists r,
    auto_repair.repair_issue Samples.Trace Samples.trace_run Samples.trace_exists
      Samples.no_float Samples.no_inet_aton "firewall_disabled" [] = (r, [])
    /\ auto_repair.success r = false
    /\ auto_repair.r_id r = "firewall_disabled"
    /\ auto_repair.message r = "No repair method available for this issue"
    /\ auto_repair.message r <> "".
Proof.
  apply (repair_issue_unmatched
           Samples.Trace Samples.trace_run Samples.trace_exists
           Samples.no_float Samples.no_inet_aton "firewall_disabled" []).
  repeat split; discriminate.
Defined.

(* ================================================================== *)
(** * From a mount point to an id and back (C6) *)
(* ================================================================== *)

Lemma prefix_nil (s : string) : String.prefix "" s = true.
Proof. now destruct s. Qed.

(** Replacing where nothing occurs changes nothing. *)
Lemma replace_from_absent (old new s : string) :
  old <> "" -> contains old s = false -> replace_from old new 0 s = s.
Proof.
  intros Hold. induction s as [| c s IH]; intros Habs; [reflexivity |].
  cbn [contains] in Habs. apply orb_false_iff in Habs as [Hp Hrest].
  cbn [replace_from]. rewrite Hp. now rewrite IH.
Qed.

(** After an occurrence, the scan resumes behind it. *)
Lemma replace_from_skip (old new u t : string) :
  replace_from old new (String.length u) (u ++ t) = replace_from old new 0 t.
Proof.
  induction u as [| c u IH]; [| exact IH].
  simpl. destruct t; reflexivity.
Qed.

Lemma replace_leading (p t new : string) :
  p <> "" -> replace (p ++ t) p new = (new ++ replace t p new)%string.
Proof.
  destruct p as [| c p]; [congruence |]. intros _.
  unfold replace.
  change ((String c p ++ t)%string) with (String c (p ++ t)).
  cbn [replace_from].
  change (String c (p ++ t)) with ((String c p ++ t)%string).
  rewrite prefix_app.
  replace (String.length (String c p) - 1)%nat with (String.length p)
    by (cbn [String.length]; lia).
  now rewrite replace_from_skip.
Qed.

Lemma prefix_char (a c : ascii) (s : string) :
  String.prefix (String a "") (String c s) = ascii_eqb c a.
Proof.
  simpl. unfold ascii_eqb. rewrite prefix_nil.
  destruct (ascii_dec a c) as [-> | Hne].
  - now rewrite Ascii.eqb_refl.
  - symmetry. apply Ascii.eqb_neq. congruence.
Qed.

Lemma replace_char (a b : ascii) (s : string) :
  replace s (String a "") (String b "") = subst_char a b s.
Proof.
  unfold replace. induction s as [| c s IH]; [reflexivity |].
  cbn [replace_from subst_char]. rewrite prefix_char.
  cbn [String.length Nat.sub]. rewrite IH.
  now destruct (ascii_eqb c a).
Qed.

Lemma contains_char (a c : ascii) (s : string) :
  contains (String a "") (String c s) = ascii_eqb c a || contains (String a "") s.
Proof. cbn [contains]. now rewrite prefix_char. Qed.

Lemma subst_char_back (a b : ascii) (s : string) :
  contains (String b "") s = false ->
  subst_char b a (subst_char a b s) = s.
Proof.
  induction s as [| c s IH]; intros Hb; [reflexivity |].
  rewrite contains_char in Hb. apply orb_false_iff in Hb as [Hc Hs].
  cbn [subst_char]. rewrite (IH Hs). f_equal.
  unfold ascii_eqb in *.
  destruct (Ascii.eqb c a) eqn:Eca.
  - rewrite Ascii.eqb_refl. symmetry. now apply Ascii.eqb_eq.
  - now rewrite Hc.
Qed.

(** Where the round trip does hold: the mount point is an absolute path
    without underscore, and the text ["disk_usage_"] does not show up in
    its encoding. *)
Lemma disk_mountpoint_round_trip (m : string) :
  startswith m "/" = true ->
  contains "_" m = false ->
  contains "disk_usage_" (replace m "/" "_") = false ->
  auto_repair.disk_mountpoint ("disk_usage_" ++ replace m "/" "_") = m.
Proof.
  intros Habs Hus Henc. unfold auto_repair.disk_mountpoint.
  assert (Hback : replace (replace ("disk_usage_" ++ replace m "/" "_") "disk_usage_" "")
                          "_" "/" = m).
  { rewrite replace_leading by discriminate.
    change (("" ++ ?x)%string) with x.
    assert (Hsame : replace (replace m "/" "_") "disk_usage_" "" = replace m "/" "_").
    { unfold replace at 1. now apply replace_from_absent. }
    rewrite Hsame, !replace_char. now apply subst_char_back. }
  cbv zeta. rewrite Hback, Habs. reflexivity.
Qed.

(** C6 fails for a mount point with an underscore.  A file system mounted
    at [/my_data], 96% full, is reported under the id
    ["disk_usage__my_data"]; from that id the disk handler derives
    [/my/data], and names that path in its message. *)
Theorem disk_id_round_trip_fails :
  let m := "/my_data" in
  let st := Samples.with_disk m 96 Samples.idle in
  let issue_id := ("disk_usage_" ++ replace m "/" "_")%string in
  map id (fst (health_monitor.check_health st Samples.no_cache)) = [issue_id]
  /\ auto_repair.disk_mountpoint issue_id = "/my/data"
  /\ auto_repair.disk_mountpoint issue_id <> m
  /\ fst (auto_repair._repair_disk_usage
            Samples.Trace Samples.trace_run Samples.trace_exists issue_id [])
     = {| auto_repair.success := true;
          auto_repair.r_id := "disk_usage__my_data";
          auto_repair.message := "Cleaned up disk space on /my/data" |}.
Proof.
  repeat split. discriminate.
Qed.

(* ================================================================== *)
(** * Listening ports (C7) *)
(* ================================================================== *)

Lemma span_digits_all_digits (s : string) :
  all_digits (fst (security_monitor.span_digits s)) = true.
Proof.
  induction s as [| c s IH]; [reflexivity |].
  cbn [security_monitor.span_digits].
  destruct (isdigit c) eqn:Ec; [| reflexivity].
  destruct (security_monitor.span_digits s) as [ds rest].
  cbn [fst all_digits] in *. now rewrite Ec, IH.
Qed.

(** What [findall] returns are runs of digits. *)
Lemma findall_ports_digits (s : string) (skip : nat) :
  Forall (fun p => port_text p = true) (security_monitor.findall_ports skip s).
Proof.
  revert skip. induction s as [| c s IH]; intros skip; [constructor |].
  cbn [security_monitor.findall_ports].
  destruct skip as [| k]; [| apply IH].
  destruct (ascii_eqb c ":"); [| apply IH].
  pose proof (span_digits_all_digits s) as Hds.
  destruct (security_monitor.span_digits s) as [[| d ds] [| w rest]]; try apply IH.
  destruct (isspace w); [| apply IH].
  constructor; [exact Hds | apply IH].
Qed.

Lemma isdigit_not_space (c : ascii) : isdigit c = true -> isspace c = false.
Proof.
  unfold isdigit, isspace. intros H.
  apply andb_true_iff in H as [H48 _]. apply Nat.leb_le in H48.
  apply orb_false_iff. split; apply andb_false_iff; right; apply Nat.leb_gt; lia.
Qed.

Lemma rstrip_digits (s : string) : all_digits s = true -> rstrip s = s.
Proof.
  unfold rstrip. induction s as [| c s IH]; [reflexivity |].
  cbn [all_digits]. intros H. apply andb_true_iff in H as [Hc Hs].
  cbn [rstrip_by]. rewrite (IH Hs).
  destruct s; [| reflexivity].
  now rewrite (isdigit_not_space c Hc).
Qed.

Lemma strip_digits (s : string) : all_digits s = true -> strip s = s.
Proof.
  intros H. unfold strip.
  assert (Hl : lstrip s = s).
  { destruct s as [| c s]; [reflexivity |].
    cbn [all_digits] in H. apply andb_true_iff in H as [Hc _].
    cbn [lstrip]. now rewrite (isdigit_not_space c Hc). }
  rewrite Hl. now apply rstrip_digits.
Qed.

Lemma literal_digits_all (s : string) :
  all_digits s = true -> literal_digits true s = Some s.
Proof.
  induction s as [| c s IH]; [reflexivity |].
  cbn [all_digits]. intros H. apply andb_true_iff in H as [Hc Hs].
  cbn [literal_digits]. now rewrite Hc, (IH Hs).
Qed.

(** [int] reads a run of digits as the number it denotes. *)
Lemma int_port_text (p : string) :
  port_text p = true -> int p = Ok (digits_value 0 p).
Proof.
  destruct p as [| d ds]; [discriminate |].
  cbn [port_text]. intros H. unfold int. rewrite (strip_digits _ H).
  cbn [all_digits] in H. apply andb_true_iff in H as [Hd Hds].
  assert (Hlit : literal_digits false (String d ds) = Some (String d ds)).
  { cbn [literal_digits]. now rewrite Hd, (literal_digits_all ds Hds). }
  assert (Hsign : (match String d ds with
                   | String "-" r => (-1, r)
                   | String "+" r => (1, r)
                   | _ => (1, String d ds)
                   end) = (1, String d ds)).
  { destruct d as [[] [] [] [] [] [] [] []]; try reflexivity; discriminate Hd. }
  rewrite Hsign, Hlit.
  f_equal. now destruct (digits_value 0 (String d ds)).
Qed.

Lemma port_allowed_iff (n : Z) :
  security_monitor.port_allowed n = true <-> In n security_monitor.allowed_ports.
Proof.
  unfold security_monitor.port_allowed. rewrite existsb_exists. split.
  - intros (m & Hm & E). apply Z.eqb_eq in E. now subst m.
  - intros H. exists n. split; [exact H | apply Z.eqb_refl].
Qed.

Lemma open_ports_loop (ports : list string) :
  Forall (fun p => port_text p = true) ports ->
  for_each ports (fun port =>
    port_num <- call (int port) ;;
    if negb (security_monitor.port_allowed port_num) then
      append {| id := "unexpected_open_port_" ++ port;
                severity := medium;
                description := [VStr "Unexpected open port: "; VStr port];
                component := "network";
                data := [("port", VInt port_num)] |}
    else pass)
  = (unexpected ports, Ok tt).
Proof.
  induction 1 as [| port ports Hport _ IH]; [reflexivity |].
  cbn [for_each unexpected flat_map]. rewrite IH.
  rewrite (int_port_text port Hport).
  unfold call, bind, append, pass, ret, open_port_issue.
  now destruct (security_monitor.port_allowed (digits_value 0 port)).
Qed.

(** When [ss] succeeds, [_check_open_ports] reports the ports found in its
    output that are not allowed, in order. *)
Lemma open_ports_reported (st : SystemState) (result : CompletedProcess) :
  subprocess_run st (Shell "ss -tuln | grep LISTEN") = Ok result ->
  returncode result = 0 ->
  security_monitor._check_open_ports st =
    unexpected (security_monitor.findall_ports 0 (stdout result)).
Proof.
  intros Hrun Hrc.
  unfold security_monitor._check_open_ports, try_except. cbv zeta.
  rewrite Hrun. unfold call at 1. rewrite fst_bind_ok. cbn [app].
  rewrite Hrc. cbn [Z.eqb].
  now rewrite (open_ports_loop _ (findall_ports_digits (stdout result) 0)).
Qed.

Lemma string_app_inv_head (p x y : string) : (p ++ x = p ++ y)%string -> x = y.
Proof.
  induction p as [| c p IH]; simpl; intros H; [exact H |].
  injection H as H. now apply IH.
Qed.

Lemma in_unexpected (ports : list string) (i : Issue) :
  In i (unexpected ports) <->
  exists port, In port ports
               /\ security_monitor.port_allowed (digits_value 0 port) = false
               /\ i = open_port_issue port.
Proof.
  unfold unexpected. rewrite in_flat_map. split.
  - intros (port & Hin & Hi). exists port.
    destruct (security_monitor.port_allowed (digits_value 0 port)); [destruct Hi |].
    destruct Hi as [<- | []]. now repeat split.
  - intros (port & Hin & Hna & ->). exists port. split; [exact Hin |].
    rewrite Hna. now left.
Qed.

(** A text does not begin with two words whose first letters differ. *)
Lemma startswith_clash (a b : ascii) (p q s : string) :
  a <> b ->
  startswith s (String a p) = true -> startswith s (String b q) = true -> False.
Proof.
  unfold startswith. intros Hab Ha Hb.
  destruct s as [| c s]; [discriminate Ha |]. simpl in Ha, Hb.
  destruct (ascii_dec a c) as [<- |]; [| discriminate Ha].
  destruct (ascii_dec b a) as [-> |]; [now apply Hab | discriminate Hb].
Qed.

(** The issues of a security cycle whose id begins with
    ["unexpected_open_port_"] are those of [_check_open_ports]. *)
Lemma open_port_issue_origin (st : SystemState) (now : Q) (g : Globals) (i : Issue) :
  In i (fst (security_monitor.check_security st now g)) ->
  startswith (id i) "unexpected_open_port_" = true ->
  In i (security_monitor._check_open_ports st).
Proof.
  intros Hin Hid. rewrite check_security_issues in Hin.
  pose proof (failed_logins_ids st) as H1.
  pose proof (sudo_usage_ids st) as H2.
  pose proof (suspicious_processes_ids st) as H4.
  pose proof (modified_system_files_ids st now) as H5.
  pose proof (ssh_config_ids st) as H6.
  pose proof (firewall_status_ids st) as H7.
  rewrite Forall_forall in H1, H2, H4, H5, H6, H7.
  repeat (apply in_app_or in Hin as [Hin | Hin]); auto.
  - apply H1 in Hin. rewrite Hin in Hid. discriminate.
  - apply H2 in Hin. rewrite Hin in Hid. discriminate.
  - apply H4 in Hin. exfalso.
    refine (startswith_clash _ _ _ _ _ _ Hid Hin). discriminate.
  - apply H5 in Hin. exfalso.
    refine (startswith_clash _ _ _ _ _ _ Hid Hin). discriminate.
  - apply H6 in Hin. destruct Hin as [E | E]; rewrite E in Hid; discriminate.
  - apply H7 in Hin. rewrite Hin in Hid. discriminate.
Qed.

(** C7: when [ss] has succeeded, a port [p] found in its output is
    reported by [check_security] as an issue with id
    ["unexpected_open_port_<p>"] and severity medium exactly when its
    number is not one of 22, 80, 443, 3306, 5432, 8000, 8080; every issue
    under such an id has severity medium and stands for a port found that
    is not in the list; and when every port found is in the list, no issue
    has an id beginning with ["unexpected_open_port_"]. *)
Theorem unexpected_open_port_iff (st : SystemState) (now : Q) (g : Globals)
        (result : CompletedProcess) :
  subprocess_run st (Shell "ss -tuln | grep LISTEN") = Ok result ->
  returncode result = 0 ->
  let ports := security_monitor.findall_ports 0 (stdout result) in
  let issues := fst (security_monitor.check_security st now g) in
  security_monitor.allowed_ports = [22; 80; 443; 3306; 5432; 8000; 8080]
  /\ (forall p, In p ports ->
        ((exists i, In i issues
                    /\ id i = ("unexpected_open_port_" ++ p)%string
                    /\ severity i = medium)
         <-> ~ In (digits_value 0 p) security_monitor.allowed_ports))
  /\ (forall i, In i issues -> startswith (id i) "unexpected_open_port_" = true ->
        severity i = medium
        /\ exists p, In p ports
                     /\ id i = ("unexpected_open_port_" ++ p)%string
                     /\ ~ In (digits_value 0 p) security_monitor.allowed_ports)
  /\ ((forall p, In p ports -> In (digits_value 0 p) security_monitor.allowed_ports) ->
      forall i, In i issues -> startswith (id i) "unexpected_open_port_" = false).
Proof.
  intros Hrun Hrc ports issues.
  pose proof (open_ports_reported st result Hrun Hrc) as Hrep. fold ports in Hrep.
  assert (Horigin : forall i, In i issues ->
                      startswith (id i) "unexpected_open_port_" = true ->
                      exists p, In p ports
                        /\ security_monitor.port_allowed (digits_value 0 p) = false
                        /\ i = open_port_issue p).
  { intros i Hin Hid. apply in_unexpected. rewrite <- Hrep.
    now apply (open_port_issue_origin st now g). }
  split; [reflexivity | split; [| split]].
  - intros p Hp. split.
    + intros (i & Hin & Hid & _).
      destruct (Horigin i Hin) as (p' & _ & Hna & ->).
      { rewrite Hid. apply startswith_app. }
      apply string_app_inv_head in Hid. subst p'.
      rewrite <- port_allowed_iff. congruence.
    + intros Hna. exists (open_port_issue p). split; [| now split].
      subst issues. rewrite check_security_issues.
      apply in_or_app. right. apply in_or_app. right. apply in_or_app. left.
      rewrite Hrep. apply in_unexpected. exists p. split; [exact Hp | split; [| reflexivity]].
      destruct (security_monitor.port_allowed (digits_value 0 p)) eqn:E; [| reflexivity].
      apply port_allowed_iff in E. contradiction.
  - intros i Hin Hid. destruct (Horigin i Hin Hid) as (p & Hp & Hna & ->).
    split; [reflexivity |]. exists p. split; [exact Hp | split; [reflexivity |]].
    rewrite <- port_allowed_iff. congruence.
  - intros Hall i Hin.
    destruct (startswith (id i) "unexpected_open_port_") eqn:Hid; [| reflexivity].
    destruct (Horigin i Hin Hid) as (p & Hp & Hna & _).
    apply Hall, port_allowed_iff in Hp. congruence.
Qed.

(** The theorem at a machine that listens on ports 22 and 8081: port 8081
    is reported. *)
Lemma unexpected_open_port_iff_witness :
  exists i,
    In i (fst (security_monitor.check_security
                 (Samples.with_output (Shell "ss -tuln | grep LISTEN") Samples.ss_sample Samples.idle)
                 0 Samples.no_cache))
    /\ id i = "unexpected_open_port_8081"
    /\ severity i = medium.
Proof.
  destruct (unexpected_open_port_iff
              (Samples.with_output (Shell "ss -tuln | grep LISTEN") Samples.ss_sample Samples.idle)
              0 Samples.no_cache {| returncode := 0; stdout := Samples.ss_sample |})
    as (_ & Hiff & _).
  - reflexivity.
  - reflexivity.
  - apply (Hiff "8081").
    + vm_compute. right. left. reflexivity.
    + vm_compute. intros H. decompose [or] H; (discriminate || contradiction).
Defined.

(* ================================================================== *)
(** * SSH root login (C8) *)
(* ================================================================== *)



(* ================================================================== *)
(** * Repeated cycles (C10) *)
(* ================================================================== *)





(* ================================================================== *)
(** * More on loops of sub-checks *)
(* ================================================================== *)

Lemma in_for_each_inv {A} (xs : list A) (body : A -> SubCheck unit) (i : Issue) :
  In i (fst (for_each xs body)) -> exists x, In x xs /\ In i (fst (body x)).
Proof.
  induction xs as [| x xs IH]; intros Hi; [destruct Hi |].
  cbn [for_each] in Hi. apply in_bind_inv in Hi as [Hi | (_ & _ & Hi)].
  - exists x. split; [now left | exact Hi].
  - destruct (IH Hi) as (y & Hy & Hiy). exists y. split; [now right | exact Hiy].
Qed.

(** A loop whose turns do not raise appends what each turn appends. *)
Lemma for_each_quiet {A} (body : A -> SubCheck unit) (xs : list A) :
  (forall y, In y xs -> snd (body y) = Ok tt) ->
  for_each xs body = (flat_map (fun y => fst (body y)) xs, Ok tt).
Proof.
  induction xs as [| y xs IH]; intros Hq; [reflexivity |].
  cbn [for_each flat_map].
  assert (Hy : snd (body y) = Ok tt) by (apply Hq; now left).
  destruct (body y) as [added r]. simpl in Hy. subst r.
  unfold bind. rewrite IH by (intros z Hz; apply Hq; now right).
  reflexivity.
Qed.

(** A turn that raises ends the loop. *)
Lemma for_each_raised {A} (body : A -> SubCheck unit) (pre : list A) (x : A)
      (post : list A) (e : exn) :
  (forall y, In y pre -> snd (body y) = Ok tt) ->
  snd (body x) = Raised e ->
  for_each (pre ++ x :: post) body
  = (flat_map (fun y => fst (body y)) pre ++ fst (body x), Raised e).
Proof.
  induction pre as [| y pre IH]; intros Hq Hx.
  - cbn [app for_each flat_map]. destruct (body x) as [added r].
    simpl in Hx. subst r. reflexivity.
  - cbn [app for_each flat_map].
    assert (Hy : snd (body y) = Ok tt) by (apply Hq; now left).
    destruct (body y) as [added r]. simpl in Hy. subst r.
    unfold bind. rewrite IH; [| intros z Hz; apply Hq; now right | exact Hx].
    now rewrite app_assoc.
Qed.

(* ================================================================== *)
(** * Disk usage: which partitions are reported *)
(* ================================================================== *)

(** Once a turn raises, nothing later is appended. *)
Lemma for_each_cut {A} (body : A -> SubCheck unit) (pre : list A) (x : A)
      (post : list A) (e : exn) (i : Issue) :
  snd (body x) = Raised e ->
  In i (fst (for_each (pre ++ x :: post) body)) ->
  (exists y, In y pre /\ In i (fst (body y))) \/ In i (fst (body x)).
Proof.
  intros Hx. induction pre as [| y pre IH]; cbn [app for_each]; intros Hi.
  - right. destruct (body x) as [added r]. simpl in Hx. subst r. exact Hi.
  - apply in_bind_inv in Hi as [Hi | (_ & _ & Hi)].
    + left. exists y. split; [now left | exact Hi].
    + destruct (IH Hi) as [(z & Hz & Hiz) | Hix]; [left | now right].
      exists z. split; [now right | exact Hiz].
Qed.

(** What one turn of the loop of [_check_disk_usage] appends. *)
Lemma disk_turn_inv (st : SystemState) (p : sdiskpart) (k : sdiskusage -> SubCheck unit)
      (i : Issue) :
  In i (fst (if negb (String.eqb (fstype p) "")
                && negb (special_filesystem (mountpoint p))
             then usage <- call (psutil_disk_usage st (mountpoint p)) ;; k usage
             else pass)) ->
  fstype p <> "" /\ special_filesystem (mountpoint p) = false
  /\ exists u, psutil_disk_usage st (mountpoint p) = Ok u /\ In i (fst (k u)).
Proof.
  destruct (String.eqb_spec (fstype p) "") as [| Hfs]; [intros [] |].
  destruct (special_filesystem (mountpoint p)); [intros [] |].
  cbn [negb andb]. intros Hi.
  apply in_bind_inv in Hi as [[] | (u & Hu & Hi)].
  split; [exact Hfs | split; [reflexivity |]]. exists u. now split.
Qed.

(** X1: every issue of [_check_disk_usage] stands for a listed partition
    with a file-system type, whose mount point contains none of [/boot],
    [/dev], [/proc], [/sys], and whose measured usage is at least 90%; its
    id is made from that mount point and its severity is high from 95% on,
    medium below. *)
Theorem disk_usage_issue_origin (st : SystemState) (i : Issue) :
  In i (health_monitor._check_disk_usage st) ->
  exists parts p u,
    psutil_disk_partitions st = Ok parts
    /\ In p parts
    /\ fstype p <> ""
    /\ special_filesystem (mountpoint p) = false
    /\ psutil_disk_usage st (mountpoint p) = Ok u
    /\ (90 <= du_percent u)%Q
    /\ id i = disk_issue_id (mountpoint p)
    /\ ((95 <= du_percent u)%Q -> severity i = high)
    /\ ((du_percent u < 95)%Q -> severity i = medium).
Proof.
  unfold health_monitor._check_disk_usage, try_except. intros Hi.
  apply in_bind_inv in Hi as [[] | (parts & Hparts & Hi)].
  apply in_for_each_inv in Hi as (p & Hp & Hi).
  apply disk_turn_inv in Hi as (Hfs & Hsp & u & Hu & Hi).
  exists parts, p, u.
  destruct (psutil_disk_partitions st) as [parts' | e]; [| discriminate Hparts].
  injection Hparts as ->.
  unfold health_monitor.DISK_USAGE_THRESHOLD in Hi.
  destruct (Qgeb (du_percent u) 90) eqn:H90; [| destruct Hi].
  destruct Hi as [<- | []]. apply Qgeb_true in H90.
  repeat split; try assumption; cbn [severity].
  - intros H95. apply Qgeb_true in H95. now rewrite H95.
  - intros H95. apply Qgeb_false in H95. now rewrite H95.
Qed.

(** The theorem at a machine whose [/data] is 96% full. *)
Lemma disk_usage_issue_origin_witness :
  exists p u,
    In p [{| device := "/dev/sdb1"; mountpoint := "/data"; fstype := "ext4" |}]
    /\ psutil_disk_usage (Samples.with_disk "/data" 96 Samples.idle) (mountpoint p) = Ok u
    /\ (90 <= du_percent u)%Q.
Proof.
  destruct (disk_usage_issue_origin
              (Samples.with_disk "/data" 96 Samples.idle)
              {| id := "disk_usage__data";
                 severity := high;
                 description := [VStr "Disk usage at "; VNum 96; VStr "% on "; VStr "/data"];
                 component := "disk";
                 data := [("mountpoint", VStr "/data");
                          ("usage_percent", VNum 96);
                          ("total_gb", VRound (gib (100 * 1024 ^ 3)) 2);
                          ("free_gb", VRound (gib (4 * 1024 ^ 3)) 2)] |})
    as (parts & p & u & Hparts & Hp & _ & _ & Hu & H90 & _).
  - left. reflexivity.
  - injection Hparts as <-. exists p, u. now repeat split.
Defined.

(** X2: when measuring a partition raises, the loop of
    [_check_disk_usage] ends there: every issue returned stands for a
    partition listed before it, and the partitions listed after it go
    unreported however full they are. *)
Theorem disk_usage_stops_at_failure (st : SystemState) (pre post : list sdiskpart)
        (p : sdiskpart) (e : exn) :
  psutil_disk_partitions st = Ok (pre ++ p :: post) ->
  fstype p <> "" ->
  special_filesystem (mountpoint p) = false ->
  psutil_disk_usage st (mountpoint p) = Raised e ->
  Forall (fun i => exists q, In q pre /\ id i = disk_issue_id (mountpoint q))
         (health_monitor._check_disk_usage st).
Proof.
  intros Hparts Hfs Hsp Hraise. apply Forall_forall. intros i Hi.
  unfold health_monitor._check_disk_usage, try_except in Hi.
  rewrite Hparts in Hi. unfold call at 1 in Hi. rewrite fst_bind_ok in Hi.
  cbn [app] in Hi.
  apply for_each_cut with (e := e) in Hi.
  - destruct Hi as [(q & Hq & Hi) | Hi].
    + exists q. split; [exact Hq |].
      apply disk_turn_inv in Hi as (_ & _ & u & _ & Hi).
      destruct (Qgeb (du_percent u) health_monitor.DISK_USAGE_THRESHOLD);
        [| destruct Hi].
      destruct Hi as [<- | []]. reflexivity.
    + apply disk_turn_inv in Hi as (_ & _ & u & Hu & _). congruence.
  - apply String.eqb_neq in Hfs. rewrite Hfs, Hsp. cbn [negb andb].
    now rewrite Hraise.
Qed.

(** The theorem at three file systems: [/data] 96% full, [/mnt/usb] that
    cannot be measured, [/srv] 99% full.  Only [/data] is reported. *)
Lemma disk_usage_stops_at_failure_witness :
  map id (health_monitor._check_disk_usage
            (XSamples.with_disks
               [("/data", Ok 96%Q);
                ("/mnt/usb", Raised (Exception "PermissionError" "/mnt/usb"));
                ("/srv", Ok 99%Q)]
               Samples.idle))
  = ["disk_usage__data"]
  /\ Forall (fun i => exists q,
                 In q [{| device := "/dev/sdb"; mountpoint := "/data"; fstype := "ext4" |}]
                 /\ id i = disk_issue_id (mountpoint q))
            (health_monitor._check_disk_usage
               (XSamples.with_disks
                  [("/data", Ok 96%Q);
                   ("/mnt/usb", Raised (Exception "PermissionError" "/mnt/usb"));
                   ("/srv", Ok 99%Q)]
                  Samples.idle)).
Proof.
  split; [reflexivity |].
  apply (disk_usage_stops_at_failure
           (XSamples.with_disks
              [("/data", Ok 96%Q);
               ("/mnt/usb", Raised (Exception "PermissionError" "/mnt/usb"));
               ("/srv", Ok 99%Q)]
              Samples.idle)
           [{| device := "/dev/sdb"; mountpoint := "/data"; fstype := "ext4" |}]
           [{| device := "/dev/sdb"; mountpoint := "/srv"; fstype := "ext4" |}]
           {| device := "/dev/sdb"; mountpoint := "/mnt/usb"; fstype := "ext4" |}
           (Exception "PermissionError" "/mnt/usb")).
  - reflexivity.
  - discriminate.
  - reflexivity.
  - reflexivity.
Defined.

(* ================================================================== *)
(** * Disk ids, CPU probes, inodes, updates *)
(* ================================================================== *)

Lemma subst_char_app (a b : ascii) (s t : string) :
  subst_char a b (s ++ t) = (subst_char a b s ++ subst_char a b t)%string.
Proof.
  induction s as [| c s IH]; [reflexivity |]. simpl. now rewrite IH.
Qed.

(** X3: the id of a disk issue tells mount points apart only up to the
    exchange of slash and underscore: a path and the same path with one
    slash written as an underscore get the same id, and two mount points
    without underscore that get the same id are equal. *)
Theorem disk_issue_id_collisions :
  (forall a b : string,
      disk_issue_id (a ++ "/" ++ b) = disk_issue_id (a ++ "_" ++ b))
  /\ (forall m m' : string,
        contains "_" m = false -> contains "_" m' = false ->
        disk_issue_id m = disk_issue_id m' -> m = m').
Proof.
  unfold disk_issue_id. split.
  - intros a b. f_equal. rewrite !replace_char, !subst_char_app. reflexivity.
  - intros m m' Hm Hm' Heq. apply string_app_inv_head in Heq.
    rewrite !replace_char in Heq.
    rewrite <- (subst_char_back "/" "_" m Hm), <- (subst_char_back "/" "_" m' Hm').
    now rewrite Heq.
Qed.

(** The theorem at [/srv/my/data] and [/srv/my_data], and at [/data] and
    [/data]. *)
Lemma disk_issue_id_collisions_witness :
  disk_issue_id "/srv/my/data" = disk_issue_id "/srv/my_data"
  /\ "/data" = "/data".
Proof.
  destruct disk_issue_id_collisions as [Hsame Hinj]. split.
  - exact (Hsame "/srv/my" "data").
  - apply Hinj; reflexivity.
Defined.

(** X4: the usage probe of [_check_cpu_load] comes after the load-average
    probes in one [try]: when the core count is unknown ([None]) or one of
    the two probes raises, the check returns nothing, whatever the CPU
    usage is. *)
Theorem cpu_usage_unreported_without_load_probes (st : SystemState) :
  psutil_cpu_count st = Ok None
  \/ (exists e, psutil_cpu_count st = Raised e)
  \/ (exists e, os_getloadavg st = Raised e) ->
  health_monitor._check_cpu_load st = [].
Proof.
  unfold health_monitor._check_cpu_load, try_except.
  intros [Hnone | [[e He] | [e He]]].
  - rewrite Hnone. now destruct (os_getloadavg st) as [[[l1 l5] l15] | e].
  - now rewrite He.
  - rewrite He. now destruct (psutil_cpu_count st).
Qed.

(** The theorem at a machine whose core count is unknown and whose CPU is
    100% busy. *)
Lemma cpu_usage_unreported_without_load_probes_witness :
  health_monitor._check_cpu_load
    (XSamples.with_cpu (Ok None) (Ok (8, 8, 8)%Q) (Ok 100%Q) Samples.idle) = [].
Proof.
  apply (cpu_usage_unreported_without_load_probes
           (XSamples.with_cpu (Ok None) (Ok (8, 8, 8)%Q) (Ok 100%Q) Samples.idle)).
  left. reflexivity.
Defined.

(** X5: an exception of the usage probe does not lose the load issue
    appended before it: with [n] cores, a load average above [1.5 n] and a
    usage probe that raises, [_check_cpu_load] returns the one
    ["high_cpu_load"] issue. *)
Theorem cpu_load_issue_survives_usage_failure (st : SystemState) (n : Z)
        (load1 load5 load15 : Q) (e : exn) :
  psutil_cpu_count st = Ok (Some n) ->
  os_getloadavg st = Ok (load1, load5, load15) ->
  psutil_cpu_percent st = Raised e ->
  ((3 # 2) * inject_Z n < load1)%Q ->
  map id (health_monitor._check_cpu_load st) = ["high_cpu_load"].
Proof.
  intros Hn Hload Hraise Hlt.
  unfold health_monitor._check_cpu_load, try_except.
  rewrite Hn, Hload, Hraise.
  unfold call, bind, health_monitor.times_factor, health_monitor.LOAD_THRESHOLD_FACTOR.
  rewrite <- Q_1_5 in Hlt. apply Qgtb_true in Hlt. rewrite Hlt. reflexivity.
Qed.

Lemma cpu_load_issue_survives_usage_failure_witness :
  map id (health_monitor._check_cpu_load
            (XSamples.with_cpu (Ok (Some 2)) (Ok (4, 3, 2)%Q)
               (Raised (Exception "RuntimeError" "no cpu times")) Samples.idle))
  = ["high_cpu_load"].
Proof.
  apply (cpu_load_issue_survives_usage_failure
           (XSamples.with_cpu (Ok (Some 2)) (Ok (4, 3, 2)%Q)
              (Raised (Exception "RuntimeError" "no cpu times")) Samples.idle)
           2 4 3 2 (Exception "RuntimeError" "no cpu times")).
  - reflexivity.
  - reflexivity.
  - reflexivity.
  - reflexivity.
Defined.

Lemma split_on_nonempty (sep : ascii) (s : string) :
  (1 <= List.length (split_on sep s))%nat.
Proof.
  induction s as [| c s IH]; cbn [split_on]; [apply Nat.le_refl |].
  destruct (ascii_eqb c sep); cbn [List.length]; [lia |].
  destruct (split_on sep s); cbn [List.length]; lia.
Qed.

(** X6: the lines of [df -i] are examined one by one and none of them
    ends the loop: a line after the header with at least five fields, a
    mount point that is no pseudo file system and a percentage of at least
    90 is reported under its mount point, whatever the other lines hold
    (a line whose percentage is no number is passed over). *)
Theorem inode_lines_are_independent (st : SystemState) (result : CompletedProcess)
        (line : string) (n : Z) :
  subprocess_run st (Argv ["df"; "-i"]) = Ok result ->
  returncode result = 0 ->
  In line (slice_from 1 (split_on LF (strip (stdout result)))) ->
  let parts := split line in
  let mountpoint :=
    if (6 <=? List.length parts)%nat then nth 5 parts "" else nth 4 parts "" in
  (5 <= List.length parts)%nat ->
  special_filesystem mountpoint = false ->
  int (rstrip_chars (nth 4 parts "") "%") = Ok n ->
  90 <= n ->
  exists i,
    In i (health_monitor._check_inode_usage st)
    /\ id i = ("inode_usage_" ++ replace mountpoint "/" "_")%string
    /\ (95 <= n -> severity i = high)
    /\ (n < 95 -> severity i = medium).
Proof.
  intros Hrun Hrc Hline parts mountpoint Hlen Hsp Hint H90.
  apply in_split in Hline as (pre & post & Hlines).
  eexists. split; [| split; [| split]].
  - unfold health_monitor._check_inode_usage, try_except.
    rewrite Hrun. unfold call at 1. rewrite fst_bind_ok. cbn [app].
    rewrite Hrc. cbn [Z.eqb]. cbv zeta. rewrite Hlines.
    apply for_each_reaches.
    + intros l _. clear.
      destruct (5 <=? List.length (split l))%nat; [| reflexivity].
      destruct (special_filesystem _); [reflexivity |].
      destruct (int _) as [k | e]; [| reflexivity].
      destruct (k >=? health_monitor.INODE_USAGE_THRESHOLD); reflexivity.
    + fold parts. apply Nat.leb_le in Hlen. rewrite Hlen.
      fold mountpoint. rewrite Hsp, Hint.
      unfold health_monitor.INODE_USAGE_THRESHOLD.
      assert (Hge : (n >=? 90) = true) by (apply Z.geb_le; lia).
      rewrite Hge. left. reflexivity.
  - reflexivity.
  - intros H95. cbn [severity].
    assert (Hge : (n >=? 95) = true) by (apply Z.geb_le; lia). now rewrite Hge.
  - intros H95. cbn [severity].
    destruct (n >=? 95) eqn:Hge; [| reflexivity].
    apply Z.geb_le in Hge. lia.
Qed.

(** The theorem at the line of [/srv], which follows a line without a
    percentage. *)
Lemma inode_lines_are_independent_witness :
  exists i,
    In i (health_monitor._check_inode_usage
            (Samples.with_output (Argv ["df"; "-i"]) XSamples.df_sample Samples.idle))
    /\ id i = "inode_usage__srv"
    /\ severity i = medium.
Proof.
  destruct (inode_lines_are_independent
              (Samples.with_output (Argv ["df"; "-i"]) XSamples.df_sample Samples.idle)
              {| returncode := 0; stdout := XSamples.df_sample |}
              "/dev/sdc1      1000000  930000   70000   93% /srv" 93)
    as (i & Hin & Hid & _ & Hmedium).
  - reflexivity.
  - reflexivity.
  - vm_compute. right. right. right. left. reflexivity.
  - vm_compute. repeat constructor.
  - reflexivity.
  - reflexivity.
  - lia.
  - exists i. split; [exact Hin | split; [exact Hid | apply Hmedium; lia]].
Defined.

(** X7: [_check_system_updates] reports nothing when the output of
    [apt list --upgradable] contains the text ["Listing..."], whatever
    follows it; without that text and with exit status 0 it reports one
    issue of severity low whose count is the number of lines of the
    stripped output, which is at least 1 even for an empty output. *)
Theorem system_updates_banner (st : SystemState) (result : CompletedProcess) :
  subprocess_run st (Argv ["apt"; "list"; "--upgradable"]) = Ok result ->
  returncode result = 0 ->
  (contains "Listing..." (stdout result) = true ->
   health_monitor._check_system_updates st = [])
  /\ (contains "Listing..." (stdout result) = false ->
      exists i count,
        health_monitor._check_system_updates st = [i]
        /\ id i = "system_updates_available"
        /\ severity i = low
        /\ count = List.length (split_on LF (strip (stdout result)))
        /\ (1 <= count)%nat
        /\ In ("count", VInt (Z.of_nat count)) (data i)).
Proof.
  intros Hrun Hrc. split; intros Hbanner.
  - unfold health_monitor._check_system_updates, try_except.
    rewrite Hrun. unfold call at 1. rewrite fst_bind_ok. cbn [app].
    now rewrite Hrc, Hbanner.
  - pose proof (split_on_nonempty LF (strip (stdout result))) as Hlen.
    unfold health_monitor._check_system_updates, try_except.
    rewrite Hrun. unfold call at 1. rewrite fst_bind_ok. cbn [app].
    rewrite Hrc, Hbanner. cbn [Z.eqb andb negb]. cbv zeta.
    destruct (split_on LF (strip (stdout result))) as [| u us];
      [cbn [List.length] in Hlen; lia |].
    eexists. exists (List.length (u :: us)).
    split; [reflexivity |]. repeat split; [exact Hlen | left; reflexivity].
Qed.

(** The theorem at an [apt] that prints its banner and one package, and at
    one that prints nothing. *)
Lemma system_updates_banner_witness :
  health_monitor._check_system_updates
    (Samples.with_output (Argv ["apt"; "list"; "--upgradable"])
       ("Listing..." ++ String LF "openssl/stable 3.0.2 amd64 [upgradable from: 3.0.1]")
       Samples.idle) = []
  /\ map id (health_monitor._check_system_updates
               (Samples.with_output (Argv ["apt"; "list"; "--upgradable"]) "" Samples.idle))
     = ["system_updates_available"].
Proof.
  split.
  - apply (system_updates_banner
             (Samples.with_output (Argv ["apt"; "list"; "--upgradable"])
                ("Listing..." ++ String LF "openssl/stable 3.0.2 amd64 [upgradable from: 3.0.1]")
                Samples.idle)
             {| returncode := 0;
                stdout := "Listing..." ++ String LF
                          "openssl/stable 3.0.2 amd64 [upgradable from: 3.0.1]" |});
      reflexivity.
  - destruct (system_updates_banner
                (Samples.with_output (Argv ["apt"; "list"; "--upgradable"]) "" Samples.idle)
                {| returncode := 0; stdout := "" |}) as [_ H]; [reflexivity | reflexivity |].
    destruct (H eq_refl) as (i & count & Heq & Hid & _). rewrite Heq. cbn [map].
    now rewrite Hid.
Defined.

(* ================================================================== *)
(** * Security checks: log counts, processes, files, SSH, firewall *)
(* ================================================================== *)

(** X8: with the two [grep ... | wc -l] pipelines succeeding and printing
    the counts [failed] and [sudo], failed logins are reported only above
    10 (medium up to 50, high above) and failed sudo attempts only above 5
    (medium up to 20, high above); a count equal to a threshold is on its
    lower side. *)
Theorem auth_log_thresholds (st : SystemState) (r_failed r_sudo : CompletedProcess)
        (failed sudo : Z) :
  subprocess_run st (Shell "grep 'Failed password' /var/log/auth.log | wc -l")
  = Ok r_failed ->
  returncode r_failed = 0 ->
  int (strip (stdout r_failed)) = Ok failed ->
  subprocess_run st
    (Shell "grep 'authentication failure' /var/log/auth.log | grep sudo | wc -l")
  = Ok r_sudo ->
  returncode r_sudo = 0 ->
  int (strip (stdout r_sudo)) = Ok sudo ->
  let logins := map (fun i => (id i, severity i)) (security_monitor._check_failed_logins st) in
  let sudos := map (fun i => (id i, severity i)) (security_monitor._check_sudo_usage st) in
  (failed <= 10 -> logins = [])
  /\ (10 < failed <= 50 -> logins = [("failed_login_attempts", medium)])
  /\ (50 < failed -> logins = [("failed_login_attempts", high)])
  /\ (sudo <= 5 -> sudos = [])
  /\ (5 < sudo <= 20 -> sudos = [("unauthorized_sudo_usage", medium)])
  /\ (20 < sudo -> sudos = [("unauthorized_sudo_usage", high)]).
Proof.
  intros Hf Hfrc Hfn Hs Hsrc Hsn logins sudos.
  assert (Hlogins : logins =
            if failed >? 10
            then [("failed_login_attempts", if failed >? 50 then high else medium)]
            else []).
  { subst logins. unfold security_monitor._check_failed_logins, try_except. cbv zeta.
    rewrite Hf. unfold call at 1. rewrite fst_bind_ok. cbn [app].
    rewrite Hfrc. cbn [Z.eqb]. rewrite Hfn. unfold call at 1. rewrite fst_bind_ok.
    cbn [app]. now destruct (failed >? 10). }
  assert (Hsudos : sudos =
            if sudo >? 5
            then [("unauthorized_sudo_usage", if sudo >? 20 then high else medium)]
            else []).
  { subst sudos. unfold security_monitor._check_sudo_usage, try_except. cbv zeta.
    rewrite Hs. unfold call at 1. rewrite fst_bind_ok. cbn [app].
    rewrite Hsrc. cbn [Z.eqb]. rewrite Hsn. unfold call at 1. rewrite fst_bind_ok.
    cbn [app]. now destruct (sudo >? 5). }
  rewrite Hlogins, Hsudos. clear.
  repeat split; intros H;
    repeat match goal with
      | |- context [?a >? ?b] => destruct (Z.gtb_spec a b); try lia
      end; reflexivity.
Qed.

(** The theorem at 50 failed logins and 21 failed sudo attempts. *)
Lemma auth_log_thresholds_witness :
  map (fun i => (id i, severity i))
      (security_monitor._check_failed_logins
         (Samples.with_output
            (Shell "grep 'Failed password' /var/log/auth.log | wc -l") ("50" ++ String LF "")
            (Samples.with_output
               (Shell "grep 'authentication failure' /var/log/auth.log | grep sudo | wc -l")
               ("21" ++ String LF "") Samples.idle)))
  = [("failed_login_attempts", medium)]
  /\ map (fun i => (id i, severity i))
         (security_monitor._check_sudo_usage
            (Samples.with_output
               (Shell "grep 'Failed password' /var/log/auth.log | wc -l") ("50" ++ String LF "")
               (Samples.with_output
                  (Shell "grep 'authentication failure' /var/log/auth.log | grep sudo | wc -l")
                  ("21" ++ String LF "") Samples.idle)))
     = [("unauthorized_sudo_usage", high)].
Proof.
  destruct (auth_log_thresholds
              (Samples.with_output
                 (Shell "grep 'Failed password' /var/log/auth.log | wc -l")
                 ("50" ++ String LF "")
                 (Samples.with_output
                    (Shell "grep 'authentication failure' /var/log/auth.log | grep sudo | wc -l")
                    ("21" ++ String LF "") Samples.idle))
              {| returncode := 0; stdout := "50" ++ String LF "" |}
              {| returncode := 0; stdout := "21" ++ String LF "" |}
              50 21)
    as (_ & Hmedium & _ & _ & _ & Hhigh); try reflexivity.
  split; [apply Hmedium | apply Hhigh]; lia.
Defined.

Lemma snd_for_each_quiet {A} (body : A -> SubCheck unit) (xs : list A) :
  (forall y, In y xs -> snd (body y) = Ok tt) -> snd (for_each xs body) = Ok tt.
Proof. intros H. now rewrite (for_each_quiet body xs H). Qed.

(** X9: with [ps -eo comm] succeeding, a name of the watch list and a line
    of the output give an issue exactly when the lower-cased name occurs
    anywhere inside the lower-cased line; the issue has severity high, the
    id ["suspicious_process_<name>"], and carries the line. *)
Theorem suspicious_process_reported (st : SystemState) (result : CompletedProcess)
        (suspicious process : string) :
  subprocess_run st (Shell "ps -eo comm") = Ok result ->
  returncode result = 0 ->
  In suspicious security_monitor.suspicious_names ->
  In process (split_on LF (strip (stdout result))) ->
  (exists i,
      In i (security_monitor._check_suspicious_processes st)
      /\ id i = ("suspicious_process_" ++ suspicious)%string
      /\ data i = [("process_name", VStr process)])
  <-> contains (lower suspicious) (lower process) = true.
Proof.
  intros Hrun Hrc Hname Hproc.
  unfold security_monitor._check_suspicious_processes, try_except. cbv zeta.
  rewrite Hrun. unfold call at 1. rewrite fst_bind_ok. cbn [app].
  rewrite Hrc. cbn [Z.eqb]. split.
  - intros (i & Hi & Hid & Hdata).
    apply in_for_each_inv in Hi as (name' & _ & Hi).
    apply in_for_each_inv in Hi as (process' & _ & Hi).
    destruct (contains (lower name') (lower process')) eqn:E; [| destruct Hi].
    destruct Hi as [<- | []]. cbn [id data] in Hid, Hdata.
    apply string_app_inv_head in Hid. injection Hdata as Hp. now subst.
  - intros Hmatch.
    apply in_split in Hname as (names1 & names2 & Hnames).
    apply in_split in Hproc as (procs1 & procs2 & Hprocs).
    eexists. split; [| split].
    + rewrite Hnames. apply for_each_reaches.
      * intros name' _. apply snd_for_each_quiet. intros process' _.
        now destruct (contains (lower name') (lower process')).
      * rewrite Hprocs. apply for_each_reaches.
        -- intros process' _. now destruct (contains (lower suspicious) (lower process')).
        -- rewrite Hmatch. left. reflexivity.
    + reflexivity.
    + reflexivity.
Qed.

(** The theorem at the process [sync], whose name contains ["nc"]. *)
Lemma suspicious_process_reported_witness :
  exists i,
    In i (security_monitor._check_suspicious_processes
            (Samples.with_output (Shell "ps -eo comm") XSamples.ps_sample Samples.idle))
    /\ id i = "suspicious_process_nc"
    /\ data i = [("process_name", VStr "sync")].
Proof.
  apply (suspicious_process_reported
           (Samples.with_output (Shell "ps -eo comm") XSamples.ps_sample Samples.idle)
           {| returncode := 0; stdout := XSamples.ps_sample |} "nc" "sync").
  - reflexivity.
  - reflexivity.
  - left. reflexivity.
  - vm_compute. right. right. left. reflexivity.
  - reflexivity.
Defined.




(** X11: [_check_ssh_config] returns nothing when
    [/etc/ssh/sshd_config] is missing or cannot be read; when it is read,
    it reports root login (high) if the text ["PermitRootLogin yes"]
    occurs anywhere in the file, then password authentication (medium) if
    ["PasswordAuthentication yes"] occurs anywhere, in that order and
    nothing else. *)
Theorem ssh_config_findings (st : SystemState) :
  (os_path_exists st "/etc/ssh/sshd_config" = false ->
   security_monitor._check_ssh_config st = [])
  /\ (forall e, file_read st "/etc/ssh/sshd_config" = Raised e ->
                security_monitor._check_ssh_config st = [])
  /\ (forall config,
        os_path_exists st "/etc/ssh/sshd_config" = true ->
        file_read st "/etc/ssh/sshd_config" = Ok config ->
        map (fun i => (id i, severity i)) (security_monitor._check_ssh_config st)
        = (if contains "PermitRootLogin yes" config
           then [("ssh_root_login_enabled", high)] else [])
          ++ (if contains "PasswordAuthentication yes" config
              then [("ssh_password_auth_enabled", medium)] else [])).
Proof.
  unfold security_monitor._check_ssh_config, try_except,
    security_monitor.ssh_config_path.
  split; [| split].
  - now intros ->.
  - intros e ->. now destruct (os_path_exists st "/etc/ssh/sshd_config").
  - intros config -> ->. unfold call, bind, append, pass, ret.
    now destruct (contains "PermitRootLogin yes" config),
                 (contains "PasswordAuthentication yes" config).
Qed.

(** The theorem at a file in which root login is mentioned in a comment
    only: the comment is reported. *)
Lemma ssh_config_findings_witness :
  map (fun i => (id i, severity i))
      (security_monitor._check_ssh_config
         (Samples.with_file "/etc/ssh/sshd_config" XSamples.sshd_commented_sample 1000
            Samples.idle))
  = [("ssh_root_login_enabled", high)].
Proof.
  destruct (ssh_config_findings
              (Samples.with_file "/etc/ssh/sshd_config" XSamples.sshd_commented_sample 1000
                 Samples.idle)) as (_ & _ & H).
  exact (H XSamples.sshd_commented_sample eq_refl eq_refl).
Defined.

(** X12: the firewall is reported as disabled (one issue, severity high)
    exactly when both [ufw status | grep -q 'Status: active'] and
    [iptables -L | grep -q 'Chain INPUT'] end with a non-zero status; when
    the first succeeds the second does not matter, and when either command
    that is run raises, nothing is reported. *)
Theorem firewall_reported_iff (st : SystemState) :
  let ufw := subprocess_run st (Shell "ufw status | grep -q 'Status: active'") in
  let iptables := subprocess_run st (Shell "iptables -L | grep -q 'Chain INPUT'") in
  let reported :=
    map (fun i => (id i, severity i)) (security_monitor._check_firewall_status st) in
  (forall e, ufw = Raised e -> reported = [])
  /\ (forall r, ufw = Ok r -> returncode r = 0 -> reported = [])
  /\ (forall r e, ufw = Ok r -> returncode r <> 0 -> iptables = Raised e -> reported = [])
  /\ (forall r r', ufw = Ok r -> returncode r <> 0 -> iptables = Ok r' ->
                   returncode r' = 0 -> reported = [])
  /\ (forall r r', ufw = Ok r -> returncode r <> 0 -> iptables = Ok r' ->
                   returncode r' <> 0 -> reported = [("firewall_disabled", high)]).
Proof.
  intros ufw iptables reported. subst ufw iptables reported.
  unfold security_monitor._check_firewall_status, try_except. cbv zeta.
  repeat split.
  - now intros e ->.
  - intros r -> Hrc. unfold call, bind. now rewrite Hrc.
  - intros r e -> Hrc ->. apply Z.eqb_neq in Hrc. unfold call, bind. now rewrite Hrc.
  - intros r r' -> Hrc -> Hrc'. apply Z.eqb_neq in Hrc. unfold call, bind.
    now rewrite Hrc, Hrc'.
  - intros r r' -> Hrc -> Hrc'. apply Z.eqb_neq in Hrc, Hrc'. unfold call, bind.
    now rewrite Hrc, Hrc'.
Qed.

(** The theorem at a machine where [ufw] is inactive and [iptables] prints
    its chains: the firewall counts as enabled. *)
Lemma firewall_reported_iff_witness :
  map (fun i => (id i, severity i))
      (security_monitor._check_firewall_status
         (Samples.with_output (Shell "iptables -L | grep -q 'Chain INPUT'") "" Samples.idle))
  = [].
Proof.
  destruct (firewall_reported_iff
              (Samples.with_output (Shell "iptables -L | grep -q 'Chain INPUT'") ""
                 Samples.idle)) as (_ & _ & _ & H & _).
  apply (H {| returncode := 1; stdout := "" |} {| returncode := 0; stdout := "" |}).
  - reflexivity.
  - discriminate.
  - reflexivity.
  - reflexivity.
Defined.

(* ================================================================== *)
(** * Which issues reach which handler *)
(* ================================================================== *)

(** Two words at the head of one text: one is the head of the other. *)
Lemma startswith_two (s p q : string) :
  startswith s p = true -> startswith s q = true ->
  String.prefix p q = true \/ String.prefix q p = true.
Proof.
  unfold startswith. revert p q.
  induction s as [| c s IH]; intros p q Hp Hq.
  - destruct p; [left; apply prefix_nil | discriminate Hp].
  - destruct p as [| a p]; [left; apply prefix_nil |].
    destruct q as [| b q]; [right; apply prefix_nil |].
    simpl in Hp, Hq |- *.
    destruct (ascii_dec a c) as [-> |]; [| discriminate Hp].
    destruct (ascii_dec b c) as [-> |]; [| discriminate Hq].
    destruct (ascii_dec c c) as [_ | Hc]; [| now elim Hc].
    now apply IH.
Qed.

Ltac not_startswith Hp :=
  match goal with
  | |- startswith ?s ?q = false =>
      destruct (startswith s q) eqn:?E; [| reflexivity];
      exfalso;
      match type of Hp with
      | startswith _ ?p = true =>
          destruct (startswith_two s p q Hp E) as [?H | ?H]; discriminate
      end
  end.

Ltac unmatched_by_prefix Hp :=
  unfold unmatched;
  repeat match goal with
    | |- _ /\ _ => split
    | |- startswith _ _ = false => not_startswith Hp
    | |- _ <> _ => let E := fresh in intros E; rewrite E in Hp; discriminate Hp
    end.

Lemma unmatched_inode (s : string) :
  startswith s "inode_usage_" = true -> unmatched s.
Proof. intros Hp. unmatched_by_prefix Hp. Qed.

Lemma unmatched_modified (s : string) :
  startswith s "modified_system_file_" = true -> unmatched s.
Proof. intros Hp. unmatched_by_prefix Hp. Qed.

Section Routing.

Variable W : Type.
Variable run : command -> W -> exc CompletedProcess * W.
Variable exists_ : string -> W -> bool.
Variable float : string -> exc Q.
Variable inet_aton : string -> exc unit.

Abbreviation repair_issue := (auto_repair.repair_issue W run exists_ float inet_aton).

Lemma try_repair_handler (h : W -> auto_repair.RepairResult * W)
      (on_error : exn -> auto_repair.RepairResult) (w : W) :
  auto_repair.try_repair W (auto_repair.handler W h) on_error w = h w.
Proof.
  unfold auto_repair.try_repair, auto_repair.handler. now destruct (h w).
Qed.

Lemma repair_issue_disk (s : string) (w : W) :
  startswith s "disk_usage_" = true ->
  repair_issue s w = auto_repair._repair_disk_usage W run exists_ s w.
Proof.
  intros Hp. unfold auto_repair.repair_issue. rewrite Hp. apply try_repair_handler.
Qed.

Lemma repair_issue_port (s : string) (w : W) :
  startswith s "unexpected_open_port_" = true ->
  repair_issue s w = auto_repair._repair_open_port W run s w.
Proof.
  intros Hp. unfold auto_repair.repair_issue.
  assert (H1 : startswith s "disk_usage_" = false) by not_startswith Hp.
  assert (H2 : String.eqb s "cpu_usage_high" = false)
    by (apply String.eqb_neq; intros E; rewrite E in Hp; discriminate Hp).
  assert (H3 : String.eqb s "memory_usage_high" = false)
    by (apply String.eqb_neq; intros E; rewrite E in Hp; discriminate Hp).
  assert (H4 : startswith s "ssh_brute_force_" = false) by not_startswith Hp.
  rewrite H1, H2, H3, H4, Hp. apply try_repair_handler.
Qed.

Lemma repair_issue_suspicious (s : string) (w : W) :
  startswith s "suspicious_process_" = true ->
  repair_issue s w = auto_repair._repair_suspicious_process W run s w.
Proof.
  intros Hp. unfold auto_repair.repair_issue.
  assert (H1 : startswith s "disk_usage_" = false) by not_startswith Hp.
  assert (H2 : String.eqb s "cpu_usage_high" = false)
    by (apply String.eqb_neq; intros E; rewrite E in Hp; discriminate Hp).
  assert (H3 : String.eqb s "memory_usage_high" = false)
    by (apply String.eqb_neq; intros E; rewrite E in Hp; discriminate Hp).
  assert (H4 : startswith s "ssh_brute_force_" = false) by not_startswith Hp.
  assert (H5 : startswith s "unexpected_open_port_" = false) by not_startswith Hp.
  assert (H6 : String.eqb s "security_updates_available" = false)
    by (apply String.eqb_neq; intros E; rewrite E in Hp; discriminate Hp).
  rewrite H1, H2, H3, H4, H5, H6, Hp. apply try_repair_handler.
Qed.

Lemma repair_issue_ssh (s : string) (w : W) :
  startswith s "ssh_brute_force_" = true ->
  repair_issue s w = auto_repair._repair_ssh_brute_force W run exists_ inet_aton s w.
Proof.
  intros Hp. unfold auto_repair.repair_issue.
  assert (H1 : startswith s "disk_usage_" = false) by not_startswith Hp.
  assert (H2 : String.eqb s "cpu_usage_high" = false)
    by (apply String.eqb_neq; intros E; rewrite E in Hp; discriminate Hp).
  assert (H3 : String.eqb s "memory_usage_high" = false)
    by (apply String.eqb_neq; intros E; rewrite E in Hp; discriminate Hp).
  rewrite H1, H2, H3, Hp. apply try_repair_handler.
Qed.

(** X13: of the issues the two check engines return, only those of the
    disk-usage, open-port and suspicious-process checks have a handler,
    and [repair_issue] hands each of them to the handler of its kind; for
    every other issue it answers "No repair method available for this
    issue" and leaves the machine alone.  The branches for
    ["cpu_usage_high"], ["memory_usage_high"], ["ssh_brute_force_..."]
    and ["security_updates_available"] are thus never taken for a
    detected issue. *)
Theorem detected_issues_routing (st : SystemState) (now : Q) (g g' : Globals)
        (i : Issue) (w : W) :
  In i (fst (health_monitor.check_health st g)
          ++ fst (security_monitor.check_security st now g')) ->
  (In i (health_monitor._check_disk_usage st)
   /\ repair_issue (id i) w = auto_repair._repair_disk_usage W run exists_ (id i) w)
  \/ (In i (security_monitor._check_open_ports st)
      /\ repair_issue (id i) w = auto_repair._repair_open_port W run (id i) w)
  \/ (In i (security_monitor._check_suspicious_processes st)
      /\ repair_issue (id i) w = auto_repair._repair_suspicious_process W run (id i) w)
  \/ repair_issue (id i) w = (no_repair_method (id i), w).
Proof.
  rewrite check_health_issues, check_security_issues. intros Hin.
  pose proof (disk_usage_ids st) as Hdisk.
  pose proof (memory_usage_ids st) as Hmem.
  pose proof (cpu_load_ids st) as Hcpu.
  pose proof (zombie_ids st) as Hzombie.
  pose proof (inode_usage_ids st) as Hinode.
  pose proof (swap_usage_ids st) as Hswap.
  pose proof (system_updates_ids st) as Hupd.
  pose proof (failed_logins_ids st) as Hfail.
  pose proof (sudo_usage_ids st) as Hsudo.
  pose proof (open_ports_ids st) as Hport.
  pose proof (suspicious_processes_ids st) as Hsus.
  pose proof (modified_system_files_ids st now) as Hmod.
  pose proof (ssh_config_ids st) as Hssh.
  pose proof (firewall_status_ids st) as Hfw.
  rewrite Forall_forall in Hdisk, Hmem, Hcpu, Hzombie, Hinode, Hswap, Hupd,
    Hfail, Hsudo, Hport, Hsus, Hmod, Hssh, Hfw.
  repeat (apply in_app_or in Hin as [Hin | Hin]).
  - left. split; [exact Hin |]. apply repair_issue_disk. now apply Hdisk.
  - do 3 right. apply repair_issue_no_branch. rewrite (Hmem i Hin).
    repeat split; discriminate.
  - do 3 right. apply repair_issue_no_branch.
    destruct (Hcpu i Hin) as [-> | ->]; repeat split; discriminate.
  - do 3 right. apply repair_issue_no_branch. rewrite (Hzombie i Hin).
    repeat split; discriminate.
  - do 3 right. apply repair_issue_no_branch. apply unmatched_inode. now apply Hinode.
  - do 3 right. apply repair_issue_no_branch. rewrite (Hswap i Hin).
    repeat split; discriminate.
  - do 3 right. apply repair_issue_no_branch. rewrite (Hupd i Hin).
    repeat split; discriminate.
  - do 3 right. apply repair_issue_no_branch. rewrite (Hfail i Hin).
    repeat split; discriminate.
  - do 3 right. apply repair_issue_no_branch. rewrite (Hsudo i Hin).
    repeat split; discriminate.
  - right. left. split; [exact Hin |]. apply repair_issue_port. now apply Hport.
  - right. right. left. split; [exact Hin |]. apply repair_issue_suspicious.
    now apply Hsus.
  - do 3 right. apply repair_issue_no_branch. apply unmatched_modified. now apply Hmod.
  - do 3 right. apply repair_issue_no_branch.
    destruct (Hssh i Hin) as [-> | ->]; repeat split; discriminate.
  - do 3 right. apply repair_issue_no_branch. rewrite (Hfw i Hin).
    repeat split; discriminate.
Qed.

End Routing.

(* ================================================================== *)
(** * What the handlers do *)
(* ================================================================== *)

Lemma digits_lack_word (a : ascii) (q s : string) :
  isdigit a = false -> all_digits s = true -> contains (String a q) s = false.
Proof.
  intros Ha. induction s as [| c s IH]; intros Hs; [reflexivity |].
  cbn [all_digits] in Hs. apply andb_true_iff in Hs as [Hc Hs].
  cbn [contains]. rewrite (IH Hs), orb_false_r. simpl.
  destruct (ascii_dec a c) as [-> |]; [congruence | reflexivity].
Qed.

Lemma port_of_id (p : string) :
  port_text p = true ->
  replace ("unexpected_open_port_" ++ p) "unexpected_open_port_" "" = p.
Proof.
  intros Hp. rewrite replace_leading by discriminate.
  change (("" ++ ?x)%string) with x. unfold replace.
  apply replace_from_absent; [discriminate |].
  apply digits_lack_word; [reflexivity |]. now destruct p.
Qed.

Lemma name_of_id (name : string) :
  In name security_monitor.suspicious_names ->
  replace ("suspicious_process_" ++ name) "suspicious_process_" "" = name.
Proof.
  unfold security_monitor.suspicious_names. cbn [In]. intros H.
  repeat (destruct H as [<- | H]; [reflexivity |]). destruct H.
Qed.

Section Handlers.

Variable W : Type.
Variable run : command -> W -> exc CompletedProcess * W.
Variable exists_ : string -> W -> bool.
Variable float : string -> exc Q.
Variable inet_aton : string -> exc unit.

Abbreviation repair_issue := (auto_repair.repair_issue W run exists_ float inet_aton).

Lemma rfor_kill (pids : list string) (w : W) :
  auto_repair.rfor W pids (auto_repair.kill W run) w = (Ok tt, after_kills run pids w).
Proof.
  revert w. induction pids as [| pid pids IH]; intros w; [reflexivity |].
  cbn [auto_repair.rfor]. unfold auto_repair.rbind, auto_repair.kill at 1.
  unfold after_kills. cbn [fold_left].
  destruct (run (Argv ["kill"; pid]) w) as [r w']. cbn [snd]. apply IH.
Qed.

(** X14: for the id of a port issue, [repair_issue] looks for the
    listener of exactly the flagged port; when [lsof] finds none (non-zero
    status or no output) the result is a failure naming that port, and no
    process is signalled. *)
Theorem open_port_repair_without_listener (p : string) (w w1 : W) (r : CompletedProcess) :
  port_text p = true ->
  run (Shell ("lsof -i :" ++ p ++ " | grep LISTEN")) w = (Ok r, w1) ->
  returncode r <> 0 \/ stdout r = "" ->
  repair_issue ("unexpected_open_port_" ++ p) w =
    ({| auto_repair.success := false;
        auto_repair.r_id := "unexpected_open_port_" ++ p;
        auto_repair.message :=
          "Could not close port " ++ p ++ ": no process found or failed to terminate" |},
     w1).
Proof.
  intros Hp Hrun Hnone.
  rewrite repair_issue_port by apply startswith_app.
  unfold auto_repair._repair_open_port, auto_repair.try_repair. cbv zeta.
  rewrite (port_of_id p Hp).
  unfold auto_repair.rbind at 1, auto_repair.run_nocheck at 1. rewrite Hrun.
  destruct Hnone as [Hrc | Hout].
  - apply Z.eqb_neq in Hrc. rewrite Hrc. reflexivity.
  - rewrite Hout, andb_false_r. reflexivity.
Qed.

(** X15: when [lsof] lists listeners, the port handler signals the process
    of the first line only and reports success, whatever the exit status
    of [kill]. *)
Theorem open_port_repair_kills_first_listener (p : string) (w w1 w2 : W)
        (r k : CompletedProcess) (line process_name pid : string)
        (rest fields : list string) :
  port_text p = true ->
  run (Shell ("lsof -i :" ++ p ++ " | grep LISTEN")) w = (Ok r, w1) ->
  returncode r = 0 ->
  stdout r <> "" ->
  split_on LF (strip (stdout r)) = line :: rest ->
  split line = process_name :: pid :: fields ->
  run (Argv ["kill"; pid]) w1 = (Ok k, w2) ->
  repair_issue ("unexpected_open_port_" ++ p) w =
    ({| auto_repair.success := true;
        auto_repair.r_id := "unexpected_open_port_" ++ p;
        auto_repair.message :=
          "Closed port " ++ p ++ " by terminating process " ++ process_name
            ++ " (PID " ++ pid ++ ")" |},
     w2).
Proof.
  intros Hp Hrun Hrc Hout Hlines Hparts Hkill.
  rewrite repair_issue_port by apply startswith_app.
  unfold auto_repair._repair_open_port, auto_repair.try_repair. cbv zeta.
  rewrite (port_of_id p Hp).
  unfold auto_repair.rbind at 1, auto_repair.run_nocheck at 1. rewrite Hrun.
  apply String.eqb_neq in Hout. rewrite Hrc, Hout. cbn [Z.eqb negb andb].
  rewrite Hlines, Hparts. cbn [List.length Nat.ltb Nat.leb nth].
  unfold auto_repair.rbind, auto_repair.run_nocheck. rewrite Hkill. reflexivity.
Qed.

(** X16: for the id of a suspicious-process issue, [repair_issue] asks
    [pgrep] for the watch-list name of the issue and, when it lists pids,
    runs [kill] for each of them in order and reports success whatever the
    outcome of the [kill]s; when [pgrep] fails or prints nothing, the
    result is a failure and nothing is signalled. *)
Theorem suspicious_process_repair (name : string) (w w1 : W) (r : CompletedProcess) :
  In name security_monitor.suspicious_names ->
  run (Shell ("pgrep " ++ name)) w = (Ok r, w1) ->
  (returncode r = 0 -> stdout r <> "" ->
   repair_issue ("suspicious_process_" ++ name) w =
     ({| auto_repair.success := true;
         auto_repair.r_id := "suspicious_process_" ++ name;
         auto_repair.message := "Terminated suspicious process " ++ name |},
      after_kills run (split_on LF (strip (stdout r))) w1))
  /\ (returncode r <> 0 \/ stdout r = "" ->
      repair_issue ("suspicious_process_" ++ name) w =
        ({| auto_repair.success := false;
            auto_repair.r_id := "suspicious_process_" ++ name;
            auto_repair.message := "No suspicious process " ++ name ++ " found" |},
         w1)).
Proof.
  intros Hname Hrun.
  assert (Hstart : forall k : CompletedProcess -> auto_repair.Repair W auto_repair.RepairResult,
             auto_repair.rbind W (auto_repair.run_nocheck W run (Shell ("pgrep " ++ name))) k w
             = k r w1).
  { intros k. unfold auto_repair.rbind, auto_repair.run_nocheck. now rewrite Hrun. }
  split.
  - intros Hrc Hout. apply String.eqb_neq in Hout.
    rewrite repair_issue_suspicious by apply startswith_app.
    unfold auto_repair._repair_suspicious_process, auto_repair.try_repair. cbv zeta.
    rewrite (name_of_id name Hname), Hstart, Hrc, Hout.
    cbn [Z.eqb negb andb]. unfold auto_repair.rbind. now rewrite rfor_kill.
  - intros Hnone.
    rewrite repair_issue_suspicious by apply startswith_app.
    unfold auto_repair._repair_suspicious_process, auto_repair.try_repair. cbv zeta.
    rewrite (name_of_id name Hname), Hstart.
    destruct Hnone as [Hrc | Hout].
    + apply Z.eqb_neq in Hrc. now rewrite Hrc.
    + now rewrite Hout, andb_false_r.
Qed.

End Handlers.

Section MoreHandlers.

Variable W : Type.
Variable run : command -> W -> exc CompletedProcess * W.
Variable exists_ : string -> W -> bool.
Variable observe : W -> SystemState.
Variable clock : W -> Q.
Variable float : string -> exc Q.
Variable inet_aton : string -> exc unit.

Abbreviation repair_issue := (auto_repair.repair_issue W run exists_ float inet_aton).

(** The pids [collect_pids] gathers when every number reads. *)
Lemma collect_pids_spec (col : nat) (limit : Q) (value : string -> Q) (lines : list string) :
  (forall line, In line lines -> (col + 1 <= List.length (split line))%nat ->
                float (nth col (split line) "") = Ok (value line)) ->
  auto_repair.collect_pids float col limit lines =
    Ok (map (fun line => nth 1 (split line) "")
            (filter (fun line => (col + 1 <=? List.length (split line))%nat
                                 && Qgtb (value line) limit)
                    lines)).
Proof.
  induction lines as [| line lines IH]; intros Hread; [reflexivity |].
  cbn [auto_repair.collect_pids filter].
  rewrite IH by (intros l Hl; apply Hread; now right).
  destruct (col + 1 <=? List.length (split line))%nat eqn:Hlen; [| reflexivity].
  rewrite (Hread line) by (now left || now apply Nat.leb_le).
  cbn [andb]. now destruct (Qgtb (value line) limit).
Qed.

Lemma repair_issue_cpu (w : W) :
  repair_issue "cpu_usage_high" w = auto_repair._repair_cpu_usage W run float w.
Proof. unfold auto_repair.repair_issue. cbn. apply try_repair_handler. Qed.

Lemma repair_issue_memory (w : W) :
  repair_issue "memory_usage_high" w = auto_repair._repair_memory_usage W run float w.
Proof. unfold auto_repair.repair_issue. cbn. apply try_repair_handler. Qed.


(** X17: asked to repair ["cpu_usage_high"], with [ps] succeeding and the
    third column of every line read as a number, the handler runs [kill]
    for exactly the processes of the lines after the header whose number
    is above 90, in the order listed, and reports their count; when there
    is none it reports a failure and signals nothing. *)
Theorem cpu_repair_kills_above_90 (w w1 : W) (r : CompletedProcess)
        (cpu : string -> Q) :
  run (Shell "ps aux --sort=-%cpu | head -11") w = (Ok r, w1) ->
  returncode r = 0 ->
  (forall line, In line (slice_from 1 (auto_repair.splitlines (stdout r))) ->
                (3 <= List.length (split line))%nat ->
                float (nth 2 (split line) "") = Ok (cpu line)) ->
  let pids :=
    map (fun line => nth 1 (split line) "")
        (filter (fun line => (3 <=? List.length (split line))%nat && Qgtb (cpu line) 90)
                (slice_from 1 (auto_repair.splitlines (stdout r)))) in
  repair_issue "cpu_usage_high" w =
    match pids with
    | [] =>
        ({| auto_repair.success := false;
            auto_repair.r_id := "cpu_usage_high";
            auto_repair.message := "No runaway processes found to terminate" |}, w1)
    | _ :: _ =>
        ({| auto_repair.success := true;
            auto_repair.r_id := "cpu_usage_high";
            auto_repair.message :=
              "Terminated " ++ str_of_nat (List.length pids) ++ " high CPU processes" |},
         after_kills run pids w1)
    end.
Proof.
  intros Hrun Hrc Hread pids.
  rewrite repair_issue_cpu.
  unfold auto_repair._repair_cpu_usage, auto_repair.try_repair. cbv zeta.
  unfold auto_repair.rbind at 1, auto_repair.run_check at 1, auto_repair.rbind at 1.
  rewrite Hrun, Hrc. cbn [Z.eqb]. unfold auto_repair.rret at 1.
  unfold auto_repair.rbind at 1, auto_repair.lift_exc.
  rewrite (collect_pids_spec 2 90 cpu) by exact Hread.
  cbn [Nat.add]. fold pids. destruct pids as [| pid pids']; [reflexivity |].
  unfold auto_repair.rbind. now rewrite rfor_kill.
Qed.

(** X18: asked to repair ["memory_usage_high"], with [ps] succeeding, the
    handler runs the cache-dropping command and then [kill] for exactly
    the processes whose fourth column is above 80; it reports success
    also when there is no such process and whatever the exit status of
    the cache-dropping command. *)
Theorem memory_repair_succeeds_after_ps (w w1 w2 : W) (r dropped : CompletedProcess)
        (mem : string -> Q) :
  run (Shell "ps aux --sort=-%mem | head -11") w = (Ok r, w1) ->
  returncode r = 0 ->
  run (Shell "sync && echo 3 > /proc/sys/vm/drop_caches") w1 = (Ok dropped, w2) ->
  (forall line, In line (slice_from 1 (auto_repair.splitlines (stdout r))) ->
                (4 <= List.length (split line))%nat ->
                float (nth 3 (split line) "") = Ok (mem line)) ->
  let pids :=
    map (fun line => nth 1 (split line) "")
        (filter (fun line => (4 <=? List.length (split line))%nat && Qgtb (mem line) 80)
                (slice_from 1 (auto_repair.splitlines (stdout r)))) in
  repair_issue "memory_usage_high" w =
    match pids with
    | [] =>
        ({| auto_repair.success := true;
            auto_repair.r_id := "memory_usage_high";
            auto_repair.message := "Cleared system caches" |}, w2)
    | _ :: _ =>
        ({| auto_repair.success := true;
            auto_repair.r_id := "memory_usage_high";
            auto_repair.message :=
              "Terminated " ++ str_of_nat (List.length pids)
                ++ " high memory processes and cleared caches" |},
         after_kills run pids w2)
    end.
Proof.
  intros Hrun Hrc Hdrop Hread pids.
  rewrite repair_issue_memory.
  unfold auto_repair._repair_memory_usage, auto_repair.try_repair. cbv zeta.
  unfold auto_repair.rbind at 1, auto_repair.run_check at 1, auto_repair.rbind at 1.
  rewrite Hrun, Hrc. cbn [Z.eqb]. unfold auto_repair.rret at 1.
  unfold auto_repair.rbind at 1, auto_repair.run_nocheck at 1. rewrite Hdrop.
  unfold auto_repair.rbind at 1, auto_repair.lift_exc.
  rewrite (collect_pids_spec 3 80 mem) by exact Hread.
  cbn [Nat.add]. fold pids. destruct pids as [| pid pids']; [reflexivity |].
  unfold auto_repair.rbind. now rewrite rfor_kill.
Qed.


End MoreHandlers.

Lemma open_ports_medium (st : SystemState) :
  Forall (fun i => severity i = medium) (security_monitor._check_open_ports st).
Proof. unfold security_monitor._check_open_ports. emits_ids. Qed.

Section Scope.

Variable W : Type.
Variable run : command -> W -> exc CompletedProcess * W.
Variable exists_ : string -> W -> bool.
Variable observe : W -> SystemState.
Variable clock : W -> Q.
Variable float : string -> exc Q.
Variable inet_aton : string -> exc unit.

Abbreviation repair_issue := (auto_repair.repair_issue W run exists_ float inet_aton).

(** X20: the disk handler cleans the same places for every mount point
    other than the root: for two ids that decode to mount points different
    from [/], it leaves the machine in the same state and succeeds or
    fails alike; the mount point only shows in the message. *)
Theorem disk_repair_ignores_mount_point (id1 id2 : string) (w : W) :
  auto_repair.disk_mountpoint id1 <> "/" ->
  auto_repair.disk_mountpoint id2 <> "/" ->
  snd (auto_repair._repair_disk_usage W run exists_ id1 w)
  = snd (auto_repair._repair_disk_usage W run exists_ id2 w)
  /\ auto_repair.success (fst (auto_repair._repair_disk_usage W run exists_ id1 w))
     = auto_repair.success (fst (auto_repair._repair_disk_usage W run exists_ id2 w)).
Proof.
  intros H1 H2. apply String.eqb_neq in H1, H2.
  unfold auto_repair._repair_disk_usage, auto_repair.try_repair. cbv zeta.
  rewrite H1, H2.
  unfold auto_repair.rbind, auto_repair.rret.
  match goal with
  | |- context [auto_repair.rfor W ?l ?b w] =>
      destruct (auto_repair.rfor W l b w) as [[[] | e] w']
  end; split; reflexivity.
Qed.

(** X21: for an id that begins with ["ssh_brute_force_"], [repair_issue]
    reads the address by deleting that prefix and turning underscores
    into dots; when [inet_aton] rejects it, the result is the failure
    "Invalid IP address: ..." and no command is run. *)
Theorem ssh_repair_invalid_address (issue_id : string) (e : exn) (w : W) :
  startswith issue_id "ssh_brute_force_" = true ->
  inet_aton (ssh_ip issue_id) = Raised e ->
  auto_repair.is_socket_error e = true ->
  repair_issue issue_id w =
    ({| auto_repair.success := false;
        auto_repair.r_id := issue_id;
        auto_repair.message := "Invalid IP address: " ++ ssh_ip issue_id |}, w).
Proof.
  intros Hp Hip Hsock. rewrite repair_issue_ssh by exact Hp.
  unfold auto_repair._repair_ssh_brute_force, auto_repair.try_repair. cbv zeta.
  fold (ssh_ip issue_id).
  unfold auto_repair.rbind at 1, auto_repair.valid_ip. now rewrite Hip, Hsock.
Qed.

Lemma repair_critical_skips (issues : list Issue) (w : W) :
  Forall (fun i => severity i <> high \/ unmatched (id i)) issues ->
  auto_repair.repair_critical W run exists_ float inet_aton issues w = w.
Proof.
  induction 1 as [| issue issues Hissue _ IH]; [reflexivity |].
  cbn [auto_repair.repair_critical].
  destruct (Severity_eqb (severity issue) high) eqn:Hsev; [| exact IH].
  destruct Hissue as [Hnot | Hun].
  - exfalso. apply Hnot. now destruct (severity issue).
  - now rewrite (repair_issue_no_branch W run exists_ float inet_aton _ w Hun).
Qed.

(** X22: a turn of the repair loop acts on issues of severity high only,
    and among those only the disk-usage and suspicious-process issues
    have a handler: when no disk issue is high and no suspicious process
    is found, the turn leaves the machine as it was; in particular the
    loop never closes an unexpected port, whose issues are medium. *)
Theorem repair_cycle_idle (w : W) (g : Globals) :
  Forall (fun i => severity i <> high) (health_monitor._check_disk_usage (observe w)) ->
  security_monitor._check_suspicious_processes (observe w) = [] ->
  fst (auto_repair._repair_cycle W run exists_ observe clock float inet_aton w g) = w.
Proof.
  intros Hdisk Hsus. unfold auto_repair._repair_cycle.
  rewrite (surjective_pairing (health_monitor.check_health (observe w) g)).
  rewrite (surjective_pairing
             (security_monitor.check_security (observe w) (clock w)
                (snd (health_monitor.check_health (observe w) g)))).
  cbn [fst]. rewrite check_health_issues, check_security_issues, Hsus.
  apply repair_critical_skips.
  set (st := observe w) in *.
  repeat (apply Forall_app; split).
  - eapply Forall_impl; [| exact Hdisk]. intros i Hi. now left.
  - eapply Forall_impl; [| apply memory_usage_ids]. cbn beta. intros i ->. right.
    repeat split; discriminate.
  - eapply Forall_impl; [| apply cpu_load_ids]. cbn beta. intros i [-> | ->]; right;
      repeat split; discriminate.
  - eapply Forall_impl; [| apply zombie_ids]. cbn beta. intros i ->. right.
    repeat split; discriminate.
  - eapply Forall_impl; [| apply inode_usage_ids]. cbn beta. intros i Hi. right.
    now apply unmatched_inode.
  - eapply Forall_impl; [| apply swap_usage_ids]. cbn beta. intros i ->. right.
    repeat split; discriminate.
  - eapply Forall_impl; [| apply system_updates_ids]. cbn beta. intros i ->. right.
    repeat split; discriminate.
  - eapply Forall_impl; [| apply failed_logins_ids]. cbn beta. intros i ->. right.
    repeat split; discriminate.
  - eapply Forall_impl; [| apply sudo_usage_ids]. cbn beta. intros i ->. right.
    repeat split; discriminate.
  - eapply Forall_impl; [| apply open_ports_medium]. cbn beta. intros i ->. left.
    discriminate.
  - constructor.
  - eapply Forall_impl; [| apply modified_system_files_ids]. cbn beta. intros i Hi.
    right. now apply unmatched_modified.
  - eapply Forall_impl; [| apply ssh_config_ids]. cbn beta. intros i [-> | ->]; right;
      repeat split; discriminate.
  - eapply Forall_impl; [| apply firewall_status_ids]. cbn beta. intros i ->. right.
    repeat split; discriminate.
Qed.

End Scope.

(* ================================================================== *)
(** * The handler theorems at sample machines *)
(* ================================================================== *)

(** The routing theorem at the disk issue of [/data]. *)
Lemma detected_issues_routing_witness :
  exists i,
    In i (health_monitor._check_disk_usage (Samples.with_disk "/data" 96 Samples.idle))
    /\ auto_repair.repair_issue Samples.Trace Samples.trace_run Samples.trace_exists
         Samples.no_float Samples.no_inet_aton (id i) []
       = auto_repair._repair_disk_usage Samples.Trace Samples.trace_run
           Samples.trace_exists (id i) [].
Proof.
  eexists. split; [left; reflexivity |].
  destruct (detected_issues_routing
              Samples.Trace Samples.trace_run Samples.trace_exists
              Samples.no_float Samples.no_inet_aton
              (Samples.with_disk "/data" 96 Samples.idle) 0 Samples.no_cache Samples.no_cache
              {| id := "disk_usage__data";
                 severity := high;
                 description := [VStr "Disk usage at "; VNum 96; VStr "% on "; VStr "/data"];
                 component := "disk";
                 data := [("mountpoint", VStr "/data");
                          ("usage_percent", VNum 96);
                          ("total_gb", VRound (gib (100 * 1024 ^ 3)) 2);
                          ("free_gb", VRound (gib (4 * 1024 ^ 3)) 2)] |}
              [])
    as [[_ H] | [[_ H] | [[_ H] | H]]].
  - left. reflexivity.
  - exact H.
  - reflexivity.
  - reflexivity.
  - reflexivity.
Defined.

Lemma open_port_repair_without_listener_witness :
  auto_repair.repair_issue Samples.Trace (XSamples.scripted_run []) XSamples.no_paths
    Samples.no_float Samples.no_inet_aton "unexpected_open_port_8081" []
  = ({| auto_repair.success := false;
        auto_repair.r_id := "unexpected_open_port_8081";
        auto_repair.message :=
          "Could not close port 8081: no process found or failed to terminate" |},
     [Shell "lsof -i :8081 | grep LISTEN"]).
Proof.
  apply (open_port_repair_without_listener
           Samples.Trace (XSamples.scripted_run []) XSamples.no_paths
           Samples.no_float Samples.no_inet_aton
           "8081" [] [Shell "lsof -i :8081 | grep LISTEN"]
           {| returncode := 1; stdout := "" |}).
  - reflexivity.
  - reflexivity.
  - left. discriminate.
Defined.

Lemma open_port_repair_kills_first_listener_witness :
  auto_repair.repair_issue Samples.Trace
    (XSamples.scripted_run
       [(Shell "lsof -i :8081 | grep LISTEN",
         {| returncode := 0; stdout := XSamples.lsof_sample |})])
    XSamples.no_paths Samples.no_float Samples.no_inet_aton "unexpected_open_port_8081" []
  = ({| auto_repair.success := true;
        auto_repair.r_id := "unexpected_open_port_8081";
        auto_repair.message := "Closed port 8081 by terminating process nc (PID 4242)" |},
     [Shell "lsof -i :8081 | grep LISTEN"; Argv ["kill"; "4242"]]).
Proof.
  apply (open_port_repair_kills_first_listener
           Samples.Trace
           (XSamples.scripted_run
              [(Shell "lsof -i :8081 | grep LISTEN",
                {| returncode := 0; stdout := XSamples.lsof_sample |})])
           XSamples.no_paths Samples.no_float Samples.no_inet_aton
           "8081" [] [Shell "lsof -i :8081 | grep LISTEN"]
           [Shell "lsof -i :8081 | grep LISTEN"; Argv ["kill"; "4242"]]
           {| returncode := 0; stdout := XSamples.lsof_sample |}
           {| returncode := 1; stdout := "" |}
           "nc      4242 root    3u  IPv4  12345      0t0  TCP *:8081 (LISTEN)"
           "nc" "4242" []
           ["root"; "3u"; "IPv4"; "12345"; "0t0"; "TCP"; "*:8081"; "(LISTEN)"]).
  - reflexivity.
  - reflexivity.
  - reflexivity.
  - discriminate.
  - reflexivity.
  - reflexivity.
  - reflexivity.
Defined.

Lemma suspicious_process_repair_witness :
  auto_repair.repair_issue Samples.Trace
    (XSamples.scripted_run
       [(Shell "pgrep nmap",
         {| returncode := 0; stdout := "101" ++ String LF ("102" ++ String LF "") |})])
    XSamples.no_paths Samples.no_float Samples.no_inet_aton "suspicious_process_nmap" []
  = ({| auto_repair.success := true;
        auto_repair.r_id := "suspicious_process_nmap";
        auto_repair.message := "Terminated suspicious process nmap" |},
     [Shell "pgrep nmap"; Argv ["kill"; "101"]; Argv ["kill"; "102"]]).
Proof.
  destruct (suspicious_process_repair
              Samples.Trace
              (XSamples.scripted_run
                 [(Shell "pgrep nmap",
                   {| returncode := 0;
                      stdout := "101" ++ String LF ("102" ++ String LF "") |})])
              XSamples.no_paths Samples.no_float Samples.no_inet_aton
              "nmap" [] [Shell "pgrep nmap"]
              {| returncode := 0; stdout := "101" ++ String LF ("102" ++ String LF "") |})
    as [Hkill _].
  - do 3 right. left. reflexivity.
  - reflexivity.
  - apply Hkill; [reflexivity | discriminate].
Defined.

Lemma cpu_repair_kills_above_90_witness :
  auto_repair.repair_issue Samples.Trace
    (XSamples.scripted_run
       [(Shell "ps aux --sort=-%cpu | head -11",
         {| returncode := 0; stdout := XSamples.ps_aux_sample |})])
    XSamples.no_paths XSamples.sample_float Samples.no_inet_aton "cpu_usage_high" []
  = ({| auto_repair.success := true;
        auto_repair.r_id := "cpu_usage_high";
        auto_repair.message := "Terminated 1 high CPU processes" |},
     [Shell "ps aux --sort=-%cpu | head -11"; Argv ["kill"; "4242"]]).
Proof.
  apply (cpu_repair_kills_above_90
           Samples.Trace
           (XSamples.scripted_run
              [(Shell "ps aux --sort=-%cpu | head -11",
                {| returncode := 0; stdout := XSamples.ps_aux_sample |})])
           XSamples.no_paths XSamples.sample_float Samples.no_inet_aton
           [] [Shell "ps aux --sort=-%cpu | head -11"]
           {| returncode := 0; stdout := XSamples.ps_aux_sample |}
           (XSamples.column 2)).
  - reflexivity.
  - reflexivity.
  - intros line Hin _. vm_compute in Hin.
    destruct Hin as [<- | [<- | [<- | []]]]; reflexivity.
Defined.

Lemma memory_repair_succeeds_after_ps_witness :
  auto_repair.repair_issue Samples.Trace
    (XSamples.scripted_run
       [(Shell "ps aux --sort=-%mem | head -11",
         {| returncode := 0; stdout := XSamples.ps_aux_sample |})])
    XSamples.no_paths XSamples.sample_float Samples.no_inet_aton "memory_usage_high" []
  = ({| auto_repair.success := true;
        auto_repair.r_id := "memory_usage_high";
        auto_repair.message := "Cleared system caches" |},
     [Shell "ps aux --sort=-%mem | head -11";
      Shell "sync && echo 3 > /proc/sys/vm/drop_caches"]).
Proof.
  apply (memory_repair_succeeds_after_ps
           Samples.Trace
           (XSamples.scripted_run
              [(Shell "ps aux --sort=-%mem | head -11",
                {| returncode := 0; stdout := XSamples.ps_aux_sample |})])
           XSamples.no_paths XSamples.sample_float Samples.no_inet_aton
           [] [Shell "ps aux --sort=-%mem | head -11"]
           [Shell "ps aux --sort=-%mem | head -11";
            Shell "sync && echo 3 > /proc/sys/vm/drop_caches"]
           {| returncode := 0; stdout := XSamples.ps_aux_sample |}
           {| returncode := 1; stdout := "" |}
           (XSamples.column 3)).
  - reflexivity.
  - reflexivity.
  - reflexivity.
  - intros line Hin _. vm_compute in Hin.
    destruct Hin as [<- | [<- | [<- | []]]]; reflexivity.
Defined.


Lemma disk_repair_ignores_mount_point_witness :
  snd (auto_repair._repair_disk_usage Samples.Trace Samples.trace_run Samples.trace_exists
         "disk_usage__data" [])
  = snd (auto_repair._repair_disk_usage Samples.Trace Samples.trace_run Samples.trace_exists
           "disk_usage__srv" [])
  /\ auto_repair.success
       (fst (auto_repair._repair_disk_usage Samples.Trace Samples.trace_run
               Samples.trace_exists "disk_usage__data" []))
     = auto_repair.success
         (fst (auto_repair._repair_disk_usage Samples.Trace Samples.trace_run
                 Samples.trace_exists "disk_usage__srv" [])).
Proof.
  apply (disk_repair_ignores_mount_point
           Samples.Trace Samples.trace_run Samples.trace_exists
           "disk_usage__data" "disk_usage__srv" []); discriminate.
Defined.

Lemma ssh_repair_invalid_address_witness :
  auto_repair.repair_issue Samples.Trace Samples.trace_run Samples.trace_exists
    Samples.no_float Samples.no_inet_aton "ssh_brute_force_not_an_address" []
  = ({| auto_repair.success := false;
        auto_repair.r_id := "ssh_brute_force_not_an_address";
        auto_repair.message := "Invalid IP address: not.an.address" |}, []).
Proof.
  apply (ssh_repair_invalid_address
           Samples.Trace Samples.trace_run Samples.trace_exists
           Samples.no_float Samples.no_inet_aton
           "ssh_brute_force_not_an_address"
           (Exception "OSError" "illegal IP address string passed to inet_aton") []).
  - reflexivity.
  - reflexivity.
  - reflexivity.
Defined.

Lemma repair_cycle_idle_witness :
  fst (auto_repair._repair_cycle Samples.Trace Samples.trace_run Samples.trace_exists
         (fun _ =>
            Samples.with_output (Shell "ss -tuln | grep LISTEN") Samples.ss_sample
              Samples.idle)
         (fun _ => 0%Q) Samples.no_float Samples.no_inet_aton [] Samples.no_cache)
  = [].
Proof.
  apply (repair_cycle_idle
           Samples.Trace Samples.trace_run Samples.trace_exists
           (fun _ =>
              Samples.with_output (Shell "ss -tuln | grep LISTEN") Samples.ss_sample
                Samples.idle)
           (fun _ => 0%Q) Samples.no_float Samples.no_inet_aton [] Samples.no_cache).
  - constructor.
  - reflexivity.
Defined.

(* ================================================================== *)
(** * Performance checks *)
(* ================================================================== *)

Lemma io_wait_ids (ps : PerformanceState) :
  Forall (fun i => id i = "high_io_wait") (health_monitor._check_io_wait ps).
Proof. unfold health_monitor._check_io_wait. emits_ids. Qed.

Lemma network_saturation_ids (ps : PerformanceState) :
  Forall (fun i => id i = "network_saturation")
         (health_monitor._check_network_saturation ps).
Proof. unfold health_monitor._check_network_saturation. emits_ids. Qed.

Lemma disk_io_ids (ps : PerformanceState) :
  Forall (fun i => id i = "slow_disk_io")
         (health_monitor._check_disk_io_performance ps).
Proof. unfold health_monitor._check_disk_io_performance. emits_ids. Qed.

(** X23: every issue of [check_performance] has one of the ids
    ["high_io_wait"], ["network_saturation"], ["slow_disk_io"], and none
    of them has a repair handler: [repair_issue] answers "No repair
    method available for this issue" and leaves the machine alone. *)
Theorem performance_issues_unrepaired
        (W : Type) (run : command -> W -> exc CompletedProcess * W)
        (exists_ : string -> W -> bool) (float : string -> exc Q)
        (inet_aton : string -> exc unit)
        (ps : PerformanceState) (i : Issue) (w : W) :
  In i (health_monitor.check_performance ps) ->
  In (id i) ["high_io_wait"; "network_saturation"; "slow_disk_io"]
  /\ auto_repair.repair_issue W run exists_ float inet_aton (id i) w
     = (no_repair_method (id i), w).
Proof.
  unfold health_monitor.check_performance. cbn [app]. intros Hin.
  pose proof (io_wait_ids ps) as Hio.
  pose proof (network_saturation_ids ps) as Hnet.
  pose proof (disk_io_ids ps) as Hdisk.
  rewrite Forall_forall in Hio, Hnet, Hdisk.
  repeat (apply in_app_or in Hin as [Hin | Hin]).
  - rewrite (Hio i Hin). split; [now left |].
    apply repair_issue_no_branch. repeat split; discriminate.
  - rewrite (Hnet i Hin). split; [right; now left |].
    apply repair_issue_no_branch. repeat split; discriminate.
  - rewrite (Hdisk i Hin). split; [do 2 right; now left |].
    apply repair_issue_no_branch. repeat split; discriminate.
Qed.

(** X24: the network check compares the byte counters since boot with
    [1024^3]: it reports saturation exactly when one of the two totals is
    above that number, so once it reports, it reports at every later
    check, the counters never going down. *)
Theorem network_saturation_is_cumulative (ps ps' : PerformanceState)
        (sent recv sent' recv' : Z) :
  psutil_net_io_counters ps = Ok (sent, recv) ->
  psutil_net_io_counters ps' = Ok (sent', recv') ->
  sent <= sent' -> recv <= recv' ->
  (map id (health_monitor._check_network_saturation ps) = ["network_saturation"]
   <-> 1024 ^ 3 < sent \/ 1024 ^ 3 < recv)
  /\ (map id (health_monitor._check_network_saturation ps) = ["network_saturation"] ->
      map id (health_monitor._check_network_saturation ps') = ["network_saturation"]).
Proof.
  intros Hps Hps' Hsent Hrecv.
  assert (Hshape : forall q s r,
             psutil_net_io_counters q = Ok (s, r) ->
             (map id (health_monitor._check_network_saturation q) = ["network_saturation"]
              <-> 1024 ^ 3 < s \/ 1024 ^ 3 < r)).
  { intros q s r Hq. unfold health_monitor._check_network_saturation, try_except.
    rewrite Hq. unfold call, bind. cbv zeta.
    destruct (Z.gtb_spec s (1024 ^ 3)) as [Hs | Hs];
      destruct (Z.gtb_spec r (1024 ^ 3)) as [Hr | Hr];
      cbn [orb fst map id]; split; intros H; try reflexivity; try discriminate H;
      try (now left); try (now right).
    destruct H; lia. }
  split; [now apply Hshape |].
  intros H. apply (Hshape ps sent recv Hps) in H.
  apply (Hshape ps' sent' recv' Hps'). destruct H; [left | right]; lia.
Qed.

Lemma network_saturation_is_cumulative_witness :
  map id (health_monitor._check_network_saturation
            {| psutil_cpu_times_percent_iowait := Ok 0%Q;
               psutil_net_io_counters := Ok (2 * 1024 ^ 3 + 5, 10);
               psutil_disk_io_counters := Ok (0, 0) |})
  = ["network_saturation"].
Proof.
  apply (network_saturation_is_cumulative
           {| psutil_cpu_times_percent_iowait := Ok 0%Q;
              psutil_net_io_counters := Ok (2 * 1024 ^ 3, 10);
              psutil_disk_io_counters := Ok (0, 0) |}
           {| psutil_cpu_times_percent_iowait := Ok 0%Q;
              psutil_net_io_counters := Ok (2 * 1024 ^ 3 + 5, 10);
              psutil_disk_io_counters := Ok (0, 0) |}
           (2 * 1024 ^ 3) 10 (2 * 1024 ^ 3 + 5) 10).
  - reflexivity.
  - reflexivity.
  - vm_compute. discriminate.
  - vm_compute. discriminate.
  - reflexivity.
Defined.

Lemma performance_issues_unrepaired_witness :
  auto_repair.repair_issue Samples.Trace Samples.trace_run Samples.trace_exists
    Samples.no_float Samples.no_inet_aton "high_io_wait" []
  = (no_repair_method "high_io_wait", []).
Proof.
  apply (performance_issues_unrepaired
           Samples.Trace Samples.trace_run Samples.trace_exists
           Samples.no_float Samples.no_inet_aton
           {| psutil_cpu_times_percent_iowait := Ok 45%Q;
              psutil_net_io_counters := Ok (0, 0);
              psutil_disk_io_counters := Ok (0, 0) |}
           {| id := "high_io_wait";
              severity := high;
              description := [VStr "High I/O wait time: "; VNum 45; VStr "%"];
              component := "io";
              data := [("io_wait_percent", VNum 45)] |}
           []).
  left. reflexivity.
Defined.

(* ================================================================== *)
(** * The daemon's PID file and log *)
(* ================================================================== *)

Lemma int_raises_ValueError (s : string) (e : exn) :
  int s = Raised e -> service.isinstance e service.ValueError_classes = true.
Proof.
  unfold int. destruct (strip s) as [| c t].
  - destruct (literal_digits false ""); [discriminate |]. now intros [= <-].
  - destruct (match String c t with
              | String "-" r => (-1, r)
              | String "+" r => (1, r)
              | _ => (1, String c t)
              end) as [sign body].
    destruct (literal_digits false body); [discriminate |]. now intros [= <-].
Qed.

Section ServiceFacts.

Variable W : Type.
Variable exists_ : string -> W -> bool.
Variable read : string -> W -> exc string.
Variable unlink : string -> W -> exc unit * W.
Variable os_kill : Z -> Z -> W -> exc unit * W.
Variable cmdline : Z -> W -> exc (list string).
Variable sleep : Z -> W -> W.
Variable tail : command -> W -> exc (CompletedProcess * string).
Variable process : Z -> W -> exc unit.
Variable create_time : Z -> W -> exc Q.
Variable memory_rss : Z -> W -> exc Z.
Variable process_cpu_percent : Z -> W -> exc Q.
Variable time_time : W -> Q.

Abbreviation is_daemon_running :=
  (service.is_daemon_running W exists_ read unlink os_kill cmdline).
Abbreviation stop_daemon :=
  (service.stop_daemon W exists_ read unlink os_kill cmdline sleep).

(** X25: a PID file that does not stand for a process is removed by the
    probe itself.  When the file exists and its text is no integer, or
    the integer is the pid of no process that can be signalled
    ([os.kill(pid, 0)] raises an [OSError], which a live process of
    another user does as well), [is_daemon_running] unlinks the file and
    answers [False]. *)
Theorem stale_pid_file_is_removed (w : W) (text : string) :
  exists_ service.DAEMON_PID_FILE w = true ->
  read service.DAEMON_PID_FILE w = Ok text ->
  (forall e w',
      int (strip text) = Raised e ->
      unlink service.DAEMON_PID_FILE w = (Ok tt, w') ->
      is_daemon_running w = (Ok false, w'))
  /\ (forall pid e w1 w2,
        int (strip text) = Ok pid ->
        os_kill pid 0 w = (Raised e, w1) ->
        service.isinstance e service.OSError_classes = true ->
        exists_ service.DAEMON_PID_FILE w1 = true ->
        unlink service.DAEMON_PID_FILE w1 = (Ok tt, w2) ->
        is_daemon_running w = (Ok false, w2)).
Proof.
  intros Hex Hread. split.
  - intros e w' Hint Hunlink.
    unfold service.is_daemon_running, service.try_catch, service.read_pid,
      service.path_exists, service.look, service.ret, auto_repair.rbind,
      auto_repair.lift_exc, auto_repair.rret.
    rewrite Hex. cbn [negb]. rewrite Hread, Hint.
    rewrite (int_raises_ValueError _ _ Hint), orb_true_r, Hex, Hunlink. reflexivity.
  - intros pid e w1 w2 Hint Hkill Hos Hex1 Hunlink.
    unfold service.is_daemon_running, service.try_catch, service.read_pid,
      service.path_exists, service.look, service.ret, auto_repair.rbind,
      auto_repair.lift_exc, auto_repair.rret.
    rewrite Hex. cbn [negb]. rewrite Hread, Hint, Hkill, Hos. cbn [orb].
    rewrite Hex1, Hunlink. reflexivity.
Qed.

(** X26: with a PID file naming a process that can be signalled,
    [is_daemon_running] answers [True] exactly when some argument of the
    command line of that process contains ["python"] and some argument
    contains ["up"]; when it answers [False] here, or the process cannot be
    inspected, the PID file is left in place. *)
Theorem daemon_identity_check (w w1 : W) (text : string) (pid : Z) :
  exists_ service.DAEMON_PID_FILE w = true ->
  read service.DAEMON_PID_FILE w = Ok text ->
  int (strip text) = Ok pid ->
  os_kill pid 0 w = (Ok tt, w1) ->
  (forall args, cmdline pid w1 = Ok args ->
     is_daemon_running w =
       (Ok (existsb (contains "python") args && existsb (contains "up") args), w1))
  /\ (forall e, cmdline pid w1 = Raised e ->
        service.isinstance e service.psutil_gone_classes = true ->
        is_daemon_running w = (Ok false, w1)).
Proof.
  intros Hex Hread Hint Hkill. split.
  - intros args Hargs.
    unfold service.is_daemon_running, service.try_catch, service.read_pid,
      service.path_exists, service.look, service.ret, auto_repair.rbind,
      auto_repair.lift_exc, auto_repair.rret.
    rewrite Hex. cbn [negb]. now rewrite Hread, Hint, Hkill, Hargs.
  - intros e Hargs Hgone.
    unfold service.is_daemon_running, service.try_catch, service.read_pid,
      service.path_exists, service.look, service.ret, auto_repair.rbind,
      auto_repair.lift_exc, auto_repair.rret.
    rewrite Hex. cbn [negb]. now rewrite Hread, Hint, Hkill, Hargs, Hgone.
Qed.

Lemma wait_for_exit_alive (w1 : W) (n j : nat) :
  (forall k, (j <= k < j + n)%nat ->
             is_daemon_running (Nat.iter k (sleep 1) w1)
             = (Ok true, Nat.iter k (sleep 1) w1)) ->
  service.wait_for_exit W exists_ read unlink os_kill cmdline sleep n
    (Nat.iter j (sleep 1) w1)
  = (Ok false, Nat.iter (j + n) (sleep 1) w1).
Proof.
  revert j. induction n as [| n IH]; intros j Halive.
  - now rewrite Nat.add_0_r.
  - cbn [service.wait_for_exit]. unfold auto_repair.rbind.
    rewrite Halive by lia. cbn [negb].
    change (sleep 1 (Nat.iter j (sleep 1) w1)) with (Nat.iter (S j) (sleep 1) w1).
    rewrite IH by (intros k Hk; apply Halive; lia).
    now rewrite Nat.add_succ_comm.
Qed.

(** X27: [stop_daemon] waits a bounded time.  If the daemon is seen
    running at the first probe and at every probe of the ten seconds
    after [SIGTERM], then after exactly ten sleeps of one second
    [stop_daemon] sends [SIGKILL], removes the PID file and returns
    [True], without checking that the process has gone. *)
Theorem stop_daemon_escalates_after_ten_seconds (w w1 w2 w3 : W) (text : string) (pid : Z) :
  is_daemon_running w = (Ok true, w) ->
  (forall k, (k <= 10)%nat ->
             is_daemon_running (Nat.iter k (sleep 1) w1)
             = (Ok true, Nat.iter k (sleep 1) w1)) ->
  read service.DAEMON_PID_FILE w = Ok text ->
  int (strip text) = Ok pid ->
  os_kill pid service.SIGTERM w = (Ok tt, w1) ->
  os_kill pid service.SIGKILL (Nat.iter 10 (sleep 1) w1) = (Ok tt, w2) ->
  exists_ service.DAEMON_PID_FILE w2 = true ->
  unlink service.DAEMON_PID_FILE w2 = (Ok tt, w3) ->
  stop_daemon w = (Ok true, w3).
Proof.
  intros Hfirst Halive Hread Hint Hterm Hkill Hex Hunlink.
  unfold service.stop_daemon.
  unfold auto_repair.rbind at 1. rewrite Hfirst. cbn [negb].
  unfold service.try_catch, service.read_pid, service.look, auto_repair.lift_exc.
  unfold auto_repair.rbind at 1. unfold auto_repair.rbind at 1.
  rewrite Hread, Hint.
  unfold auto_repair.rbind at 1. rewrite Hterm.
  unfold auto_repair.rbind at 1.
  assert (Hwait := wait_for_exit_alive w1 10 0).
  change (Nat.iter 0 (sleep 1) w1) with w1 in Hwait.
  change (0 + 10)%nat with 10%nat in Hwait.
  rewrite Hwait by (intros k Hk; apply Halive; lia). clear Hwait.
  unfold auto_repair.rbind at 1. rewrite (Halive 10%nat) by lia.
  unfold auto_repair.rbind at 1. unfold auto_repair.rbind at 1. rewrite Hkill.
  unfold auto_repair.rbind at 1, service.path_exists. rewrite Hex, Hunlink.
  reflexivity.
Qed.

(** X28: [get_logs] never returns an empty list: a missing log file, a
    failing [tail] and an exception each give one line of explanation,
    and an empty log gives one empty line. *)
Theorem get_logs_never_empty (lines : Z) (w : W) :
  (1 <= List.length (service.get_logs W exists_ tail lines w))%nat.
Proof.
  unfold service.get_logs.
  destruct (exists_ service.DAEMON_LOG_FILE w); cbn [negb]; [| apply Nat.le_refl].
  cbv zeta. destruct (tail _ w) as [[result stderr] | e]; [| apply Nat.le_refl].
  destruct (returncode result =? 0); [apply split_on_nonempty | apply Nat.le_refl].
Qed.

(** X29: the keys of the status dictionary are set in a fixed order, so a
    key that is present has all earlier ones beside it: without a running
    daemon only [running], [pid_file] and [log_file] are set, and
    otherwise [security_issues], [health_issues], [cpu_percent],
    [memory_usage], [uptime], [pid] each imply the next; the two counts
    are the lengths of the cached issue lists. *)
Theorem daemon_status_keys (g : Globals) (w w' : W) (s : service.Status) :
  service.daemon_status W exists_ read unlink os_kill cmdline process create_time
    memory_rss process_cpu_percent time_time g w = (Ok s, w') ->
  service.pid_file s = service.DAEMON_PID_FILE
  /\ service.log_file s = service.DAEMON_LOG_FILE
  /\ (service.running s = false ->
      service.pid s = None /\ service.uptime s = None /\ service.memory_usage s = None
      /\ service.cpu_percent s = None /\ service.health_issues s = None
      /\ service.security_issues s = None)
  /\ (service.security_issues s <> None -> service.health_issues s <> None)
  /\ (service.health_issues s <> None -> service.cpu_percent s <> None)
  /\ (service.cpu_percent s <> None -> service.memory_usage s <> None)
  /\ (service.memory_usage s <> None -> service.uptime s <> None)
  /\ (service.uptime s <> None -> service.pid s <> None)
  /\ (service.pid s <> None -> service.running s = true)
  /\ (forall n, service.health_issues s = Some n -> n = List.length (_health_issues g))
  /\ (forall n, service.security_issues s = Some n -> n = List.length (_security_issues g)).
Proof.
  unfold service.daemon_status, auto_repair.rbind, service.ret, auto_repair.rret.
  destruct (is_daemon_running w) as [[[|] | e] w1]; [| | discriminate].
  - intros [= <- _].
    unfold service.fill_status, health_monitor.get_health_issues,
      security_monitor.get_security_issues.
    destruct (read service.DAEMON_PID_FILE w1) as [text |];
      [| cbn; repeat split; congruence].
    destruct (int (strip text)) as [pid |]; [| cbn; repeat split; congruence].
    destruct (process pid w1); [| cbn; repeat split; congruence].
    destruct (create_time pid w1); [| cbn; repeat split; congruence].
    destruct (memory_rss pid w1); [| cbn; repeat split; congruence].
    destruct (process_cpu_percent pid w1); cbn; repeat split; congruence.
  - intros [= <- _]. cbn. repeat split; congruence.
Qed.

End ServiceFacts.

Lemma stale_pid_file_is_removed_witness :
  service.is_daemon_running ServiceSamples.Box ServiceSamples.box_exists
    ServiceSamples.box_read ServiceSamples.box_unlink ServiceSamples.box_kill
    ServiceSamples.box_cmdline ServiceSamples.garbled
  = (Ok false, {| ServiceSamples.pid_file_text := None; ServiceSamples.processes := [] |})
  /\ service.is_daemon_running ServiceSamples.Box ServiceSamples.box_exists
       ServiceSamples.box_read ServiceSamples.box_unlink ServiceSamples.box_kill
       ServiceSamples.box_cmdline ServiceSamples.stale
     = (Ok false, {| ServiceSamples.pid_file_text := None; ServiceSamples.processes := [] |}).
Proof.
  split.
  - destruct (stale_pid_file_is_removed
                ServiceSamples.Box ServiceSamples.box_exists ServiceSamples.box_read
                ServiceSamples.box_unlink ServiceSamples.box_kill ServiceSamples.box_cmdline
                ServiceSamples.garbled "not a pid") as [Hgarbled _];
      [reflexivity | reflexivity |].
    apply (Hgarbled (ValueError "invalid literal for int() with base 10: not a pid"));
      reflexivity.
  - destruct (stale_pid_file_is_removed
                ServiceSamples.Box ServiceSamples.box_exists ServiceSamples.box_read
                ServiceSamples.box_unlink ServiceSamples.box_kill ServiceSamples.box_cmdline
                ServiceSamples.stale ("4242" ++ String LF "")) as [_ Hstale];
      [reflexivity | reflexivity |].
    apply (Hstale 4242 (Exception "ProcessLookupError" "[Errno 3] No such process")
                  ServiceSamples.stale);
      reflexivity.
Defined.

(** The theorem at a supervisor written in Python: it passes for the
    daemon. *)
Lemma daemon_identity_check_witness :
  service.is_daemon_running ServiceSamples.Box ServiceSamples.box_exists
    ServiceSamples.box_read ServiceSamples.box_unlink ServiceSamples.box_kill
    ServiceSamples.box_cmdline ServiceSamples.supervised
  = (Ok true, ServiceSamples.supervised).
Proof.
  destruct (daemon_identity_check
              ServiceSamples.Box ServiceSamples.box_exists ServiceSamples.box_read
              ServiceSamples.box_unlink ServiceSamples.box_kill ServiceSamples.box_cmdline
              ServiceSamples.supervised ServiceSamples.supervised
              ("4242" ++ String LF "") 4242) as [Hargs _];
    [reflexivity | reflexivity | reflexivity | reflexivity |].
  exact (Hargs ["python3"; "/usr/bin/supervisord"; "-n"] eq_refl).
Defined.

Lemma stop_daemon_escalates_after_ten_seconds_witness :
  service.stop_daemon ServiceSamples.Box ServiceSamples.box_exists
    ServiceSamples.box_read ServiceSamples.box_unlink ServiceSamples.box_kill
    ServiceSamples.box_cmdline ServiceSamples.box_sleep ServiceSamples.supervised
  = (Ok true,
     {| ServiceSamples.pid_file_text := None;
        ServiceSamples.processes := [(4242, ["python3"; "/usr/bin/supervisord"; "-n"])] |}).
Proof.
  apply (stop_daemon_escalates_after_ten_seconds
           ServiceSamples.Box ServiceSamples.box_exists ServiceSamples.box_read
           ServiceSamples.box_unlink ServiceSamples.box_kill ServiceSamples.box_cmdline
           ServiceSamples.box_sleep
           ServiceSamples.supervised ServiceSamples.supervised ServiceSamples.supervised
           {| ServiceSamples.pid_file_text := None;
              ServiceSamples.processes := [(4242, ["python3"; "/usr/bin/supervisord"; "-n"])] |}
           ("4242" ++ String LF "") 4242).
  - reflexivity.
  - intros k _.
    assert (Hsame : Nat.iter k (ServiceSamples.box_sleep 1) ServiceSamples.supervised
                    = ServiceSamples.supervised)
      by (clear; induction k as [| k IH]; [reflexivity | now rewrite Nat.iter_succ, IH]).
    rewrite Hsame. reflexivity.
  - reflexivity.
  - reflexivity.
  - reflexivity.
  - reflexivity.
  - reflexivity.
  - reflexivity.
Defined.

Lemma daemon_status_keys_witness :
  service.pid_file
    {| service.running := true;
       service.pid_file := service.DAEMON_PID_FILE;
       service.log_file := service.DAEMON_LOG_FILE;
       service.pid := Some 4242;
       service.uptime := None; service.memory_usage := None;
       service.cpu_percent := None; service.health_issues := None;
       service.security_issues := None |}
  = service.DAEMON_PID_FILE.
Proof.
  apply (daemon_status_keys
           ServiceSamples.Box ServiceSamples.box_exists ServiceSamples.box_read
           ServiceSamples.box_unlink ServiceSamples.box_kill ServiceSamples.box_cmdline
           (fun _ _ => Ok tt)
           (fun _ _ => Raised (Exception "AccessDenied" "create_time"))
           (fun _ _ => Ok 0) (fun _ _ => Ok 0%Q) (fun _ => 0%Q)
           Samples.no_cache ServiceSamples.supervised ServiceSamples.supervised).
  reflexivity.
Defined.

(* ================================================================== *)
(** * The uptime line *)
(* ================================================================== *)

Lemma Qfloor_unique (x : Q) (z : Z) :
  (inject_Z z <= x)%Q -> (x < inject_Z (z + 1))%Q -> Qfloor x = z.
Proof.
  intros Hle Hlt.
  pose proof (Qfloor_le x) as Hfl. pose proof (Qlt_floor x) as Hfu.
  assert (H1 : (inject_Z z < inject_Z (Qfloor x + 1))%Q)
    by (eapply Qle_lt_trans; eassumption).
  assert (H2 : (inject_Z (Qfloor x) < inject_Z (z + 1))%Q)
    by (eapply Qle_lt_trans; eassumption).
  rewrite <- Zlt_Qlt in H1, H2. lia.
Qed.

Lemma int_of_float_Z (z : Z) : daemon_command.int_of_float (inject_Z z) = z.
Proof. unfold daemon_command.int_of_float. simpl. apply Z.quot_1_r. Qed.

Lemma int_of_float_floor (x : Q) :
  (0 <= x)%Q -> daemon_command.int_of_float x = Qfloor x.
Proof.
  intros Hx. unfold daemon_command.int_of_float, Qfloor. destruct x as [n p].
  apply Z.quot_div_nonneg; [| lia].
  unfold Qle in Hx. simpl in Hx. lia.
Qed.

(** Quotient and rest of [divmod] for a positive divisor. *)
Lemma divmod_spec (x : Q) (y : Z) :
  0 < y ->
  let '(q, r) := daemon_command.divmod x y in
  (exists k, q = inject_Z k) /\ (x == q * inject_Z y + r)%Q
  /\ (0 <= r)%Q /\ (r < inject_Z y)%Q.
Proof.
  intros Hy. unfold daemon_command.divmod. cbv zeta.
  set (k := Qfloor (x / inject_Z y)).
  assert (Hypos : (0 < inject_Z y)%Q) by (change 0%Q with (inject_Z 0); now rewrite <- Zlt_Qlt).
  pose proof (Qfloor_le (x / inject_Z y)) as Hl.
  pose proof (Qlt_floor (x / inject_Z y)) as Hu. fold k in Hl, Hu.
  rewrite inject_Z_plus in Hu.
  assert (Hmul : (x == (x / inject_Z y) * inject_Z y)%Q).
  { field. intros E. rewrite E in Hypos. now apply Qlt_irrefl in Hypos. }
  apply (Qmult_le_r _ _ _ Hypos) in Hl.
  apply (Qmult_lt_r _ _ _ Hypos) in Hu.
  rewrite <- Hmul in Hl, Hu.
  split; [now exists k |]. split; [ring |].
  split; [lra |].
  change (inject_Z 1) with 1%Q in Hu. lra.
Qed.

Lemma inject_Z_lt_const (k c : Z) : (inject_Z k < inject_Z c)%Q -> k < c.
Proof. now rewrite <- Zlt_Qlt. Qed.

(** X30: for an uptime that is not negative and below [2^53] seconds
    (where the float computation is exact), the uptime line of
    [daemon status] splits it into days, hours, minutes and seconds that
    add up to the whole seconds of the uptime, with days not negative,
    hours below 24 and minutes and seconds below 60. *)
Theorem uptime_fields_decompose (uptime_seconds : Q) :
  (0 <= uptime_seconds)%Q ->
  (uptime_seconds < inject_Z (2 ^ 53))%Q ->
  let '(days, hours, minutes, seconds) := daemon_command.uptime_fields uptime_seconds in
  0 <= days
  /\ 0 <= hours < 24
  /\ 0 <= minutes < 60
  /\ 0 <= seconds < 60
  /\ 86400 * days + 3600 * hours + 60 * minutes + seconds = Qfloor uptime_seconds.
Proof.
  intros Hpos _. unfold daemon_command.uptime_fields.
  pose proof (divmod_spec uptime_seconds 86400 eq_refl) as H1.
  destruct (daemon_command.divmod uptime_seconds 86400) as [q1 r1].
  destruct H1 as ([k1 ->] & Hu & Hr1 & Hr1').
  pose proof (divmod_spec r1 3600 eq_refl) as H2.
  destruct (daemon_command.divmod r1 3600) as [q2 r2].
  destruct H2 as ([k2 ->] & Hr1eq & Hr2 & Hr2').
  pose proof (divmod_spec r2 60 eq_refl) as H3.
  destruct (daemon_command.divmod r2 60) as [q3 r3].
  destruct H3 as ([k3 ->] & Hr2eq & Hr3 & Hr3').
  rewrite !int_of_float_Z, (int_of_float_floor r3 Hr3).
  pose proof (Qfloor_le r3) as Hfl. pose proof (Qlt_floor r3) as Hfu.
  rewrite inject_Z_plus in Hfu. change (inject_Z 1) with 1%Q in Hfu.
  change (inject_Z 86400) with 86400%Q in *.
  change (inject_Z 3600) with 3600%Q in *.
  change (inject_Z 60) with 60%Q in *.
  assert (Hk2 : 0 <= k2 < 24).
  { split.
    - assert (H : (inject_Z (-1) < inject_Z k2)%Q) by (change (inject_Z (-1)) with (-1)%Q; lra).
      apply inject_Z_lt_const in H. lia.
    - apply inject_Z_lt_const. change (inject_Z 24) with 24%Q. lra. }
  assert (Hk3 : 0 <= k3 < 60).
  { split.
    - assert (H : (inject_Z (-1) < inject_Z k3)%Q) by (change (inject_Z (-1)) with (-1)%Q; lra).
      apply inject_Z_lt_const in H. lia.
    - apply inject_Z_lt_const. change (inject_Z 60) with 60%Q. lra. }
  assert (Hs : 0 <= Qfloor r3 < 60).
  { split.
    - assert (H : (inject_Z (-1) < inject_Z (Qfloor r3))%Q)
        by (change (inject_Z (-1)) with (-1)%Q; lra).
      apply inject_Z_lt_const in H. lia.
    - apply inject_Z_lt_const. change (inject_Z 60) with 60%Q. lra. }
  assert (Hk1 : 0 <= k1).
  { assert (H : (inject_Z (-1) < inject_Z k1)%Q) by (change (inject_Z (-1)) with (-1)%Q; lra).
    apply inject_Z_lt_const in H. lia. }
  repeat split; try lia.
  symmetry. apply Qfloor_unique.
  - rewrite !inject_Z_plus, !inject_Z_mult.
    change (inject_Z 86400) with 86400%Q. change (inject_Z 3600) with 3600%Q.
    change (inject_Z 60) with 60%Q. lra.
  - rewrite !inject_Z_plus, !inject_Z_mult.
    change (inject_Z 86400) with 86400%Q. change (inject_Z 3600) with 3600%Q.
    change (inject_Z 60) with 60%Q. change (inject_Z 1) with 1%Q. lra.
Qed.

Lemma uptime_fields_decompose_witness :
  let '(days, hours, minutes, seconds) := daemon_command.uptime_fields (937845 # 10) in
  0 <= days
  /\ 0 <= hours < 24
  /\ 0 <= minutes < 60
  /\ 0 <= seconds < 60
  /\ 86400 * days + 3600 * hours + 60 * minutes + seconds = Qfloor (937845 # 10).
Proof.
  apply (uptime_fields_decompose (937845 # 10)).
  - vm_compute. discriminate.
  - reflexivity.
Defined.
